(** * Mastodon account age checker: a shallow embedding and its properties

    The repository holds two stand-alone Express servers.  The one that
    reads [MASTODON_INSTANCES] and fans a bare username out over every
    configured instance is embedded in [Module Multi]; the older one, which
    only takes [username@instance], is [mastodon-age-checker.js] and is
    embedded in [Module Single].  The two files share [calculateAccountAge]
    and [calculateAgeDays] word for word.

    Conventions of the embedding.
    - A JavaScript string is a [string], a sequence of code units below
      256; a code unit is an [ascii].
    - A JSON number is an integer [Z]; a JavaScript number that may be
      [NaN] is an [option Z].  The counts and time values the service
      handles are integers below 2^53 in absolute value, where doubles are
      exact and [Math.floor(a / k)] is the integer quotient.
    - An object read from JSON is a [gmap string JsVal]; a missing key
      reads as [JUndefined].
    - The clock, the network, the date parser and the process environment
      form a [World]; an [async] function is a computation in the monad
      [M], which threads the clock reads, the outbound requests and the
      console, and carries exceptions. *)

From Stdlib Require Import ZArith NArith Ascii String List Lia.
From Stdlib Require Import DecimalString DecimalPos DecimalZ.
From stdpp Require Import base option list strings gmap.

Local Open Scope string_scope.

(** ** JavaScript values *)

Inductive JsVal : Type :=
  | JUndefined
  | JNull
  | JBool (b : bool)
  | JNum (n : Z)
  | JStr (s : string).

(** ToBoolean. *)
Definition truthy (v : JsVal) : bool :=
  match v with
  | JUndefined | JNull => false
  | JBool b => b
  | JNum n => negb (n =? 0)%Z
  | JStr s => negb (String.eqb s "")
  end.

(** [a || b]. *)
Definition js_or (a b : JsVal) : JsVal := if truthy a then a else b.

Definition nullish (v : JsVal) : bool :=
  match v with JUndefined | JNull => true | _ => false end.

(** Number.prototype.toString on a safe integer, one of absolute value
    below 2^53: there it prints every decimal digit, with a minus sign
    below zero.  Above that bound a JavaScript number no longer holds every
    integer and [toString] prints the shortest digits that read back as the
    same double, in exponent notation from 1e21 on; [JNum] holds integers
    only, so a count with a fraction is outside the model as well.  The
    properties of the counts are stated for safe integers. *)
Definition Number_toString (n : Z) : string :=
  NilZero.string_of_int (Z.to_int n).

(** A number that may be NaN, as it prints in a template literal. *)
Definition NaN_toString (n : option Z) : string :=
  match n with Some z => Number_toString z | None => "NaN" end.

(** ToString, as a template literal applies it. *)
Definition String_of (v : JsVal) : string :=
  match v with
  | JUndefined => "undefined"
  | JNull => "null"
  | JBool true => "true"
  | JBool false => "false"
  | JNum n => Number_toString n
  | JStr s => s
  end.

(** A response body or any other value read from JSON: a primitive, or an
    object whose fields hold primitives. *)
Inductive Data : Type :=
  | DPrim (v : JsVal)
  | DObj (o : gmap string JsVal).

Definition Data_truthy (d : Data) : bool :=
  match d with DPrim v => truthy v | DObj _ => true end.

(** [o.k] on an object. *)
Definition prop (o : gmap string JsVal) (k : string) : JsVal :=
  default JUndefined (o !! k).

(** ** Strings *)

(** [s.includes(c)] for a one-character needle. *)
Fixpoint includes (s : string) (c : ascii) : bool :=
  match s with
  | "" => false
  | String a s' => if Ascii.eqb a c then true else includes s' c
  end.

(** [s.split(c)] for a one-character separator. *)
Fixpoint split (s : string) (c : ascii) : list string :=
  match s with
  | "" => [""]
  | String a s' =>
      if Ascii.eqb a c then "" :: split s' c
      else match split s' c with
           | x :: xs => String a x :: xs
           | [] => [String a ""]
           end
  end.

(** [parts[i]] of a split, printed as a template literal prints it. *)
Definition part (parts : list string) (i : nat) : string :=
  nth i parts "undefined".

(** [l.join(sep)]. *)
Definition join (l : list string) (sep : string) : string :=
  String.concat sep l.

(** Every code unit of [s] is in the class [p]. *)
Fixpoint all_chars (p : ascii -> bool) (s : string) : Prop :=
  match s with
  | "" => True
  | String c s' => p c = true /\ all_chars p s'
  end.

Definition in_range (lo hi : N) (c : ascii) : bool :=
  (lo <=? N_of_ascii c)%N && (N_of_ascii c <=? hi)%N.

Definition is_char (a : ascii) (c : ascii) : bool := Ascii.eqb c a.

Definition hex_digit (n : N) : ascii :=
  ascii_of_N (if (n <? 10)%N then 48 + n else 55 + n).

Definition percent (n : N) : string :=
  String "%" (String (hex_digit (n / 16)) (String (hex_digit (n mod 16)) "")).

(** The characters [encodeURIComponent] leaves alone. *)
Definition uri_unreserved (c : ascii) : bool :=
  in_range 65 90 c || in_range 97 122 c || in_range 48 57 c
  || is_char "-" c || is_char "_" c || is_char "." c || is_char "!" c
  || is_char "~" c || is_char "*" c || is_char "'" c || is_char "(" c
  || is_char ")" c.

(** [encodeURIComponent]: every other code unit is written as the
    percent-escaped bytes of its UTF-8 encoding.  It throws on a lone
    surrogate only, which no string of code units below 256 holds. *)
Fixpoint encodeURIComponent (s : string) : string :=
  match s with
  | "" => ""
  | String c s' =>
      let n := N_of_ascii c in
      (if uri_unreserved c then String c ""
       else if (n <? 128)%N then percent n
       else percent (192 + n / 64) +:+ percent (128 + n mod 64))
      +:+ encodeURIComponent s'
  end.

(** ** Regular expressions

    The backtracking matcher of ECMAScript, in continuation-passing style:
    [run r s k] tries the ways [r] can match a prefix of [s] in priority
    order and returns the first answer the continuation [k] gives on the
    rest of the input.  Quantifiers are greedy. *)

Inductive RegExp : Type :=
  | Eps
  | Class (p : ascii -> bool)
  | Seq (a b : RegExp)
  | Alt (a b : RegExp)
  | Star (a : RegExp).

(** [a?] *)
Definition Opt (a : RegExp) : RegExp := Alt a Eps.

(** [a{n}] *)
Fixpoint Rep (n : nat) (a : RegExp) : RegExp :=
  match n with
  | O => Eps
  | S n' => Seq a (Rep n' a)
  end.

(** [a{0,n}] *)
Fixpoint UpTo (n : nat) (a : RegExp) : RegExp :=
  match n with
  | O => Eps
  | S n' => Opt (Seq a (UpTo n' a))
  end.

(** [a{lo,hi}] *)
Definition Between (lo hi : nat) (a : RegExp) : RegExp :=
  Seq (Rep lo a) (UpTo (hi - lo) a).

(** [a{n,}] *)
Definition AtLeast (n : nat) (a : RegExp) : RegExp :=
  Seq (Rep n a) (Star a).

(** [a+] *)
Definition Plus (a : RegExp) : RegExp := AtLeast 1 a.

Section Matcher.
Context {A : Type}.

(** The loop of a star.  An iteration that consumes nothing is rejected,
    so [String.length s] iterations are enough. *)
Fixpoint star (fuel : nat)
    (body : string -> (string -> option A) -> option A)
    (s : string) (k : string -> option A) : option A :=
  match fuel with
  | O => k s
  | S fuel' =>
      match body s (fun s' =>
               if (String.length s' <? String.length s)%nat
               then star fuel' body s' k else None) with
      | Some x => Some x
      | None => k s
      end
  end.

Fixpoint run (r : RegExp) (s : string) (k : string -> option A)
    : option A :=
  match r with
  | Eps => k s
  | Class p =>
      match s with
      | String c s' => if p c then k s' else None
      | "" => None
      end
  | Seq a b => run a s (fun s' => run b s' k)
  | Alt a b =>
      match run a s k with
      | Some x => Some x
      | None => run b s k
      end
  | Star a => star (String.length s) (run a) s k
  end.
End Matcher.

(** [/^r$/.test(s)]: without the [m] flag the match starts at index 0 and
    ends at the end of the input. *)
Definition test (r : RegExp) (s : string) : bool :=
  match run r s (fun rest => match rest with "" => Some tt | _ => None end)
  with Some _ => true | None => false end.

(** [s.replace(/r/g, by)]: scan from the left; where [r] matches, write
    [by] and go on after the match; elsewhere copy one code unit.  Every
    step but the last consumes a code unit, so [S (String.length s)] steps
    are enough. *)
Fixpoint replace_go (fuel : nat) (r : RegExp) (by_ s : string) : string :=
  match fuel with
  | O => s
  | S fuel' =>
      match run r s Some with
      | Some rest =>
          if (String.length rest <? String.length s)%nat
          then by_ +:+ replace_go fuel' r by_ rest
          else match s with
               | "" => by_
               | String c s' => by_ +:+ String c (replace_go fuel' r by_ s')
               end
      | None =>
          match s with
          | "" => ""
          | String c s' => String c (replace_go fuel' r by_ s')
          end
      end
  end.

Definition replace_all (r : RegExp) (by_ s : string) : string :=
  replace_go (S (String.length s)) r by_ s.

(** The language of a regular expression. *)
Inductive Matches : RegExp -> string -> Prop :=
  | M_Eps : Matches Eps ""
  | M_Class p c : p c = true -> Matches (Class p) (String c "")
  | M_Seq a b s1 s2 :
      Matches a s1 -> Matches b s2 -> Matches (Seq a b) (s1 +:+ s2)
  | M_AltL a b s : Matches a s -> Matches (Alt a b) s
  | M_AltR a b s : Matches b s -> Matches (Alt a b) s
  | M_StarNil a : Matches (Star a) ""
  | M_StarCons a s1 s2 :
      Matches a s1 -> Matches (Star a) s2 -> Matches (Star a) (s1 +:+ s2).

(** The character classes of the two patterns. *)
Definition word_char (c : ascii) : bool :=
  in_range 97 122 c || in_range 65 90 c || in_range 48 57 c || is_char "_" c.

Definition domain_char (c : ascii) : bool :=
  in_range 97 122 c || in_range 65 90 c || in_range 48 57 c
  || is_char "." c || is_char "-" c.

Definition alpha_char (c : ascii) : bool :=
  in_range 97 122 c || in_range 65 90 c.

Definition not_char (a : ascii) (c : ascii) : bool := negb (Ascii.eqb c a).

(** [/<[^>]*>/] *)
Definition tagRegex : RegExp :=
  Seq (Class (is_char "<")) (Seq (Star (Class (not_char ">"))) (Class (is_char ">"))).

(** ** The world outside the process *)

Module Axios.
(** What an upstream instance answers: a status code and a parsed body. *)
Record Response : Type := { status : Z; data : Data }.

(** [axios.get] resolves on a 2xx answer and rejects otherwise: with the
    answer attached when there was one, without it on a transport error
    or a timeout. *)
Inductive Result : Type :=
  | Resolved (response : Response)
  | Rejected (message : string) (response : option Response).
End Axios.

Record World : Type := {
  (** the [n]-th reading of [new Date()], in milliseconds *)
  clock : nat -> Z;
  (** the time value [new Date(s)] parses from a string, if any *)
  Date_parse : string -> option Z;
  (** the locale-dependent rendering of a time value *)
  Date_toLocaleDateString : option Z -> string;
  (** the outcome of the [n]-th outbound GET of a request, by URL *)
  http_get : nat -> string -> Axios.Result;
  (** [process.env.MASTODON_INSTANCES] *)
  MASTODON_INSTANCES : option string
}.

Inductive Exn : Type :=
  | AxiosError (message : string) (response : option Axios.Response)
  | TypeError (message : string)
  | Error (message : string).

Definition message (e : Exn) : string :=
  match e with
  | AxiosError m _ => m
  | TypeError m => m
  | Error m => m
  end.

Definition response (e : Exn) : option Axios.Response :=
  match e with
  | AxiosError _ r => r
  | _ => None
  end.

(** What a request has done so far: how often it read the clock, which
    URLs it fetched, and which errors it wrote to the console. *)
Record State : Type := {
  ticks : nat;
  requests : list string;
  console : list Exn
}.

Definition start : State := {| ticks := 0; requests := []; console := [] |}.

Inductive Outcome (A : Type) : Type :=
  | Return (a : A)
  | Throw (e : Exn).
Arguments Return {A} a.
Arguments Throw {A} e.

Definition M (A : Type) : Type := World -> State -> Outcome A * State.

Definition ret {A} (a : A) : M A := fun _ st => (Return a, st).

Definition throw {A} (e : Exn) : M A := fun _ st => (Throw e, st).

Definition bind {A B} (m : M A) (f : A -> M B) : M B :=
  fun w st =>
    match m w st with
    | (Return a, st') => f a w st'
    | (Throw e, st') => (Throw e, st')
    end.

Notation "'let!' x ':=' m 'in' k" := (bind m (fun x => k))
  (at level 10, x name, m at level 100, k at level 200).

(** [try { m } catch (error) { h error }] *)
Definition try_catch {A} (m : M A) (h : Exn -> M A) : M A :=
  fun w st =>
    match m w st with
    | (Return a, st') => (Return a, st')
    | (Throw e, st') => h e w st'
    end.

Fixpoint mapM {A B} (f : A -> M B) (l : list A) : M (list B) :=
  match l with
  | [] => ret []
  | x :: l' =>
      let! y := f x in
      let! ys := mapM f l' in
      ret (y :: ys)
  end.

(** [new Date()] *)
Definition Date_now : M Z :=
  fun w st =>
    (Return (clock w (ticks st)),
     {| ticks := S (ticks st); requests := requests st; console := console st |}).

(** A time value outside +-8.64e15 ms is not a date. *)
Definition TimeClip (t : Z) : option Z :=
  if (Z.abs t <=? 8640000000000000)%Z then Some t else None.

(** The time value of [new Date(v)], [None] for an invalid date. *)
Definition Date_value (w : World) (v : JsVal) : option Z :=
  match v with
  | JUndefined => None
  | JNull => Some 0%Z
  | JBool b => Some (if b then 1 else 0)%Z
  | JNum n => TimeClip n
  | JStr s => Date_parse w s
  end.

(** [new Date(v)] *)
Definition new_Date (v : JsVal) : M (option Z) :=
  fun w st => (Return (Date_value w v), st).

(** [d.toLocaleDateString()] *)
Definition toLocaleDateString (d : option Z) : M string :=
  fun w st => (Return (Date_toLocaleDateString w d), st).

(** [await axios.get(url, ...)] *)
Definition axios_get (url : string) : M Axios.Response :=
  fun w st =>
    let st' := {| ticks := ticks st; requests := requests st ++ [url];
                  console := console st |} in
    match http_get w (length (requests st)) url with
    | Axios.Resolved r => (Return r, st')
    | Axios.Rejected m r => (Throw (AxiosError m r), st')
    end.

(** [console.error('Mastodon API Error:', {...})] *)
Definition console_error (e : Exn) : M unit :=
  fun _ st =>
    (Return tt,
     {| ticks := ticks st; requests := requests st;
        console := console st ++ [e] |}).

(** ** Numbers that may be NaN *)

(** [a - b] *)
Definition num_sub (a b : option Z) : option Z :=
  match a, b with
  | Some x, Some y => Some (x - y)%Z
  | _, _ => None
  end.

(** [Math.floor(a / k)] for a positive constant [k] *)
Definition Math_floor_div (a : option Z) (k : Z) : option Z :=
  option_map (fun x => x / k)%Z a.

(** [a % k]: the remainder takes the sign of [a] *)
Definition num_rem (a : option Z) (k : Z) : option Z :=
  option_map (fun x => Z.rem x k) a.

(** [a > k]: false on NaN *)
Definition num_gt (a : option Z) (k : Z) : bool :=
  match a with
  | Some x => (k <? x)%Z
  | None => false
  end.

(** ** The functions both files share *)

Definition calculateAccountAge (createdAt : JsVal) : M string :=
  let! now := Date_now in
  let! created := new_Date createdAt in
  let diffMs := num_sub (Some now) created in
  let diffDays := Math_floor_div diffMs (1000 * 60 * 60 * 24) in
  let years := Math_floor_div diffDays 365 in
  let months := Math_floor_div (num_rem diffDays 365) 30 in
  ret (if num_gt years 0
       then NaN_toString years +:+ " years, " +:+ NaN_toString months +:+ " months"
       else NaN_toString months +:+ " months").

Definition calculateAgeDays (createdAt : JsVal) : M (option Z) :=
  let! now := Date_now in
  let! created := new_Date createdAt in
  let diffMs := num_sub (Some now) created in
  ret (Math_floor_div diffMs (1000 * 60 * 60 * 24)).

(** ** What the service answers *)

(** The document a lookup answers with.  [instance_used] is written by the
    multi-instance server only. *)
Record FormattedProfile : Type := {
  username : JsVal;
  nickname : JsVal;
  estimated_creation_date : string;
  account_age : string;
  age_days : option Z;
  followers : string;
  total_posts : string;
  verified : string;
  description : string;
  region : string;
  user_id : JsVal;
  avatar : JsVal;
  estimation_confidence : string;
  accuracy_range : string;
  profile_link : JsVal;
  instance_used : option string
}.

Inductive Body : Type :=
  | BError (error : string)
  | BErrorDetails (error : string) (details : Data)
  | BProfile (profile : FormattedProfile)
  | BUsers (users : list FormattedProfile) (note : string).

(** [res.status(status).json(json)]; [res.json] alone answers 200. *)
Record Res : Type := { status : Z; json : Body }.

(** [{ status: 'healthy', timestamp }], the answer of [/health]. *)
Record Health : Type := { health_status : string; timestamp : string }.

(** A body that is [null] or [undefined]: reading a property off it throws. *)
Definition Data_nullish (d : Data) : bool :=
  match d with
  | DPrim v => nullish v
  | DObj _ => false
  end.

(** The own fields of a value that is neither null nor undefined; a
    primitive has none of the fields the service reads. *)
Definition fields (d : Data) : gmap string JsVal :=
  match d with
  | DObj o => o
  | DPrim _ => ∅
  end.

(** The first property read off [d], here of the key [k]: it throws on
    null and undefined, and after it every other read succeeds. *)
Definition ToObject (d : Data) (k : string) : M (gmap string JsVal) :=
  match d with
  | DPrim v =>
      if nullish v
      then throw (TypeError ("Cannot read properties of " +:+ String_of v
                             +:+ " (reading '" +:+ k +:+ "')"))
      else ret ∅
  | DObj o => ret o
  end.

(** [v.toString()] *)
Definition toString (v : JsVal) : M string :=
  if nullish v
  then throw (TypeError ("Cannot read properties of " +:+ String_of v
                         +:+ " (reading 'toString')"))
  else ret (String_of v).

(** [v.replace(/r/g, by)] *)
Definition replace (v : JsVal) (r : RegExp) (by_ : string) : M string :=
  match v with
  | JStr s => ret (replace_all r by_ s)
  | JUndefined | JNull =>
      throw (TypeError ("Cannot read properties of " +:+ String_of v
                        +:+ " (reading 'replace')"))
  | _ => throw (TypeError "profile.note.replace is not a function")
  end.

(** [e.response?.status || dflt] *)
Definition status_or (e : Exn) (dflt : Z) : Z :=
  match response e with
  | Some r => if (Axios.status r =? 0)%Z then dflt else Axios.status r
  | None => dflt
  end.

(** [e.message || dflt] *)
Definition message_or (e : Exn) (dflt : string) : string :=
  if String.eqb (message e) "" then dflt else message e.

(** [e.response?.data || dflt] *)
Definition data_or (e : Exn) (dflt : string) : Data :=
  match response e with
  | Some r => if Data_truthy (Axios.data r) then Axios.data r else DPrim (JStr dflt)
  | None => DPrim (JStr dflt)
  end.

(** [const apiUrl = `https://${instance}/api/v1/accounts/lookup?acct=${encodeURIComponent(username)}`],
    in both servers. *)
Definition apiUrl (username instance : string) : string :=
  "https://" +:+ instance +:+ "/api/v1/accounts/lookup?acct="
  +:+ encodeURIComponent username.

(** ** The multi-instance server *)

Module Multi.

(** [const instances = process.env.MASTODON_INSTANCES ? ....split(',') : [...]] *)
Definition instances (w : World) : list string :=
  match MASTODON_INSTANCES w with
  | Some s =>
      if String.eqb s "" then ["mastodon.social"; "fosstodon.org"; "mstdn.social"]
      else split s ","
  | None => ["mastodon.social"; "fosstodon.org"; "mstdn.social"]
  end.

Definition processProfileData (profile : Data) (instanceUsed : string)
    : M FormattedProfile :=
  let! o := ToObject profile "avatar_static" in
  let avatarUrl :=
    js_or (prop o "avatar_static")
      (js_or (prop o "avatar")
         (JStr ("https://" +:+ instanceUsed +:+ "/avatars/original/missing.png"))) in
  let! created := new_Date (prop o "created_at") in
  let! date := toLocaleDateString created in
  let! age := calculateAccountAge (prop o "created_at") in
  let! days := calculateAgeDays (prop o "created_at") in
  let! followers_count := toString (prop o "followers_count") in
  let! statuses_count := toString (prop o "statuses_count") in
  let! note := replace (prop o "note") tagRegex "" in
  ret {|
    username := prop o "username";
    nickname := js_or (prop o "display_name") (prop o "username");
    estimated_creation_date := date;
    account_age := age;
    age_days := days;
    followers := followers_count;
    total_posts := statuses_count;
    verified :=
      if truthy (prop o "bot") then "Bot Account"
      else if truthy (prop o "locked") then "Protected" else "Standard";
    description := note;
    region := "N/A";
    user_id := prop o "id";
    avatar := avatarUrl;
    estimation_confidence := "High (exact server timestamp)";
    accuracy_range := "Second-level (ISO 8601 timestamp)";
    profile_link :=
      js_or (prop o "url")
        (JStr ("https://" +:+ instanceUsed +:+ "/@" +:+ String_of (prop o "username")));
    instance_used := Some instanceUsed
  |}.

(** [{ data, instanceUsed }] or [{ error, instanceUsed }] *)
Inductive LookupResult : Type :=
  | Success (data : Data) (instanceUsed : string)
  | Failure (error : Exn) (instanceUsed : string).

Definition instanceUsed (r : LookupResult) : string :=
  match r with
  | Success _ i => i
  | Failure _ i => i
  end.

(** [r.data], undefined on the error half *)
Definition data (r : LookupResult) : Data :=
  match r with
  | Success d _ => d
  | Failure _ _ => DPrim JUndefined
  end.

Definition fetchFromInstance (username instance : string) : M LookupResult :=
  try_catch
    (let! response := axios_get (apiUrl username instance) in
     ret (Success (Axios.data response) instance))
    (fun error => ret (Failure error instance)).

(** [result.data && result.data.id], as [filter] reads it *)
Definition has_id (r : LookupResult) : bool :=
  Data_truthy (data r) && truthy (prop (fields (data r)) "id").

(** What [getMastodonProfile] resolves to: one lookup result for a full
    handle, the array of successes for a bare username. *)
Inductive Profiles : Type :=
  | One (result : LookupResult)
  | Many (results : list LookupResult).

(** [Promise.all] waits for every lookup; as none of them rejects, it
    resolves to their results in the order of the instances.  The array
    [errors] is built and never read.  The local [username] of the source
    is [name] here, [username] being a field of the answer. *)
Definition getMastodonProfile (handle : string) : M Profiles :=
  fun w =>
  (let isFullHandle := includes handle "@" in
   let name := part (split handle "@") 0 in
   if isFullHandle then
     let instance := part (split handle "@") 1 in
     let! r := fetchFromInstance name instance in
     ret (One r)
   else
     let! results := mapM (fun instance => fetchFromInstance name instance) (instances w) in
     let successes := List.filter has_id results in
     if (length successes =? 0)%nat then
       throw (Error ("No account found for " +:+ name +:+ " on instances: "
                     +:+ join (instances w) ", "))
     else ret (Many successes)) w.

(** [/^[a-zA-Z0-9_]{3,30}(@[a-zA-Z0-9.-]+\.[a-zA-Z]{2,})?$/] *)
Definition handleRegex : RegExp :=
  Seq (Between 3 30 (Class word_char))
    (Opt (Seq (Class (is_char "@"))
            (Seq (Plus (Class domain_char))
               (Seq (Class (is_char ".")) (AtLeast 2 (Class alpha_char)))))).

(** [{...p, estimation_confidence: 'Medium (multiple instances found)'}] *)
Definition medium (p : FormattedProfile) : FormattedProfile :=
  {| username := username p; nickname := nickname p;
     estimated_creation_date := estimated_creation_date p;
     account_age := account_age p; age_days := age_days p;
     followers := followers p; total_posts := total_posts p;
     verified := verified p; description := description p;
     region := region p; user_id := user_id p; avatar := avatar p;
     estimation_confidence := "Medium (multiple instances found)";
     accuracy_range := accuracy_range p; profile_link := profile_link p;
     instance_used := instance_used p |}.

(** [app.get('/api/mastodon/:handle', ...)] *)
Definition handler (handle : string) : M Res :=
  fun w =>
  (if String.eqb handle "" then
     ret {| status := 400;
            json := BError "Handle is required (e.g., gargron or gargron@mastodon.social)" |}
   else if negb (test handleRegex handle) then
     ret {| status := 400;
            json := BError ("Invalid Mastodon handle format. Use username (3-30 chars, letters/numbers/underscores) or username@instance.social. Searched instances: "
                            +:+ join (instances w) ", " +:+ ".") |}
   else
     try_catch
       (let! result := getMastodonProfile handle in
        match result with
        | One r =>
            match r with
            | Failure error _ =>
                let instance :=
                  if includes handle "@" then part (split handle "@") 1
                  else part (instances w) 0 in
                ret {| status := status_or error 404;
                       json := BError ("Mastodon account " +:+ handle
                                       +:+ " not found, suspended, or instance "
                                       +:+ instance +:+ " unavailable") |}
            | Success d i =>
                let! profileData := processProfileData d i in
                ret {| status := 200; json := BProfile profileData |}
            end
        | Many rs =>
            if (1 <? length rs)%nat then
              let! profiles :=
                mapM (fun r => let! p := processProfileData (data r) (instanceUsed r) in
                               ret (medium p)) rs in
              ret {| status := 200;
                     json := BUsers profiles
                               ("Multiple accounts found for " +:+ part (split handle "@") 0
                                +:+ ". Use instance_used or profile_link to select the correct account.") |}
            else
              match rs with
              | r :: _ =>
                  let! profileData := processProfileData (data r) (instanceUsed r) in
                  ret {| status := 200; json := BProfile profileData |}
              | [] => throw (TypeError "Cannot read properties of undefined (reading 'data')")
              end
        end)
       (fun error =>
          let! _ := console_error error in
          ret {| status := 500;
                 json := BErrorDetails (message_or error "Failed to fetch Mastodon data")
                           (DPrim (JStr ("Searched instances: " +:+ join (instances w) ", "))) |})) w.

(** [app.get('/', ...)]: the banner, sent as text. *)
Definition root : M string :=
  fun w =>
  ret ("Mastodon Account Age Checker API is running (instances: "
       +:+ join (instances w) ", " +:+ ")") w.

(** [app.get('/health', ...)]; [toISOString] renders the reading of the
    clock. *)
Definition health (toISOString : Z -> string) : M Health :=
  let! now := Date_now in
  ret {| health_status := "healthy"; timestamp := toISOString now |}.

End Multi.

(** ** The single-instance server, [mastodon-age-checker.js] *)

Module Single.

Definition getMastodonProfile (handle : string) : M Data :=
  try_catch
    (let handle :=
       if negb (includes handle "@") then handle +:+ "@mastodon.social" else handle in
     let name := part (split handle "@") 0 in
     let instance := part (split handle "@") 1 in
     let! response := axios_get (apiUrl name instance) in
     ret (Axios.data response))
    (fun error =>
       let! _ := console_error error in
       throw error).

(** [/^[a-zA-Z0-9_]{3,30}@[a-zA-Z0-9.-]+\.[a-zA-Z]{2,}$/] *)
Definition handleRegex : RegExp :=
  Seq (Between 3 30 (Class word_char))
    (Seq (Class (is_char "@"))
       (Seq (Plus (Class domain_char))
          (Seq (Class (is_char ".")) (AtLeast 2 (Class alpha_char))))).

(** [e.response?.status === 404 || e.response?.status === 403] *)
Definition not_found (e : Exn) : bool :=
  match response e with
  | Some r => (Axios.status r =? 404)%Z || (Axios.status r =? 403)%Z
  | None => false
  end.

(** [app.get('/api/mastodon/:handle', ...)] *)
Definition handler (handle : string) : M Res :=
  if String.eqb handle "" then
    ret {| status := 400;
           json := BError "Handle is required (e.g., gargron@mastodon.social)" |}
  else if negb (test handleRegex handle) then
    ret {| status := 400;
           json := BError "Invalid Mastodon handle format. Use username@instance.social (3-30 chars username, valid domain)." |}
  else
    try_catch
      (let! profile := getMastodonProfile handle in
       if negb (Data_truthy profile) || negb (truthy (prop (fields profile) "id")) then
         ret {| status := 404;
                json := BError ("Mastodon account " +:+ handle +:+ " not found or suspended") |}
       else
         let o := fields profile in
         let avatarUrl :=
           js_or (prop o "avatar_static")
             (js_or (prop o "avatar")
                (JStr ("https://" +:+ part (split handle "@") 1
                       +:+ "/avatars/original/missing.png"))) in
         let! created := new_Date (prop o "created_at") in
         let! date := toLocaleDateString created in
         let! age := calculateAccountAge (prop o "created_at") in
         let! days := calculateAgeDays (prop o "created_at") in
         let! followers_count := toString (prop o "followers_count") in
         let! statuses_count := toString (prop o "statuses_count") in
         let! note := replace (prop o "note") tagRegex "" in
         ret {| status := 200;
                json := BProfile {|
                  username := prop o "username";
                  nickname := js_or (prop o "display_name") (prop o "username");
                  estimated_creation_date := date;
                  account_age := age;
                  age_days := days;
                  followers := followers_count;
                  total_posts := statuses_count;
                  verified :=
                    if truthy (prop o "bot") then "Bot Account"
                    else if truthy (prop o "locked") then "Protected" else "Standard";
                  description := note;
                  region := "N/A";
                  user_id := prop o "id";
                  avatar := avatarUrl;
                  estimation_confidence := "High (exact server timestamp)";
                  accuracy_range := "Second-level (ISO 8601 timestamp)";
                  profile_link :=
                    js_or (prop o "url")
                      (JStr ("https://" +:+ part (split handle "@") 1 +:+ "/@"
                             +:+ String_of (prop o "username")));
                  instance_used := None |} |})
      (fun error =>
         if not_found error then
           ret {| status := 404;
                  json := BError ("Mastodon account " +:+ handle
                                  +:+ " not found, suspended, or instance unavailable") |}
         else
           let! _ := console_error error in
           ret {| status := status_or error 500;
                  json := BErrorDetails (message_or error "Failed to fetch Mastodon data")
                            (data_or error "No additional details") |}).

(** [app.get('/', ...)]: the banner, sent as text. *)
Definition root : M string :=
  ret "Mastodon Account Age Checker API is running".

(** [app.get('/health', ...)]; [toISOString] renders the reading of the
    clock. *)
Definition health (toISOString : Z -> string) : M Health :=
  let! now := Date_now in
  ret {| health_status := "healthy"; timestamp := toISOString now |}.

End Single.

(** ** What the specification calls a valid handle *)

(** A username: 3 to 30 letters, digits or underscores. *)
Definition valid_username (u : string) : Prop :=
  (3 <= String.length u <= 30)%nat /\ all_chars word_char u.

(** A domain: one or more of letters, digits, dots and hyphens, then a dot,
    then two or more letters. *)
Definition valid_domain (d : string) : Prop :=
  exists a t, d = a +:+ "." +:+ t /\
    (1 <= String.length a)%nat /\ all_chars domain_char a /\
    (2 <= String.length t)%nat /\ all_chars alpha_char t.

(** A username, optionally followed by [@] and a domain. *)
Definition valid_handle (h : string) : Prop :=
  exists u, valid_username u /\
    (h = u \/ exists d, h = u +:+ "@" +:+ d /\ valid_domain d).

(** A username followed by [@] and a domain. *)
Definition full_handle (h : string) : Prop :=
  exists u d, valid_username u /\ h = u +:+ "@" +:+ d /\ valid_domain d.

(** A tag: [<], then characters other than [>], then [>]. *)
Definition is_tag (m : string) : Prop :=
  exists mid, m = "<" +:+ mid +:+ ">" /\ all_chars (not_char ">") mid.

(** [Stripped s t]: [t] is [s] with its tags removed, from the left: the
    first tag is the one no [<] comes before. *)
Inductive Stripped : string -> string -> Prop :=
  | Stripped_none s :
      (forall pre m post, s = pre +:+ m +:+ post -> ~ is_tag m) ->
      Stripped s s
  | Stripped_tag pre m post out :
      all_chars (not_char "<") pre -> is_tag m -> Stripped post out ->
      Stripped (pre +:+ m +:+ post) (pre +:+ out).

(** ** The vocabulary of the properties *)

(** A raw profile as the data model has it: an object whose bio is a
    string and whose two counts are numbers. *)
Definition RawProfile (d : Data) : Prop :=
  exists o bio n m,
    d = DObj o /\ prop o "note" = JStr bio /\
    prop o "followers_count" = JNum n /\ prop o "statuses_count" = JNum m.

(** The state after two more readings of the clock. *)
Definition tick2 (st : State) : State :=
  {| ticks := S (S (ticks st)); requests := requests st; console := console st |}.

(** The state after one more outbound request. *)
Definition sent (st : State) (urls : list string) : State :=
  {| ticks := ticks st; requests := requests st ++ urls; console := console st |}.

(** The lookup result an upstream answer is turned into. *)
Definition settle (a : Axios.Result) (instance : string) : Multi.LookupResult :=
  match a with
  | Axios.Resolved r => Multi.Success (Axios.data r) instance
  | Axios.Rejected m r => Multi.Failure (AxiosError m r) instance
  end.

(** The state after one more line on the console. *)
Definition logged (st : State) (e : Exn) : State :=
  {| ticks := ticks st; requests := requests st; console := (console st ++ [e])%list |}.

(** The domain part of the two patterns. *)
Definition domainRegex : RegExp :=
  Seq (Plus (Class domain_char))
    (Seq (Class (is_char ".")) (AtLeast 2 (Class alpha_char))).

(** [Formats w r p]: [p] is what [processProfileData] makes of the lookup
    result [r], at some reading of the clock. *)
Definition Formats (w : World) (r : Multi.LookupResult) (p : FormattedProfile) : Prop :=
  exists st st',
    Multi.processProfileData (Multi.data r) (Multi.instanceUsed r) w st = (Return p, st') /\
    requests st' = requests st.

(** [downgraded p u]: the spread [{ ...p, estimation_confidence: ... }] of
    the multi-account answer, said field by field: [u] is [p] with its
    confidence replaced and nothing else touched. *)
Definition downgraded (p u : FormattedProfile) : Prop :=
  username u = username p /\
  nickname u = nickname p /\
  estimated_creation_date u = estimated_creation_date p /\
  account_age u = account_age p /\
  age_days u = age_days p /\
  followers u = followers p /\
  total_posts u = total_posts p /\
  verified u = verified p /\
  description u = description p /\
  region u = region p /\
  user_id u = user_id p /\
  avatar u = avatar p /\
  estimation_confidence u = "Medium (multiple instances found)" /\
  accuracy_range u = accuracy_range p /\
  profile_link u = profile_link p /\
  instance_used u = instance_used p.

(** [Number.isSafeInteger]: at most [Number.MAX_SAFE_INTEGER], 2^53 - 1,
    in absolute value. *)
Definition safe_integer (n : Z) : Prop := (Z.abs n <= 9007199254740991)%Z.

(** [quiet m]: whatever [m] does, it leaves the list of outbound requests
    as it found it. *)
Definition quiet {A} (m : M A) : Prop :=
  forall w st, requests (snd (m w st)) = requests st.

(** A profile without its [instance_used], as the single-instance server
    writes it. *)
Definition untagged (p : FormattedProfile) : FormattedProfile :=
  {| username := username p; nickname := nickname p;
     estimated_creation_date := estimated_creation_date p;
     account_age := account_age p; age_days := age_days p;
     followers := followers p; total_posts := total_posts p;
     verified := verified p; description := description p;
     region := region p; user_id := user_id p; avatar := avatar p;
     estimation_confidence := estimation_confidence p;
     accuracy_range := accuracy_range p; profile_link := profile_link p;
     instance_used := None |}.

(** [mentions s t]: the text [t] stands somewhere in [s]. *)
Definition mentions (s t : string) : Prop :=
  exists pre post, s = pre +:+ t +:+ post.

(** [hush m]: whatever [m] does, it writes nothing to the console. *)
Definition hush {A} (m : M A) : Prop :=
  forall w st, console (snd (m w st)) = console st.

(** What follows the first [>] of a string, if there is one. *)
Fixpoint after_gt (s : string) : option string :=
  match s with
  | "" => None
  | String c s' => if is_char ">" c then Some s' else after_gt s'
  end.

(** A string no part of which is a tag. *)
Definition tag_free (s : string) : Prop :=
  forall pre m post, s = pre +:+ m +:+ post -> ~ is_tag m.

(** ** Concrete worlds *)

(** An account as an instance serves it. *)
Definition gargron : gmap string JsVal :=
  list_to_map
    [("id", JStr "1"); ("username", JStr "Gargron");
     ("display_name", JStr "Eugen Rochko");
     ("created_at", JStr "2016-03-16T14:34:26.392Z");
     ("followers_count", JNum 350000); ("statuses_count", JNum 78000);
     ("bot", JBool false); ("locked", JBool true);
     ("note", JStr "<p>Hello <b>world</b></p>");
     ("url", JStr "https://mastodon.social/@Gargron")].

(** A world whose clock stands 400 days after the creation of the account
    above, and whose network answers as [answers] says. *)
Definition world_with (answers : nat -> string -> Axios.Result) : World :=
  {| clock := fun _ => (1458138866392 + 400 * 86400000)%Z;
     Date_parse := fun _ => Some 1458138866392%Z;
     Date_toLocaleDateString := fun _ => "3/16/2016";
     http_get := answers;
     MASTODON_INSTANCES := None |}.

(** Every instance times out. *)
Definition all_time_out : World :=
  world_with (fun _ _ => Axios.Rejected "timeout of 5000ms exceeded" None).

(** Every instance has the account. *)
Definition all_found : World :=
  world_with (fun _ _ => Axios.Resolved {| Axios.status := 200; Axios.data := DObj gargron |}).

(** The first instance asked has the account, the others answer 404. *)
Definition one_found : World :=
  world_with (fun n _ =>
    match n with
    | O => Axios.Resolved {| Axios.status := 200; Axios.data := DObj gargron |}
    | S _ => Axios.Rejected "Request failed with status code 404"
               (Some {| Axios.status := 404; Axios.data := DPrim (JStr "") |})
    end).

(** A world whose clock advances by a day at every reading. *)
Definition ticking : World :=
  {| clock := fun n => (1458138866392 + (400 + Z.of_nat n) * 86400000)%Z;
     Date_parse := fun _ => Some 1458138866392%Z;
     Date_toLocaleDateString := fun _ => "3/16/2016";
     http_get := fun _ _ => Axios.Resolved {| Axios.status := 200; Axios.data := DObj gargron |};
     MASTODON_INSTANCES := None |}.

(** The clock stands a millisecond before the creation of the account. *)
Definition too_early : World :=
  {| clock := fun _ => 1458138866391%Z;
     Date_parse := fun _ => Some 1458138866392%Z;
     Date_toLocaleDateString := fun _ => "3/16/2016";
     http_get := fun _ _ => Axios.Resolved {| Axios.status := 200; Axios.data := DObj gargron |};
     MASTODON_INSTANCES := None |}.

(** No creation date parses. *)
Definition no_date : World :=
  {| clock := fun _ => 1458138866392%Z;
     Date_parse := fun _ => None;
     Date_toLocaleDateString := fun _ => "Invalid Date";
     http_get := fun _ _ => Axios.Resolved {| Axios.status := 200; Axios.data := DObj gargron |};
     MASTODON_INSTANCES := None |}.

(** Every instance resolves with a [null] body. *)
Definition all_null : World :=
  world_with (fun _ _ => Axios.Resolved {| Axios.status := 200; Axios.data := DPrim JNull |}).

(** Every instance resolves with the empty object. *)
Definition all_empty : World :=
  world_with (fun _ _ => Axios.Resolved {| Axios.status := 200; Axios.data := DObj ∅ |}).

(** Every instance answers 503. *)
Definition all_unavailable : World :=
  world_with (fun _ _ =>
    Axios.Rejected "Request failed with status code 503"
      (Some {| Axios.status := 503; Axios.data := DPrim (JStr "Service Unavailable") |})).

(** * Properties *)

(** ** Account age *)

Lemma calculateAccountAge_eq (w : World) (st : State) (createdAt : JsVal) :
  calculateAccountAge createdAt w st =
  (let diffDays :=
     Math_floor_div (num_sub (Some (clock w (ticks st))) (Date_value w createdAt))
       (1000 * 60 * 60 * 24) in
   let years := Math_floor_div diffDays 365 in
   let months := Math_floor_div (num_rem diffDays 365) 30 in
   Return (if num_gt years 0
           then NaN_toString years +:+ " years, " +:+ NaN_toString months +:+ " months"
           else NaN_toString months +:+ " months"),
   {| ticks := S (ticks st); requests := requests st; console := console st |}).
Proof. reflexivity. Qed.

Lemma calculateAgeDays_eq (w : World) (st : State) (createdAt : JsVal) :
  calculateAgeDays createdAt w st =
  (Return (Math_floor_div (num_sub (Some (clock w (ticks st))) (Date_value w createdAt))
             (1000 * 60 * 60 * 24)),
   {| ticks := S (ticks st); requests := requests st; console := console st |}).
Proof. reflexivity. Qed.

(** C1.  When the creation time stamp lies [d >= 0] whole days before the
    clock reading, [account_age] is ["<Y> years, <M> months"] with
    [Y = floor(d/365)] and [M = floor((d mod 365)/30)] if [Y > 0], and
    ["<M> months"] if [Y = 0]; 400 days give ["1 years, 1 months"]. *)
Theorem account_age_years_months (w : World) (st : State) (createdAt : JsVal)
    (created d : Z) :
  Date_value w createdAt = Some created ->
  d = ((clock w (ticks st) - created) / 86400000)%Z ->
  (0 <= d)%Z ->
  let Y := (d / 365)%Z in
  let M := ((d mod 365) / 30)%Z in
  fst (calculateAccountAge createdAt w st) =
    Return (if (0 <? Y)%Z
            then Number_toString Y +:+ " years, " +:+ Number_toString M +:+ " months"
            else Number_toString M +:+ " months")
  /\ (Y = 0%Z -> fst (calculateAccountAge createdAt w st)
                 = Return (Number_toString M +:+ " months"))
  /\ (d = 400%Z -> fst (calculateAccountAge createdAt w st)
                   = Return "1 years, 1 months").
Proof.
  intros Hc Hd Hpos Y M.
  assert (E : fst (calculateAccountAge createdAt w st) =
              Return (if (0 <? Y)%Z
                      then Number_toString Y +:+ " years, " +:+ Number_toString M +:+ " months"
                      else Number_toString M +:+ " months")).
  { rewrite calculateAccountAge_eq, Hc. cbn [fst num_sub Math_floor_div num_rem option_map num_gt NaN_toString].
    change (1000 * 60 * 60 * 24)%Z with 86400000%Z. rewrite <- Hd.
    rewrite Z.rem_mod_nonneg by lia. reflexivity. }
  split; [exact E|]. split.
  - intros HY. rewrite E, HY. reflexivity.
  - intros H400. rewrite E. subst Y M. rewrite H400. reflexivity.
Qed.

(** ** Age in days *)

(** C7.  For a fixed creation time stamp, [age_days] does not decrease as
    the clock advances. *)
Theorem age_days_monotone (w : World) (st1 st2 : State) (createdAt : JsVal)
    (created : Z) :
  Date_value w createdAt = Some created ->
  (clock w (ticks st1) <= clock w (ticks st2))%Z ->
  exists d1 d2 : Z,
    fst (calculateAgeDays createdAt w st1) = Return (Some d1) /\
    fst (calculateAgeDays createdAt w st2) = Return (Some d2) /\
    d1 = ((clock w (ticks st1) - created) / 86400000)%Z /\
    d2 = ((clock w (ticks st2) - created) / 86400000)%Z /\
    (d1 <= d2)%Z.
Proof.
  intros Hc Hle.
  exists ((clock w (ticks st1) - created) / 86400000)%Z,
         ((clock w (ticks st2) - created) / 86400000)%Z.
  rewrite !calculateAgeDays_eq, Hc. cbn [fst num_sub Math_floor_div option_map].
  repeat split; try reflexivity.
  apply Z.div_le_mono; lia.
Qed.

(** ** Formatting a profile *)

(** On an object whose bio is a string and whose counts are present,
    [processProfileData] returns, after two readings of the clock. *)
Lemma processProfileData_eq (w : World) (st : State) (o : gmap string JsVal)
    (instanceUsed bio : string) :
  prop o "note" = JStr bio ->
  nullish (prop o "followers_count") = false ->
  nullish (prop o "statuses_count") = false ->
  Multi.processProfileData (DObj o) instanceUsed w st =
  (Return {|
     username := prop o "username";
     nickname := js_or (prop o "display_name") (prop o "username");
     estimated_creation_date :=
       Date_toLocaleDateString w (Date_value w (prop o "created_at"));
     account_age :=
       match fst (calculateAccountAge (prop o "created_at") w st) with
       | Return s => s
       | Throw _ => ""
       end;
     age_days :=
       Math_floor_div
         (num_sub (Some (clock w (S (ticks st)))) (Date_value w (prop o "created_at")))
         (1000 * 60 * 60 * 24);
     followers := String_of (prop o "followers_count");
     total_posts := String_of (prop o "statuses_count");
     verified :=
       if truthy (prop o "bot") then "Bot Account"
       else if truthy (prop o "locked") then "Protected" else "Standard";
     description := replace_all tagRegex "" bio;
     region := "N/A";
     user_id := prop o "id";
     avatar :=
       js_or (prop o "avatar_static")
         (js_or (prop o "avatar")
            (JStr ("https://" +:+ instanceUsed +:+ "/avatars/original/missing.png")));
     estimation_confidence := "High (exact server timestamp)";
     accuracy_range := "Second-level (ISO 8601 timestamp)";
     profile_link :=
       js_or (prop o "url")
         (JStr ("https://" +:+ instanceUsed +:+ "/@" +:+ String_of (prop o "username")));
     instance_used := Some instanceUsed
   |}, tick2 st).
Proof.
  intros Hnote Hf Hs.
  unfold Multi.processProfileData, bind, ToObject, ret, new_Date, toLocaleDateString,
    toString, replace.
  cbn [fields]. rewrite !calculateAccountAge_eq, !calculateAgeDays_eq, Hnote, Hf, Hs.
  reflexivity.
Qed.

Lemma RawProfile_returns (w : World) (st : State) (d : Data) (instanceUsed : string) :
  RawProfile d ->
  exists p, Multi.processProfileData d instanceUsed w st = (Return p, tick2 st) /\
    instance_used p = Some instanceUsed /\
    estimation_confidence p = "High (exact server timestamp)" /\
    user_id p = prop (fields d) "id".
Proof.
  intros (o & bio & n & m & -> & Hnote & Hf & Hs).
  eexists. split.
  - apply (processProfileData_eq w st o instanceUsed bio Hnote).
    + now rewrite Hf.
    + now rewrite Hs.
  - repeat split.
Qed.

Lemma to_int_not_nil (n : Z) :
  Z.to_int n <> Decimal.Pos Decimal.Nil /\ Z.to_int n <> Decimal.Neg Decimal.Nil.
Proof.
  destruct n as [|p|p]; cbn; split; try discriminate;
    intros [= H]; revert H; apply DecimalPos.Unsigned.to_uint_nonnil.
Qed.

(** The string [Number_toString] writes reads back, as a decimal numeral,
    as the number it was written from. *)
Lemma Number_toString_decimal (n : Z) :
  option_map Z.of_int (NilZero.int_of_string (Number_toString n)) = Some n.
Proof.
  unfold Number_toString. destruct (to_int_not_nil n) as [H1 H2].
  rewrite NilZero.isi by assumption. cbn. now rewrite DecimalZ.of_to.
Qed.

(** ** Looking an account up on one instance, and on all of them *)

Lemma fetchFromInstance_eq (w : World) (st : State) (username instance : string) :
  Multi.fetchFromInstance username instance w st =
  (Return (settle (http_get w (length (requests st)) (apiUrl username instance))
             instance),
   sent st [apiUrl username instance]).
Proof.
  unfold Multi.fetchFromInstance, try_catch, bind, axios_get, ret, sent, settle.
  destruct (http_get w (length (requests st)) (apiUrl username instance));
    reflexivity.
Qed.

Lemma sent_sent (st : State) (a b : list string) :
  sent (sent st a) b = sent st (a ++ b).
Proof. unfold sent. cbn. now rewrite <- app_assoc. Qed.

Lemma sent_nil (st : State) : sent st [] = st.
Proof. destruct st. unfold sent. cbn. now rewrite app_nil_r. Qed.

(** The fan-out: every instance is asked, in order, and every instance
    yields a result. *)
Lemma fan_out_eq (w : World) (username : string) (l : list string) :
  forall st, exists rs,
    mapM (fun instance => Multi.fetchFromInstance username instance) l w st =
      (Return rs, sent st (map (apiUrl username) l)) /\
    length rs = length l /\
    map Multi.instanceUsed rs = l /\
    forall i instance, l !! i = Some instance ->
      rs !! i = Some (settle (http_get w (length (requests st) + i)
                                (apiUrl username instance)) instance).
Proof.
  induction l as [|x l IH]; intros st.
  - exists []. cbn. rewrite sent_nil. repeat split. intros i instance H; discriminate.
  - destruct (IH (sent st [apiUrl username x])) as (rs & E & Hlen & Htag & Hnth).
    eexists (_ :: rs).
    split; [|split; [|split]].
    + cbn [mapM]. unfold bind at 1. rewrite fetchFromInstance_eq.
      unfold bind at 1. rewrite E. unfold ret. rewrite sent_sent. reflexivity.
    + cbn. now rewrite Hlen.
    + cbn [map]. rewrite Htag. destruct (http_get w _ _); reflexivity.
    + intros [|i] instance H.
      * cbn in H. injection H as ->. cbn. now rewrite Nat.add_0_r.
      * cbn in H. change ((?[y] :: rs) !! S i) with (rs !! i).
        rewrite (Hnth i instance H). cbn [sent requests].
        rewrite length_app. cbn [length]. do 3 f_equal. lia.
Qed.

(** ** Strings *)

Lemma str_app_nil_l (s : string) : "" +:+ s = s.
Proof. reflexivity. Qed.

Lemma str_app_cons (c : ascii) (s t : string) : String c s +:+ t = String c (s +:+ t).
Proof. reflexivity. Qed.

Lemma str_app_nil_r (s : string) : s +:+ "" = s.
Proof. induction s as [|c s IH]; [reflexivity|]. now rewrite str_app_cons, IH. Qed.

Lemma str_app_assoc (a b c : string) : (a +:+ b) +:+ c = a +:+ (b +:+ c).
Proof. induction a as [|x a IH]; [reflexivity|]. now rewrite !str_app_cons, IH. Qed.

Lemma str_length_app (a b : string) :
  String.length (a +:+ b) = (String.length a + String.length b)%nat.
Proof. induction a as [|x a IH]; [reflexivity|]. rewrite str_app_cons. cbn. now rewrite IH. Qed.

Lemma length_zero (s : string) : String.length s = 0%nat -> s = "".
Proof. destruct s; [reflexivity | discriminate]. Qed.

Lemma all_chars_app (p : ascii -> bool) (a b : string) :
  all_chars p (a +:+ b) <-> all_chars p a /\ all_chars p b.
Proof.
  induction a as [|x a IH]; [cbn; tauto|].
  rewrite str_app_cons. cbn [all_chars]. rewrite IH. tauto.
Qed.

Lemma split_at (n : nat) :
  forall s, (n <= String.length s)%nat ->
  exists s1 s2, s = s1 +:+ s2 /\ String.length s1 = n.
Proof.
  induction n as [|n IH]; intros s H.
  - exists "", s. split; reflexivity.
  - destruct s as [|c s]; [cbn in H; lia|].
    destruct (IH s) as (s1 & s2 & -> & Hl); [cbn in H; lia|].
    exists (String c s1), s2. split; [reflexivity | cbn; now rewrite Hl].
Qed.

(** ** The matcher and the language of a pattern *)

Section MatcherCorrect.
Context {A : Type}.

Lemma star_sound (a : RegExp) (body : string -> (string -> option A) -> option A) :
  (forall s k x, body s k = Some x ->
     exists s1 s2, s = s1 +:+ s2 /\ Matches a s1 /\ k s2 = Some x) ->
  forall fuel s k x, star fuel body s k = Some x ->
    exists s1 s2, s = s1 +:+ s2 /\ Matches (Star a) s1 /\ k s2 = Some x.
Proof.
  intros Hbody. induction fuel as [|fuel IH]; intros s k x H.
  - exists "", s. repeat split; [constructor | exact H].
  - cbn [star] in H.
    destruct (body s _) as [y|] eqn:E.
    + injection H as ->.
      apply Hbody in E as (s1 & s2 & -> & Ha & Hk).
      destruct (String.length s2 <? String.length (s1 +:+ s2))%nat; [|discriminate].
      apply IH in Hk as (t1 & t2 & -> & Hs & Hk).
      exists (s1 +:+ t1), t2. rewrite str_app_assoc.
      repeat split; [now constructor | exact Hk].
    + exists "", s. repeat split; [constructor | exact H].
Qed.

Lemma star_complete (a : RegExp) (body : string -> (string -> option A) -> option A) :
  (forall s1 s2 k x, Matches a s1 -> k s2 = Some x ->
     exists y, body (s1 +:+ s2) k = Some y) ->
  forall r s1, Matches r s1 -> r = Star a ->
  forall fuel s2 k x, (String.length (s1 +:+ s2) <= fuel)%nat -> k s2 = Some x ->
    exists y, star fuel body (s1 +:+ s2) k = Some y.
Proof.
  intros Hbody r s1 HM.
  induction HM as [| | | | | a0 | a0 t1 t2 H1 _ H2 IH]; intros Hr; try discriminate.
  - intros fuel s2 k x _ Hk. rewrite str_app_nil_l.
    destruct fuel as [|fuel]; cbn [star]; [eauto|].
    destruct (body s2 _); eauto.
  - injection Hr as ->. specialize (IH eq_refl).
    intros fuel s2 k x Hlen Hk.
    destruct t1 as [|c t1].
    + rewrite str_app_nil_l in *. eapply IH; eassumption.
    + rewrite str_app_assoc in *. destruct fuel as [|fuel].
      { rewrite str_app_cons in Hlen. cbn in Hlen. lia. }
      cbn [star].
      destruct (IH fuel s2 k x) as [y Hy]; [|exact Hk|].
      { rewrite str_app_cons in Hlen. cbn [String.length] in Hlen.
        rewrite str_length_app in Hlen. lia. }
      destruct (Hbody (String c t1) (t2 +:+ s2)
                  (fun s' => if (String.length s' <? String.length (String c t1 +:+ t2 +:+ s2))%nat
                             then star fuel body s' k else None) y H1) as [z Hz].
      { rewrite str_app_cons. cbn [String.length].
        rewrite (str_length_app t1). 
        destruct (Nat.ltb_spec (String.length (t2 +:+ s2))
                    (S (String.length t1 + String.length (t2 +:+ s2)))); [exact Hy | lia]. }
      rewrite Hz. eauto.
Qed.

Lemma run_sound (r : RegExp) :
  forall s (k : string -> option A) x, run r s k = Some x ->
    exists s1 s2, s = s1 +:+ s2 /\ Matches r s1 /\ k s2 = Some x.
Proof.
  induction r as [|p|a IHa b IHb|a IHa b IHb|a IHa]; intros s k x H; cbn [run] in H.
  - exists "", s. repeat split; [constructor | exact H].
  - destruct s as [|c s]; [discriminate|].
    destruct (p c) eqn:E; [|discriminate].
    exists (String c ""), s. repeat split; [now constructor | exact H].
  - apply IHa in H as (s1 & s2 & -> & Ha & H).
    apply IHb in H as (t1 & t2 & -> & Hb & H).
    exists (s1 +:+ t1), t2. rewrite str_app_assoc.
    repeat split; [now constructor | exact H].
  - destruct (run a s k) as [y|] eqn:E.
    + injection H as ->. apply IHa in E as (s1 & s2 & -> & Ha & H).
      exists s1, s2. repeat split; [now apply M_AltL | exact H].
    + apply IHb in H as (s1 & s2 & -> & Hb & H).
      exists s1, s2. repeat split; [now apply M_AltR | exact H].
  - eapply star_sound; [exact IHa | exact H].
Qed.

Lemma run_complete (r : RegExp) :
  forall s1 s2 (k : string -> option A) x, Matches r s1 -> k s2 = Some x ->
    exists y, run r (s1 +:+ s2) k = Some y.
Proof.
  induction r as [|p|a IHa b IHb|a IHa b IHb|a IHa]; intros s1 s2 k x HM Hk;
    cbn [run].
  - inversion HM; subst. eauto.
  - inversion HM; subst. rewrite str_app_cons, str_app_nil_l.
    match goal with H : p _ = true |- _ => rewrite H end. eauto.
  - inversion HM; subst. rewrite str_app_assoc.
    match goal with
    | Ha : Matches a ?t1, Hb : Matches b ?t2 |- _ =>
        destruct (IHb t2 s2 k x Hb Hk) as [y Hy];
        exact (IHa t1 (t2 +:+ s2) (fun s' => run b s' k) y Ha Hy)
    end.
  - inversion HM; subst.
    + match goal with Ha : Matches a _ |- _ =>
        destruct (IHa _ _ _ _ Ha Hk) as [y ->] end. eauto.
    + destruct (run a (s1 +:+ s2) k); [eauto|].
      match goal with Hb : Matches b _ |- _ => exact (IHb _ _ _ _ Hb Hk) end.
  - eapply star_complete; [exact IHa | exact HM | reflexivity | lia | exact Hk].
Qed.

End MatcherCorrect.

(** [test] decides the language of the pattern. *)
Lemma test_Matches (r : RegExp) (s : string) : test r s = true <-> Matches r s.
Proof.
  unfold test. split.
  - destruct (run r s _) as [[]|] eqn:E; [intros _|discriminate].
    apply run_sound in E as (s1 & s2 & -> & HM & Hk).
    destruct s2; [|discriminate]. now rewrite str_app_nil_r.
  - intros HM.
    destruct (run_complete r s "" (fun rest => match rest with "" => Some tt | _ => None end)
                tt HM eq_refl) as [y Hy].
    rewrite str_app_nil_r in Hy. now rewrite Hy.
Qed.

Lemma Matches_Eps (s : string) : Matches Eps s <-> s = "".
Proof. split; [now inversion 1 | intros ->; constructor]. Qed.

Lemma Matches_Class (p : ascii -> bool) (s : string) :
  Matches (Class p) s <-> exists c, s = String c "" /\ p c = true.
Proof.
  split.
  - inversion 1; subst. eauto.
  - intros (c & -> & H). now constructor.
Qed.

Lemma Matches_Seq (a b : RegExp) (s : string) :
  Matches (Seq a b) s <->
  exists s1 s2, s = s1 +:+ s2 /\ Matches a s1 /\ Matches b s2.
Proof.
  split.
  - inversion 1; subst. eauto.
  - intros (s1 & s2 & -> & Ha & Hb). now constructor.
Qed.

Lemma Matches_Alt (a b : RegExp) (s : string) :
  Matches (Alt a b) s <-> Matches a s \/ Matches b s.
Proof.
  split.
  - inversion 1; subst; auto.
  - intros [H|H]; [now apply M_AltL | now apply M_AltR].
Qed.

(** A class followed by a pattern: one code unit of the class, then the rest. *)
Lemma Matches_Class_Seq (p : ascii -> bool) (b : RegExp) (s : string) :
  Matches (Seq (Class p) b) s <->
  exists c s', s = String c s' /\ p c = true /\ Matches b s'.
Proof.
  rewrite Matches_Seq. split.
  - intros (s1 & s2 & -> & (c & -> & Hc)%Matches_Class & Hb). exists c, s2. auto.
  - intros (c & s' & -> & Hc & Hb). exists (String c ""), s'.
    repeat split; [apply Matches_Class; eauto | exact Hb].
Qed.

Lemma Matches_Rep (p : ascii -> bool) (n : nat) :
  forall s, Matches (Rep n (Class p)) s <-> String.length s = n /\ all_chars p s.
Proof.
  induction n as [|n IH]; intros s; cbn [Rep].
  - rewrite Matches_Eps. split.
    + intros ->. cbn. auto.
    + intros [H _]. now apply length_zero.
  - rewrite Matches_Class_Seq. split.
    + intros (c & s' & -> & Hc & [Hl Ha]%IH). cbn. auto.
    + destruct s as [|c s]; [cbn; intros [? _]; discriminate|].
      cbn. intros [Hl [Hc Ha]]. exists c, s. repeat split; [exact Hc|].
      apply IH. split; [lia | exact Ha].
Qed.

Lemma Matches_UpTo (p : ascii -> bool) (n : nat) :
  forall s, Matches (UpTo n (Class p)) s <->
            (String.length s <= n)%nat /\ all_chars p s.
Proof.
  induction n as [|n IH]; intros s; cbn [UpTo].
  - rewrite Matches_Eps. split.
    + intros ->. cbn. auto.
    + intros [H _]. apply length_zero. lia.
  - unfold Opt. rewrite Matches_Alt, Matches_Class_Seq, Matches_Eps. split.
    + intros [(c & s' & -> & Hc & [Hl Ha]%IH) | ->]; cbn; [split; [lia | auto] | split; [lia | auto]].
    + destruct s as [|c s]; [auto|].
      cbn. intros [Hl [Hc Ha]]. left. exists c, s. repeat split; [exact Hc|].
      apply IH. split; [lia | exact Ha].
Qed.

Lemma Matches_Star_Class (p : ascii -> bool) (s : string) :
  Matches (Star (Class p)) s <-> all_chars p s.
Proof.
  split.
  - intros H. remember (Star (Class p)) as r eqn:Hr.
    induction H as [| | | | | a | a s1 s2 H1 _ H2 IH]; try discriminate.
    + exact I.
    + injection Hr as ->. apply all_chars_app. split; [|auto].
      apply Matches_Class in H1 as (c & -> & Hc). cbn. auto.
  - induction s as [|c s IH]; [constructor|].
    cbn. intros [Hc Ha]. change (String c s) with (String c "" +:+ s).
    constructor; [now constructor | auto].
Qed.

Lemma Matches_Between (p : ascii -> bool) (lo hi : nat) (s : string) :
  (lo <= hi)%nat ->
  Matches (Between lo hi (Class p)) s <->
  (lo <= String.length s <= hi)%nat /\ all_chars p s.
Proof.
  intros Hle. unfold Between. rewrite Matches_Seq. split.
  - intros (s1 & s2 & -> & [Hl1 Ha1]%Matches_Rep & [Hl2 Ha2]%Matches_UpTo).
    rewrite str_length_app, all_chars_app. split; [lia | auto].
  - intros [Hl Ha]. destruct (split_at lo s) as (s1 & s2 & -> & Hl1); [lia|].
    apply all_chars_app in Ha as [Ha1 Ha2]. rewrite str_length_app in Hl.
    exists s1, s2. repeat split.
    + apply Matches_Rep. auto.
    + apply Matches_UpTo. split; [lia | auto].
Qed.

Lemma Matches_AtLeast (p : ascii -> bool) (n : nat) (s : string) :
  Matches (AtLeast n (Class p)) s <->
  (n <= String.length s)%nat /\ all_chars p s.
Proof.
  unfold AtLeast. rewrite Matches_Seq. split.
  - intros (s1 & s2 & -> & [Hl1 Ha1]%Matches_Rep & Ha2%Matches_Star_Class).
    rewrite str_length_app, all_chars_app. split; [lia | auto].
  - intros [Hl Ha]. destruct (split_at n s) as (s1 & s2 & -> & Hl1); [lia|].
    apply all_chars_app in Ha as [Ha1 Ha2].
    exists s1, s2. repeat split.
    + apply Matches_Rep. auto.
    + now apply Matches_Star_Class.
Qed.

Lemma is_char_eq (a c : ascii) : is_char a c = true <-> c = a.
Proof. unfold is_char. apply Ascii.eqb_eq. Qed.

Lemma Matches_domain (d : string) : Matches domainRegex d <-> valid_domain d.
Proof.
  unfold domainRegex, Plus, valid_domain. rewrite Matches_Seq. split.
  - intros (a & rest & -> & [Hl Ha]%Matches_AtLeast
            & (c & t & -> & ->%is_char_eq & [Hlt Hat]%Matches_AtLeast)%Matches_Class_Seq).
    exists a, t. auto.
  - intros (a & t & -> & Hl & Ha & Hlt & Hat).
    exists a, (String "." t). repeat split.
    + apply Matches_AtLeast. auto.
    + apply Matches_Class_Seq. exists "."%char, t. repeat split.
      apply Matches_AtLeast. auto.
Qed.

(** The handles the multi-instance pattern matches are the valid ones. *)
Lemma Matches_multi (h : string) : Matches Multi.handleRegex h <-> valid_handle h.
Proof.
  unfold Multi.handleRegex, Opt, valid_handle, valid_username.
  fold domainRegex. rewrite Matches_Seq. split.
  - intros (u & rest & -> & Hu%Matches_Between & Hrest); [|lia].
    exists u. split; [exact Hu|].
    apply Matches_Alt in Hrest as [(c & d & -> & ->%is_char_eq & Hd%Matches_domain)%Matches_Class_Seq
                                  | ->%Matches_Eps].
    + right. exists d. auto.
    + left. now rewrite str_app_nil_r.
  - intros (u & Hu & [-> | (d & -> & Hd)]).
    + exists u, "". rewrite str_app_nil_r. repeat split.
      * apply Matches_Between; [lia | exact Hu].
      * apply M_AltR. constructor.
    + exists u, (String "@" d). repeat split.
      * apply Matches_Between; [lia | exact Hu].
      * apply M_AltL. apply Matches_Class_Seq. exists "@"%char, d.
        repeat split. now apply Matches_domain.
Qed.

(** The handles the single-instance pattern matches carry a domain. *)
Lemma Matches_single (h : string) : Matches Single.handleRegex h <-> full_handle h.
Proof.
  unfold Single.handleRegex, full_handle, valid_username.
  fold domainRegex. rewrite Matches_Seq. split.
  - intros (u & rest & -> & Hu%Matches_Between
            & (c & d & -> & ->%is_char_eq & Hd%Matches_domain)%Matches_Class_Seq); [|lia].
    exists u, d. auto.
  - intros (u & d & Hu & -> & Hd).
    exists u, (String "@" d). repeat split.
    + apply Matches_Between; [lia | exact Hu].
    + apply Matches_Class_Seq. exists "@"%char, d.
      repeat split. now apply Matches_domain.
Qed.

(** ** Splitting a handle *)

Lemma split_without (c : ascii) (s : string) :
  includes s c = false -> split s c = [s].
Proof.
  induction s as [|a s IH]; [reflexivity|].
  cbn. destruct (Ascii.eqb a c); [discriminate|].
  intros H. now rewrite (IH H).
Qed.

Lemma includes_app (c : ascii) (s t : string) :
  includes (s +:+ t) c = includes s c || includes t c.
Proof.
  induction s as [|a s IH]; [reflexivity|].
  rewrite str_app_cons. cbn. destruct (Ascii.eqb a c); [reflexivity | exact IH].
Qed.

Lemma split_app (c : ascii) (s t : string) :
  includes s c = false -> split (s +:+ String c t) c = s :: split t c.
Proof.
  induction s as [|a s IH]; cbn [includes].
  - intros _. rewrite str_app_nil_l. cbn. now rewrite Ascii.eqb_refl.
  - destruct (Ascii.eqb a c) eqn:E; [discriminate|].
    intros H. rewrite str_app_cons. cbn [split]. rewrite E, (IH H). reflexivity.
Qed.

Lemma all_chars_excludes (p : ascii -> bool) (c : ascii) (s : string) :
  p c = false -> all_chars p s -> includes s c = false.
Proof.
  intros Hp. induction s as [|a s IH]; [reflexivity|].
  cbn. intros [Ha Hs]. destruct (Ascii.eqb_spec a c) as [->|_]; [congruence | auto].
Qed.

Lemma all_chars_weaken (p q : ascii -> bool) (s : string) :
  (forall c, p c = true -> q c = true) -> all_chars p s -> all_chars q s.
Proof.
  intros Hpq. induction s as [|a s IH]; [auto|]. cbn. intros [Ha Hs]. auto.
Qed.

Lemma alpha_is_domain_char (c : ascii) : alpha_char c = true -> domain_char c = true.
Proof.
  unfold alpha_char, domain_char.
  destruct (in_range 97 122 c), (in_range 65 90 c); cbn; intros; congruence.
Qed.

Lemma valid_domain_no_at (d : string) : valid_domain d -> includes d "@" = false.
Proof.
  intros (a & t & -> & _ & Ha & _ & Ht).
  rewrite includes_app. change ("." +:+ t) with (String "." t). cbn [includes].
  rewrite (all_chars_excludes domain_char "@" a eq_refl Ha). cbn.
  apply (all_chars_excludes domain_char "@" t eq_refl).
  eapply all_chars_weaken; [apply alpha_is_domain_char | exact Ht].
Qed.

Lemma valid_username_no_at (u : string) : valid_username u -> includes u "@" = false.
Proof. intros [_ Hu]. exact (all_chars_excludes word_char "@" u eq_refl Hu). Qed.

(** A full handle splits into its username and its instance. *)
Lemma split_full_handle (u d : string) :
  valid_username u -> valid_domain d ->
  includes (u +:+ "@" +:+ d) "@" = true /\
  part (split (u +:+ "@" +:+ d) "@") 0 = u /\
  part (split (u +:+ "@" +:+ d) "@") 1 = d.
Proof.
  intros Hu Hd. change ("@" +:+ d) with (String "@" d).
  rewrite includes_app. cbn [includes]. rewrite Ascii.eqb_refl, orb_true_r.
  rewrite (split_app "@" u d (valid_username_no_at u Hu)).
  rewrite (split_without "@" d (valid_domain_no_at d Hd)).
  repeat split.
Qed.

(** A bare username is its own first part. *)
Lemma split_bare (h : string) :
  includes h "@" = false -> part (split h "@") 0 = h.
Proof. intros H. now rewrite (split_without "@" h H). Qed.

Lemma word_char_unreserved (c : ascii) : word_char c = true -> uri_unreserved c = true.
Proof.
  unfold word_char, uri_unreserved.
  destruct (in_range 97 122 c), (in_range 65 90 c), (in_range 48 57 c), (is_char "_" c),
    (is_char "-" c); cbn; intros; congruence.
Qed.

(** [encodeURIComponent] leaves a valid username as it is. *)
Lemma encode_username (u : string) : all_chars word_char u -> encodeURIComponent u = u.
Proof.
  induction u as [|c u IH]; [reflexivity|].
  cbn [all_chars encodeURIComponent]. intros [Hc Hu].
  rewrite (word_char_unreserved c Hc), (IH Hu). reflexivity.
Qed.

Lemma test_nonempty_multi (h : string) :
  test Multi.handleRegex h = true -> String.eqb h "" = false.
Proof. destruct h; [discriminate | reflexivity]. Qed.

Lemma test_nonempty_single (h : string) :
  test Single.handleRegex h = true -> String.eqb h "" = false.
Proof. destruct h; [discriminate | reflexivity]. Qed.

(** A bare username passes the validation of the multi-instance server. *)
Lemma valid_username_accepted (u : string) :
  valid_username u ->
  test Multi.handleRegex u = true /\ includes u "@" = false.
Proof.
  intros Hu. split; [|now apply valid_username_no_at].
  apply test_Matches, Matches_multi. exists u. auto.
Qed.

Lemma valid_handle_cases (h : string) :
  valid_handle h ->
  (includes h "@" = false /\ valid_username h) \/
  (includes h "@" = true /\ full_handle h).
Proof.
  intros (u & Hu & [-> | (d & -> & Hd)]).
  - left. split; [now apply valid_username_no_at | exact Hu].
  - right. split; [now apply split_full_handle | exists u, d; auto].
Qed.

(** ** The lookup endpoint of the multi-instance server *)

Lemma multi_rejects (w : World) (st : State) (h : string) :
  test Multi.handleRegex h = false ->
  exists b, Multi.handler h w st = (Return {| status := 400; json := b |}, st).
Proof.
  intros H. unfold Multi.handler. destruct (String.eqb h "").
  - eexists. reflexivity.
  - rewrite H. eexists. reflexivity.
Qed.

Lemma multi_full_rejected (w : World) (st : State) (h m : string)
    (r : option Axios.Response) :
  test Multi.handleRegex h = true ->
  includes h "@" = true ->
  http_get w (length (requests st))
    (apiUrl (part (split h "@") 0) (part (split h "@") 1)) = Axios.Rejected m r ->
  Multi.handler h w st =
  (Return {| status := status_or (AxiosError m r) 404;
             json := BError ("Mastodon account " +:+ h
                             +:+ " not found, suspended, or instance "
                             +:+ part (split h "@") 1 +:+ " unavailable") |},
   sent st [apiUrl (part (split h "@") 0) (part (split h "@") 1)]).
Proof.
  intros Ht Hi Hget. unfold Multi.handler.
  rewrite (test_nonempty_multi h Ht), Ht. cbn [negb].
  unfold try_catch, bind at 1, Multi.getMastodonProfile. rewrite Hi.
  unfold bind at 1. rewrite fetchFromInstance_eq, Hget. cbn [settle].
  unfold ret. reflexivity.
Qed.

(** What a bare username resolves to, given the results of the fan-out. *)
Lemma getMastodonProfile_bare (w : World) (st st1 : State) (h : string)
    (rs : list Multi.LookupResult) :
  includes h "@" = false ->
  mapM (fun instance => Multi.fetchFromInstance h instance) (Multi.instances w) w st
    = (Return rs, st1) ->
  Multi.getMastodonProfile h w st =
  (if (length (List.filter Multi.has_id rs) =? 0)%nat
   then Throw (Error ("No account found for " +:+ h +:+ " on instances: "
                      +:+ join (Multi.instances w) ", "))
   else Return (Multi.Many (List.filter Multi.has_id rs)), st1).
Proof.
  intros Hi Hmap. unfold Multi.getMastodonProfile. rewrite Hi, (split_bare h Hi).
  unfold bind. rewrite Hmap.
  destruct (length (List.filter Multi.has_id rs) =? 0)%nat; reflexivity.
Qed.

(** No instance has the account: the lookup fails with the aggregate error,
    which the endpoint answers with status 500. *)
Lemma multi_zero_successes (w : World) (st st1 : State) (h : string)
    (rs : list Multi.LookupResult) :
  valid_username h ->
  mapM (fun instance => Multi.fetchFromInstance h instance) (Multi.instances w) w st
    = (Return rs, st1) ->
  List.filter Multi.has_id rs = [] ->
  Multi.handler h w st =
  (Return {| status := 500;
             json := BErrorDetails
                       ("No account found for " +:+ h +:+ " on instances: "
                        +:+ join (Multi.instances w) ", ")
                       (DPrim (JStr ("Searched instances: "
                                     +:+ join (Multi.instances w) ", "))) |},
   logged st1 (Error ("No account found for " +:+ h +:+ " on instances: "
                      +:+ join (Multi.instances w) ", "))).
Proof.
  intros Hu Hmap Hnone. destruct (valid_username_accepted h Hu) as [Ht Hi].
  unfold Multi.handler.
  rewrite (test_nonempty_multi h Ht), Ht. cbn [negb].
  unfold try_catch, bind at 1.
  rewrite (getMastodonProfile_bare w st st1 h rs Hi Hmap), Hnone. cbn [length Nat.eqb].
  unfold bind, console_error, ret, message_or. cbn [message].
  reflexivity.
Qed.

Lemma format_all (w : World) (rs : list Multi.LookupResult) :
  Forall (fun r => RawProfile (Multi.data r)) rs ->
  forall st, exists users st',
    mapM (fun r => let! p := Multi.processProfileData (Multi.data r) (Multi.instanceUsed r) in
                   ret (Multi.medium p)) rs w st = (Return users, st') /\
    requests st' = requests st /\
    Forall2 (fun r u => exists p, Formats w r p /\ u = Multi.medium p) rs users /\
    Forall2 (fun r u => instance_used u = Some (Multi.instanceUsed r)) rs users.
Proof.
  induction 1 as [|r rs Hr _ IH]; intros st.
  - exists [], st. repeat split; constructor.
  - destruct (RawProfile_returns w st (Multi.data r) (Multi.instanceUsed r) Hr)
      as (p & Ep & Hinst & _).
    destruct (IH (tick2 st)) as (users & st' & E & Hreq & Hall & Htag).
    exists (Multi.medium p :: users), st'. split; [|split; [|split]].
    + cbn [mapM]. unfold bind at 1. unfold bind at 1. rewrite Ep.
      unfold ret at 1. unfold bind at 1. rewrite E. reflexivity.
    + exact Hreq.
    + constructor; [|exact Hall]. exists p. split; [|reflexivity].
      exists st, (tick2 st). split; [exact Ep | reflexivity].
    + constructor; [exact Hinst | exact Htag].
Qed.

Lemma medium_downgraded (p : FormattedProfile) : downgraded p (Multi.medium p).
Proof. repeat split. Qed.

Lemma downgrade_all (w : World) (rs : list Multi.LookupResult)
    (users : list FormattedProfile) :
  Forall (fun r => RawProfile (Multi.data r)) rs ->
  Forall2 (fun r u => exists p, Formats w r p /\ u = Multi.medium p) rs users ->
  Forall2 (fun r u => exists p, Formats w r p /\ downgraded p u /\
             user_id p = prop (fields (Multi.data r)) "id" /\
             estimation_confidence p = "High (exact server timestamp)") rs users.
Proof.
  intros Hraw Hall. revert Hraw.
  induction Hall as [|r u rs us (p & HF & ->) _ IH]; intros Hraw; constructor.
  - inversion Hraw as [|? ? Hr _]; subst.
    exists p. split; [exact HF|]. split; [apply medium_downgraded|].
    destruct HF as (s0 & s1 & E & _).
    destruct (RawProfile_returns w s0 (Multi.data r) (Multi.instanceUsed r) Hr)
      as (p' & E' & _ & Hc & Hid).
    rewrite E in E'. injection E' as -> _. split; assumption.
  - apply IH. inversion Hraw; assumption.
Qed.

(** C5.  A bare username found on more than one instance is answered with
    status 200 and [{users, note}]: one formatted profile per successful
    instance, each with confidence ["Medium (multiple instances found)"].
    Found on exactly one, it is answered with that one formatted profile,
    its confidence left at ["High (exact server timestamp)"]. *)
Theorem multiple_matches (w : World) (st st1 : State) (h : string)
    (results : list Multi.LookupResult) :
  valid_username h ->
  mapM (fun instance => Multi.fetchFromInstance h instance) (Multi.instances w) w st
    = (Return results, st1) ->
  let successes := List.filter Multi.has_id results in
  Forall (fun r => RawProfile (Multi.data r)) successes ->
  ((1 < length successes)%nat ->
   exists users note st',
     Multi.handler h w st = (Return {| status := 200; json := BUsers users note |}, st') /\
     length users = length successes /\
     Forall2 (fun r u => exists p, Formats w r p /\ u = Multi.medium p) successes users /\
     Forall (fun u => estimation_confidence u = "Medium (multiple instances found)") users /\
     Forall2 (fun r u => instance_used u = Some (Multi.instanceUsed r)) successes users /\
     Forall2 (fun r u => exists p, Formats w r p /\ downgraded p u /\
                user_id p = prop (fields (Multi.data r)) "id" /\
                estimation_confidence p = "High (exact server timestamp)")
       successes users /\
     note = "Multiple accounts found for " +:+ h
            +:+ ". Use instance_used or profile_link to select the correct account.") /\
  (forall r, successes = [r] ->
   exists p st',
     Multi.handler h w st = (Return {| status := 200; json := BProfile p |}, st') /\
     Formats w r p /\
     estimation_confidence p = "High (exact server timestamp)" /\
     instance_used p = Some (Multi.instanceUsed r)).
Proof.
  intros Hu Hmap successes Hraw.
  destruct (valid_username_accepted h Hu) as [Ht Hi].
  split.
  - intros Hlen.
    destruct (format_all w successes Hraw st1) as (users & st' & E & Hreq & Hall & Htag).
    exists users,
      ("Multiple accounts found for " +:+ h
       +:+ ". Use instance_used or profile_link to select the correct account."),
      st'.
    split; [|split; [|split; [|split; [|split; [|split]]]]].
    + unfold Multi.handler.
      rewrite (test_nonempty_multi h Ht), Ht. cbn [negb].
      unfold try_catch, bind at 1.
      rewrite (getMastodonProfile_bare w st st1 h results Hi Hmap).
      fold successes.
      destruct (Nat.eqb_spec (length successes) 0) as [H0|_]; [lia|].
      destruct (Nat.ltb_spec 1 (length successes)) as [_|H1]; [|lia].
      unfold bind at 1. rewrite E, (split_bare h Hi). reflexivity.
    + symmetry. eapply Forall2_length. exact Hall.
    + exact Hall.
    + clear -Hall. induction Hall as [|r u rs us (p & _ & ->) _ IH]; constructor; auto.
    + exact Htag.
    + exact (downgrade_all w successes users Hraw Hall).
    + reflexivity.
  - intros r Hone. rewrite Hone in Hraw. inversion Hraw as [|? ? Hr _]; subst.
    destruct (RawProfile_returns w st1 (Multi.data r) (Multi.instanceUsed r) Hr)
      as (p & Ep & Hinst & Hconf & _).
    exists p, (tick2 st1). split; [|split; [|split]].
    + unfold Multi.handler.
      rewrite (test_nonempty_multi h Ht), Ht. cbn [negb].
      unfold try_catch, bind at 1.
      rewrite (getMastodonProfile_bare w st st1 h results Hi Hmap).
      fold successes. rewrite Hone. cbn [length Nat.eqb Nat.ltb Nat.leb].
      unfold bind at 1. rewrite Ep. reflexivity.
    + exists st1, (tick2 st1). split; [exact Ep | reflexivity].
    + exact Hconf.
    + exact Hinst.
Qed.

(** ** Computations that issue no request *)

Create HintDb quiet.

Lemma quiet_ret {A} (a : A) : quiet (ret a).
Proof. intros w st. reflexivity. Qed.

Lemma quiet_throw {A} (e : Exn) : quiet (@throw A e).
Proof. intros w st. reflexivity. Qed.

Lemma quiet_bind {A B} (m : M A) (f : A -> M B) :
  quiet m -> (forall a, quiet (f a)) -> quiet (bind m f).
Proof.
  intros Hm Hf w st. unfold bind. specialize (Hm w st).
  destruct (m w st) as [[a|e] st']; cbn in *; [|exact Hm].
  now rewrite Hf.
Qed.

Lemma quiet_try_catch {A} (m : M A) (h : Exn -> M A) :
  quiet m -> (forall e, quiet (h e)) -> quiet (try_catch m h).
Proof.
  intros Hm Hh w st. unfold try_catch. specialize (Hm w st).
  destruct (m w st) as [[a|e] st']; cbn in *; [exact Hm|].
  now rewrite Hh.
Qed.

Lemma quiet_mapM {A B} (f : A -> M B) (l : list A) :
  (forall a, quiet (f a)) -> quiet (mapM f l).
Proof.
  intros Hf. induction l as [|x l IH]; cbn [mapM].
  - apply quiet_ret.
  - apply quiet_bind; [apply Hf|]. intros y.
    apply quiet_bind; [exact IH|]. intros ys. apply quiet_ret.
Qed.

Lemma quiet_Date_now : quiet Date_now.
Proof. intros w st. reflexivity. Qed.

Lemma quiet_new_Date (v : JsVal) : quiet (new_Date v).
Proof. intros w st. reflexivity. Qed.

Lemma quiet_toLocaleDateString (d : option Z) : quiet (toLocaleDateString d).
Proof. intros w st. reflexivity. Qed.

Lemma quiet_console_error (e : Exn) : quiet (console_error e).
Proof. intros w st. reflexivity. Qed.

Lemma quiet_toString (v : JsVal) : quiet (toString v).
Proof. intros w st. unfold toString. destruct (nullish v); reflexivity. Qed.

Lemma quiet_replace (v : JsVal) (r : RegExp) (by_ : string) : quiet (replace v r by_).
Proof. intros w st. destruct v; reflexivity. Qed.

Lemma quiet_ToObject (d : Data) (k : string) : quiet (ToObject d k).
Proof. intros w st. destruct d as [v|o]; [destruct v|]; reflexivity. Qed.

Lemma quiet_calculateAccountAge (v : JsVal) : quiet (calculateAccountAge v).
Proof. intros w st. reflexivity. Qed.

Lemma quiet_calculateAgeDays (v : JsVal) : quiet (calculateAgeDays v).
Proof. intros w st. reflexivity. Qed.

#[export] Hint Resolve quiet_ret quiet_throw quiet_Date_now quiet_new_Date
  quiet_toLocaleDateString quiet_console_error quiet_toString quiet_replace
  quiet_ToObject quiet_calculateAccountAge quiet_calculateAgeDays : quiet.

Ltac quiet_steps :=
  repeat first
    [ apply quiet_bind; [solve [auto with quiet] | intros ?]
    | solve [auto with quiet] ].

Lemma quiet_processProfileData (d : Data) (i : string) :
  quiet (Multi.processProfileData d i).
Proof. unfold Multi.processProfileData. quiet_steps. Qed.

#[export] Hint Resolve quiet_processProfileData : quiet.

Lemma split_nonempty (s : string) (c : ascii) : split s c <> [].
Proof.
  induction s as [|a s IH]; cbn; [discriminate|].
  destruct (Ascii.eqb a c); [discriminate|].
  destruct (split s c); discriminate.
Qed.

Lemma instances_nonempty (w : World) : Multi.instances w <> [].
Proof.
  unfold Multi.instances. destruct (MASTODON_INSTANCES w) as [s|]; [|discriminate].
  destruct (String.eqb s ""); [discriminate | apply split_nonempty].
Qed.

(** Resolving a handle asks at least one instance. *)
Lemma getMastodonProfile_asks (w : World) (st : State) (h : string) :
  exists l, l <> [] /\
    requests (snd (Multi.getMastodonProfile h w st)) = (requests st ++ l)%list.
Proof.
  unfold Multi.getMastodonProfile. destruct (includes h "@").
  - eexists [_]. split; [discriminate|].
    unfold bind. rewrite fetchFromInstance_eq. reflexivity.
  - destruct (fan_out_eq w (part (split h "@") 0) (Multi.instances w) st)
      as (rs & E & _).
    exists (map (apiUrl (part (split h "@") 0)) (Multi.instances w)). split.
    + pose proof (instances_nonempty w). destruct (Multi.instances w); [congruence | discriminate].
    + unfold bind. rewrite E.
      destruct (length (List.filter Multi.has_id rs) =? 0)%nat; reflexivity.
Qed.

(** A handle the pattern matches reaches the network. *)
Lemma multi_accepts (w : World) (st : State) (h : string) :
  test Multi.handleRegex h = true ->
  exists l, l <> [] /\
    requests (snd (Multi.handler h w st)) = (requests st ++ l)%list.
Proof.
  intros Ht. destruct (getMastodonProfile_asks w st h) as (l & Hl & E).
  exists l. split; [exact Hl|]. rewrite <- E.
  unfold Multi.handler. rewrite (test_nonempty_multi h Ht), Ht. cbn [negb].
  unfold try_catch, bind at 1.
  destruct (Multi.getMastodonProfile h w st) as [[result|e] st1]; cbn [snd].
  - match goal with
    | |- requests (snd (match ?m w st1 with _ => _ end)) = _ =>
        assert (Hq : quiet m)
    end.
    { destruct result as [[d i|e i]|rs]; [quiet_steps..|].
      destruct (1 <? length rs)%nat.
      - apply quiet_bind; [|intros; auto with quiet].
        apply quiet_mapM. intros r. quiet_steps.
      - destruct rs; quiet_steps. }
    specialize (Hq w st1).
    match goal with
    | Hq : requests (snd ?x) = _ |- requests (snd (match ?y with _ => _ end)) = _ =>
        change y with x; destruct x as [[res|e] st2]; cbn [snd] in *; [exact Hq|]
    end.
    rewrite <- Hq. reflexivity.
  - reflexivity.
Qed.

(** ** The lookup endpoint of the single-instance server *)

Lemma single_rejects (w : World) (st : State) (h : string) :
  test Single.handleRegex h = false ->
  exists b, Single.handler h w st = (Return {| status := 400; json := b |}, st).
Proof.
  intros H. unfold Single.handler. destruct (String.eqb h "").
  - eexists. reflexivity.
  - rewrite H. eexists. reflexivity.
Qed.

Lemma test_single_full (h : string) :
  test Single.handleRegex h = true -> includes h "@" = true.
Proof.
  intros (u & d & Hu & -> & Hd)%test_Matches%Matches_single.
  now apply split_full_handle.
Qed.

Lemma single_getMastodonProfile_eq (w : World) (st : State) (h : string) :
  includes h "@" = true ->
  Single.getMastodonProfile h w st =
  match http_get w (length (requests st))
          (apiUrl (part (split h "@") 0) (part (split h "@") 1)) with
  | Axios.Resolved r =>
      (Return (Axios.data r),
       sent st [apiUrl (part (split h "@") 0) (part (split h "@") 1)])
  | Axios.Rejected m r =>
      (Throw (AxiosError m r),
       logged (sent st [apiUrl (part (split h "@") 0) (part (split h "@") 1)])
         (AxiosError m r))
  end.
Proof.
  intros Hi. unfold Single.getMastodonProfile, try_catch, bind, axios_get.
  rewrite Hi. cbn [negb].
  destruct (http_get w _ _); reflexivity.
Qed.

Lemma single_rejected (w : World) (st : State) (h m : string)
    (r : option Axios.Response) :
  test Single.handleRegex h = true ->
  http_get w (length (requests st))
    (apiUrl (part (split h "@") 0) (part (split h "@") 1)) = Axios.Rejected m r ->
  exists st',
    Single.handler h w st =
    (Return (if Single.not_found (AxiosError m r)
             then {| status := 404;
                     json := BError ("Mastodon account " +:+ h
                                     +:+ " not found, suspended, or instance unavailable") |}
             else {| status := status_or (AxiosError m r) 500;
                     json := BErrorDetails
                               (message_or (AxiosError m r) "Failed to fetch Mastodon data")
                               (data_or (AxiosError m r) "No additional details") |}),
     st') /\
    requests st' = (requests st
                    ++ [apiUrl (part (split h "@") 0) (part (split h "@") 1)])%list.
Proof.
  intros Ht Hget. unfold Single.handler.
  rewrite (test_nonempty_single h Ht), Ht. cbn [negb].
  unfold try_catch at 1, bind at 1.
  rewrite (single_getMastodonProfile_eq w st h (test_single_full h Ht)), Hget.
  destruct (Single.not_found (AxiosError m r)).
  - eexists. split; reflexivity.
  - eexists. split; reflexivity.
Qed.

(** A handle the pattern matches reaches the network, once. *)
Lemma single_accepts (w : World) (st : State) (h : string) :
  test Single.handleRegex h = true ->
  requests (snd (Single.handler h w st)) =
  (requests st ++ [apiUrl (part (split h "@") 0) (part (split h "@") 1)])%list.
Proof.
  intros Ht.
  destruct (http_get w (length (requests st))
              (apiUrl (part (split h "@") 0) (part (split h "@") 1)))
    as [r|m r] eqn:Hget.
  - unfold Single.handler.
    rewrite (test_nonempty_single h Ht), Ht. cbn [negb].
    unfold try_catch at 1, bind at 1.
    rewrite (single_getMastodonProfile_eq w st h (test_single_full h Ht)), Hget.
    match goal with
    | |- requests (snd (match ?m w ?s1 with _ => _ end)) = _ =>
        assert (Hq : quiet m); [|specialize (Hq w s1)]
    end.
    { destruct (_ || _); quiet_steps. }
    match goal with
    | Hq : requests (snd ?x) = _ |- requests (snd (match ?y with _ => _ end)) = _ =>
        change y with x; destruct x as [[res|e] st2]; cbn [snd] in *; [exact Hq|]
    end.
    destruct (Single.not_found e); exact Hq.
  - destruct (single_rejected w st h m r Ht Hget) as (st' & -> & E). exact E.
Qed.

(** C4, as the two servers have it.  In the multi-instance server a
    per-instance lookup never throws: what the upstream answers, be it a
    rejection with or without a response, comes back as a result tagged
    with the instance.  So the fan-out of [getMastodonProfile] over the N
    configured instances asks all N and gets N results, the i-th fixed by
    the i-th answer alone, and only then keeps the successes or fails.
    The one lookup of the single-instance server returns the body when
    the upstream resolves, and writes the error to the console and throws
    it again when the upstream rejects. *)
Theorem lookups_never_throw (w : World) (st : State) (username : string) :
  (forall instance,
      Multi.fetchFromInstance username instance w st =
        (Return (settle (http_get w (length (requests st)) (apiUrl username instance))
                   instance),
         sent st [apiUrl username instance]) /\
      (forall a, Multi.instanceUsed (settle a instance) = instance) /\
      (forall m r, settle (Axios.Rejected m r) instance
                   = Multi.Failure (AxiosError m r) instance) /\
      (forall resp, settle (Axios.Resolved resp) instance
                    = Multi.Success (Axios.data resp) instance)) /\
  (forall l, exists rs st',
      mapM (fun instance => Multi.fetchFromInstance username instance) l w st =
        (Return rs, st') /\
      length rs = length l /\
      map Multi.instanceUsed rs = l /\
      requests st' = (requests st ++ map (apiUrl username) l)%list /\
      forall i instance, l !! i = Some instance ->
        rs !! i = Some (settle (http_get w (length (requests st) + i)
                                  (apiUrl username instance)) instance)) /\
  (includes username "@" = false ->
   exists rs,
     length rs = length (Multi.instances w) /\
     map Multi.instanceUsed rs = Multi.instances w /\
     (forall i instance, Multi.instances w !! i = Some instance ->
        rs !! i = Some (settle (http_get w (length (requests st) + i)
                                  (apiUrl username instance)) instance)) /\
     Multi.getMastodonProfile username w st =
       (if (length (List.filter Multi.has_id rs) =? 0)%nat
        then Throw (Error ("No account found for " +:+ username +:+ " on instances: "
                           +:+ join (Multi.instances w) ", "))
        else Return (Multi.Many (List.filter Multi.has_id rs)),
        sent st (map (apiUrl username) (Multi.instances w)))) /\
  (forall h, includes h "@" = true ->
     Single.getMastodonProfile h w st =
     match http_get w (length (requests st))
             (apiUrl (part (split h "@") 0) (part (split h "@") 1)) with
     | Axios.Resolved r =>
         (Return (Axios.data r),
          sent st [apiUrl (part (split h "@") 0) (part (split h "@") 1)])
     | Axios.Rejected m r =>
         (Throw (AxiosError m r),
          logged (sent st [apiUrl (part (split h "@") 0) (part (split h "@") 1)])
            (AxiosError m r))
     end).
Proof.
  split; [|split; [|split]].
  - intros instance. split; [apply fetchFromInstance_eq|].
    split; [intros []; reflexivity | split; reflexivity].
  - intros l. destruct (fan_out_eq w username l st) as (rs & E & Hlen & Htag & Hnth).
    exists rs, (sent st (map (apiUrl username) l)).
    repeat split; assumption.
  - intros Hi.
    destruct (fan_out_eq w username (Multi.instances w) st) as (rs & E & Hlen & Htag & Hnth).
    exists rs. split; [exact Hlen|]. split; [exact Htag|]. split; [exact Hnth|].
    exact (getMastodonProfile_bare w st _ username rs Hi E).
  - intros h Hi. exact (single_getMastodonProfile_eq w st h Hi).
Qed.

(** ** Stripping tags *)

(** The star of [/[^>]*>/] runs up to the first [>]. *)
Lemma star_until_gt (s : string) :
  forall fuel, (String.length s <= fuel)%nat ->
  star fuel (run (Class (not_char ">"))) s
    (fun s' => run (Class (is_char ">")) s' Some) = after_gt s.
Proof.
  induction s as [|c s IH]; intros fuel Hlen.
  - destruct fuel; reflexivity.
  - destruct fuel as [|fuel]; [cbn in Hlen; lia|].
    cbn [star run after_gt]. unfold not_char, is_char.
    destruct (Ascii.eqb c ">"); cbn [negb]; [reflexivity|].
    cbn [String.length].
    destruct (Nat.ltb_spec (String.length s) (S (String.length s))); [|lia].
    rewrite IH by (cbn in Hlen; lia).
    destruct (after_gt s); reflexivity.
Qed.

(** Where the tag pattern matches at the head of a string. *)
Lemma run_tag (s : string) :
  run tagRegex s Some =
  match s with
  | String c s' => if is_char "<" c then after_gt s' else None
  | "" => None
  end.
Proof.
  unfold tagRegex. cbn [run]. destruct s as [|c s]; [reflexivity|].
  destruct (is_char "<" c); [|reflexivity].
  apply star_until_gt. lia.
Qed.

Lemma after_gt_app (mid rest : string) :
  all_chars (not_char ">") mid -> after_gt (mid +:+ String ">" rest) = Some rest.
Proof.
  induction mid as [|c mid IH]; [reflexivity|].
  cbn [all_chars]. intros [Hc Hm]. rewrite str_app_cons. cbn [after_gt].
  unfold not_char in Hc. unfold is_char.
  destruct (Ascii.eqb c ">"); [discriminate | auto].
Qed.

Lemma after_gt_Some (s rest : string) :
  after_gt s = Some rest ->
  exists mid, s = mid +:+ String ">" rest /\ all_chars (not_char ">") mid.
Proof.
  revert rest. induction s as [|c s IH]; intros rest; [discriminate|].
  cbn [after_gt]. unfold is_char. destruct (Ascii.eqb_spec c ">") as [->|Hc].
  - intros [= ->]. exists "". split; [reflexivity | exact I].
  - intros (mid & -> & Hm)%IH. exists (String c mid). split; [reflexivity|].
    cbn [all_chars]. split; [|exact Hm].
    unfold not_char. now apply negb_true_iff, Ascii.eqb_neq.
Qed.

Lemma after_gt_length (s rest : string) :
  after_gt s = Some rest -> (String.length rest < String.length s)%nat.
Proof.
  intros (mid & -> & _)%after_gt_Some. rewrite str_length_app. cbn. lia.
Qed.

Lemma after_gt_None_app (a b : string) :
  after_gt (a +:+ b) = None -> after_gt b = None.
Proof.
  induction a as [|c a IH]; [auto|].
  rewrite str_app_cons. cbn [after_gt]. destruct (is_char ">" c); [discriminate | auto].
Qed.

(** A tag at the head of a string is matched, and the match ends with it. *)
Lemma run_tag_head (m post : string) :
  is_tag m -> run tagRegex (m +:+ post) Some = Some post.
Proof.
  intros (mid & -> & Hm). rewrite run_tag.
  change ("<" +:+ mid +:+ ">") with (String "<" (mid +:+ ">")).
  rewrite str_app_cons, str_app_assoc. cbn [is_char Ascii.eqb]. 
  change (is_char "<" "<") with true. cbv iota.
  now apply after_gt_app.
Qed.

Lemma run_tag_Some (s rest : string) :
  run tagRegex s Some = Some rest ->
  exists m, is_tag m /\ s = m +:+ rest.
Proof.
  rewrite run_tag. destruct s as [|c s]; [discriminate|].
  destruct (is_char "<" c) eqn:Hc; [|discriminate].
  apply is_char_eq in Hc as ->.
  intros (mid & -> & Hm)%after_gt_Some.
  exists ("<" +:+ mid +:+ ">"). split; [exists mid; auto|].
  change ("<" +:+ mid +:+ ">") with (String "<" (mid +:+ ">")).
  rewrite str_app_cons, str_app_assoc. reflexivity.
Qed.

(** A string that holds a tag holds a [>] after the start of the tag. *)
Lemma tag_inside (pre m post : string) :
  is_tag m -> after_gt (pre +:+ m +:+ post) <> None.
Proof.
  intros (mid & -> & Hm) H. apply after_gt_None_app in H.
  change ("<" +:+ mid +:+ ">") with (String "<" (mid +:+ ">")) in H.
  rewrite str_app_cons, str_app_assoc in H. cbn [after_gt] in H.
  change (is_char ">" "<") with false in H. cbv iota in H.
  change (">" +:+ post) with (String ">" post) in H.
  now rewrite after_gt_app in H.
Qed.

Lemma not_tag_empty : ~ is_tag "".
Proof. intros (mid & H & _). discriminate. Qed.

Lemma tag_free_tail (c : ascii) (s : string) : tag_free (String c s) -> tag_free s.
Proof.
  intros H pre m post ->. apply (H (String c pre) m post). reflexivity.
Qed.

Lemma tag_free_head (s : string) : tag_free s -> run tagRegex s Some = None.
Proof.
  intros H. destruct (run tagRegex s Some) as [rest|] eqn:E; [|reflexivity].
  apply run_tag_Some in E as (m & Hm & ->).
  exfalso. exact (H "" m rest eq_refl Hm).
Qed.

(** Without a match at its head, a string has the tags of its tail. *)
Lemma tag_free_cons (c : ascii) (s : string) :
  run tagRegex (String c s) Some = None -> tag_free s -> tag_free (String c s).
Proof.
  intros Hhead Hs pre m post E Hm.
  destruct pre as [|a pre].
  - rewrite str_app_nil_l in E. rewrite E, (run_tag_head m post Hm) in Hhead. discriminate.
  - rewrite str_app_cons in E. injection E as -> ->. exact (Hs pre m post eq_refl Hm).
Qed.

Lemma Stripped_cons (c : ascii) (s out : string) :
  run tagRegex (String c s) Some = None ->
  Stripped s out -> Stripped (String c s) (String c out).
Proof.
  intros Hhead HS. inversion HS as [s0 Hfree | pre m post out0 Hpre Hm Hpost]; subst.
  - apply Stripped_none. now apply tag_free_cons.
  - change (String c (pre +:+ m +:+ post)) with (String c pre +:+ m +:+ post).
    change (String c (pre +:+ out0)) with (String c pre +:+ out0).
    apply Stripped_tag; [|exact Hm | exact Hpost].
    cbn [all_chars]. split; [|exact Hpre].
    rewrite run_tag in Hhead. unfold not_char. fold (is_char "<" c).
    destruct (is_char "<" c); [|reflexivity].
    exfalso. exact (tag_inside pre m post Hm Hhead).
Qed.

(** What [replace] writes is the input with its tags removed. *)
Lemma replace_go_Stripped (fuel : nat) :
  forall s, (String.length s < fuel)%nat ->
  Stripped s (replace_go fuel tagRegex "" s).
Proof.
  induction fuel as [|fuel IH]; intros s Hlen; [lia|].
  cbn [replace_go]. destruct (run tagRegex s Some) as [rest|] eqn:E.
  - pose proof E as (m & Hm & ->)%run_tag_Some.
    rewrite run_tag in E.
    assert (Hlt : (String.length rest < String.length (m +:+ rest))%nat).
    { rewrite str_length_app. destruct m; [now apply not_tag_empty in Hm | cbn; lia]. }
    destruct (Nat.ltb_spec (String.length rest) (String.length (m +:+ rest))); [|lia].
    rewrite str_app_nil_l.
    apply (Stripped_tag "" m rest); [exact I | exact Hm |].
    apply IH. lia.
  - destruct s as [|c s].
    + apply Stripped_none. intros pre m post H Hm.
      destruct pre; [|discriminate]. destruct m; [now apply not_tag_empty in Hm | discriminate].
    + apply Stripped_cons; [exact E|]. apply IH. cbn in Hlen. lia.
Qed.

(** ... and nothing else is. *)
Lemma Stripped_replace_go (s out : string) :
  Stripped s out ->
  forall fuel, (String.length s < fuel)%nat -> replace_go fuel tagRegex "" s = out.
Proof.
  induction 1 as [s Hfree | pre m post out Hpre Hm _ IH].
  - induction s as [|c s IHs]; intros fuel Hlen;
      (destruct fuel as [|fuel]; [lia|]); cbn [replace_go];
      rewrite (tag_free_head _ Hfree); [reflexivity|].
    rewrite IHs; [reflexivity | now apply tag_free_tail in Hfree | cbn in Hlen; lia].
  - induction pre as [|c pre IHp]; intros fuel Hlen;
      (destruct fuel as [|fuel]; [lia|]); cbn [replace_go].
    + rewrite !str_app_nil_l in *. rewrite (run_tag_head m post Hm).
      assert (Hlt : (String.length post < String.length (m +:+ post))%nat).
      { rewrite str_length_app. destruct m; [now apply not_tag_empty in Hm | cbn; lia]. }
      destruct (Nat.ltb_spec (String.length post) (String.length (m +:+ post))); [|lia].
      rewrite str_app_nil_l. apply IH. lia.
    + cbn [all_chars] in Hpre. destruct Hpre as [Hc Hpre].
      rewrite !str_app_cons. rewrite run_tag.
      unfold not_char in Hc. fold (is_char "<" c) in Hc.
      destruct (is_char "<" c); [discriminate|].
      rewrite (IHp Hpre); [reflexivity|]. rewrite str_app_cons in Hlen. cbn in Hlen. lia.
Qed.

(** Once its tags are removed, a string holds no tag. *)
Lemma Stripped_tag_free (s out : string) : Stripped s out -> tag_free out.
Proof.
  induction 1 as [s Hfree | pre m post out Hpre Hm _ IH]; [exact Hfree|].
  clear m Hm post. induction pre as [|c pre IHp]; [exact IH|].
  cbn [all_chars] in Hpre. destruct Hpre as [Hc Hpre].
  intros p t q E Ht. rewrite str_app_cons in E.
  destruct p as [|a p].
  - rewrite str_app_nil_l in E. destruct Ht as (mid & -> & _).
    change ("<" +:+ mid +:+ ">") with (String "<" (mid +:+ ">")) in E.
    rewrite str_app_cons in E. injection E as -> _. discriminate Hc.
  - rewrite str_app_cons in E. injection E as _ E.
    exact (IHp Hpre p t q E Ht).
Qed.

(** What the single-instance server answers when the instance resolves
    with a raw profile that has an id. *)
Lemma single_formats (w : World) (st : State) (h : string) (r : Axios.Response)
    (o : gmap string JsVal) (bio : string) :
  test Single.handleRegex h = true ->
  http_get w (length (requests st))
    (apiUrl (part (split h "@") 0) (part (split h "@") 1)) = Axios.Resolved r ->
  Axios.data r = DObj o ->
  truthy (prop o "id") = true ->
  prop o "note" = JStr bio ->
  nullish (prop o "followers_count") = false ->
  nullish (prop o "statuses_count") = false ->
  exists p st',
    Single.handler h w st = (Return {| status := 200; json := BProfile p |}, st') /\
    description p = replace_all tagRegex "" bio /\
    verified p = (if truthy (prop o "bot") then "Bot Account"
                  else if truthy (prop o "locked") then "Protected" else "Standard") /\
    followers p = String_of (prop o "followers_count") /\
    total_posts p = String_of (prop o "statuses_count").
Proof.
  intros Ht Hget Hd Hid Hnote Hf Hs.
  eexists. eexists. split.
  - unfold Single.handler.
    rewrite (test_nonempty_single h Ht), Ht. cbn [negb].
    unfold try_catch at 1, bind at 1.
    rewrite (single_getMastodonProfile_eq w st h (test_single_full h Ht)), Hget, Hd.
    cbn [Data_truthy fields negb orb]. rewrite Hid. cbn [negb].
    unfold bind, new_Date, toLocaleDateString, toString, replace, ret.
    rewrite !calculateAccountAge_eq, !calculateAgeDays_eq, Hnote, Hf, Hs.
    reflexivity.
  - cbn [description verified followers total_posts]. repeat split.
Qed.

(** C8.  [description] is the bio with its tags removed: every stretch
    that starts with [<], goes on with characters other than [>] and ends
    with [>].  No tag is left in it, and nothing else is touched: what
    lies outside the tags is copied as it is, entities and control
    characters included. *)
Theorem description_strips_tags (w : World) (st : State) (o : gmap string JsVal)
    (instanceUsed bio : string) :
  prop o "note" = JStr bio ->
  nullish (prop o "followers_count") = false ->
  nullish (prop o "statuses_count") = false ->
  (exists p st',
      Multi.processProfileData (DObj o) instanceUsed w st = (Return p, st') /\
      Stripped bio (description p) /\
      (forall out, Stripped bio out -> out = description p) /\
      tag_free (description p) /\
      (tag_free bio -> description p = bio)) /\
  (forall h r,
      test Single.handleRegex h = true ->
      http_get w (length (requests st))
        (apiUrl (part (split h "@") 0) (part (split h "@") 1)) = Axios.Resolved r ->
      Axios.data r = DObj o ->
      truthy (prop o "id") = true ->
      exists p st',
        Single.handler h w st = (Return {| status := 200; json := BProfile p |}, st') /\
        Stripped bio (description p) /\
        (forall out, Stripped bio out -> out = description p)) /\
  replace_all tagRegex "" "<p>Hello <b>world</b></p>" = "Hello world" /\
  replace_all tagRegex "" "Tom &amp; Jerry" = "Tom &amp; Jerry".
Proof.
  intros Hnote Hf Hs.
  assert (HS : Stripped bio (replace_all tagRegex "" bio)).
  { apply replace_go_Stripped. lia. }
  assert (HU : forall out, Stripped bio out -> out = replace_all tagRegex "" bio).
  { intros out H. symmetry. apply (Stripped_replace_go bio out H). lia. }
  split; [|split; [|split; reflexivity]].
  - eexists. eexists. split; [apply (processProfileData_eq w st o instanceUsed bio Hnote Hf Hs)|].
    cbn [description]. split; [exact HS|]. split; [exact HU|].
    split; [exact (Stripped_tag_free _ _ HS)|].
    intros Hfree. symmetry. apply HU. now apply Stripped_none.
  - intros h r Ht Hget Hd Hid.
    destruct (single_formats w st h r o bio Ht Hget Hd Hid Hnote Hf Hs)
      as (p & st' & E & Hdesc & _).
    exists p, st'. rewrite Hdesc. auto.
Qed.

(** ** Validation and upstream failures *)

Lemma app_not_self {A} (l k : list A) : k <> [] -> (l ++ k)%list <> l.
Proof.
  intros Hk E. apply Hk. apply (app_inv_head l). now rewrite List.app_nil_r.
Qed.

Lemma apiUrl_full (u d : string) :
  valid_username u -> valid_domain d ->
  apiUrl (part (split (u +:+ "@" +:+ d) "@") 0) (part (split (u +:+ "@" +:+ d) "@") 1)
  = "https://" +:+ d +:+ "/api/v1/accounts/lookup?acct=" +:+ u.
Proof.
  intros Hu Hd. destruct (split_full_handle u d Hu Hd) as (_ & -> & ->).
  unfold apiUrl. now rewrite (encode_username u (proj2 Hu)).
Qed.

(** C3, as the two servers have it.  The multi-instance server takes a
    handle if and only if it is a username of 3 to 30 letters, digits or
    underscores, optionally followed by [@] and a domain; the
    single-instance server, if and only if the [@] and the domain are
    there.  A handle that is taken reaches the network; one that is not is
    answered with status 400 before any request is made. *)
Theorem handle_validation (w : World) (st : State) (h : string) :
  (test Multi.handleRegex h = true <-> valid_handle h) /\
  (test Single.handleRegex h = true <-> full_handle h) /\
  (valid_handle h <-> requests (snd (Multi.handler h w st)) <> requests st) /\
  (full_handle h <-> requests (snd (Single.handler h w st)) <> requests st) /\
  (~ valid_handle h ->
   exists b, Multi.handler h w st = (Return {| status := 400; json := b |}, st)) /\
  (~ full_handle h ->
   exists b, Single.handler h w st = (Return {| status := 400; json := b |}, st)).
Proof.
  assert (HM : test Multi.handleRegex h = true <-> valid_handle h).
  { rewrite test_Matches. apply Matches_multi. }
  assert (HS : test Single.handleRegex h = true <-> full_handle h).
  { rewrite test_Matches. apply Matches_single. }
  split; [exact HM|]. split; [exact HS|]. split; [|split; [|split]].
  - rewrite <- HM. split.
    + intros Ht. destruct (multi_accepts w st h Ht) as (l & Hl & ->).
      now apply app_not_self.
    + intros Hreq. destruct (test Multi.handleRegex h) eqn:Ht; [reflexivity|].
      destruct (multi_rejects w st h Ht) as (b & E). rewrite E in Hreq. now elim Hreq.
  - rewrite <- HS. split.
    + intros Ht. rewrite (single_accepts w st h Ht). now apply app_not_self.
    + intros Hreq. destruct (test Single.handleRegex h) eqn:Ht; [reflexivity|].
      destruct (single_rejects w st h Ht) as (b & E). rewrite E in Hreq. now elim Hreq.
  - intros Hn. apply multi_rejects.
    destruct (test Multi.handleRegex h) eqn:Ht; [|reflexivity].
    exfalso. apply Hn, HM. reflexivity.
  - intros Hn. apply single_rejects.
    destruct (test Single.handleRegex h) eqn:Ht; [|reflexivity].
    exfalso. apply Hn, HS. reflexivity.
Qed.

(** C6, as the two servers have it.  When the one upstream call of a
    full-handle lookup is rejected, the single-instance server answers 404
    on an upstream 404 or 403, and otherwise the upstream status, or 500
    when there is none, with the upstream message and body as detail.  The
    multi-instance server answers the upstream status, whichever it is, or
    404 when there is none, with a message that names the handle and the
    instance and carries no upstream detail.  The detail is said in full:
    [error] is the upstream message, or ["Failed to fetch Mastodon data"]
    when that is empty; [details] is the upstream response body when there
    is a response and its body is truthy, and ["No additional details"]
    otherwise; a status of 0 counts as no status. *)
Theorem upstream_failure (w : World) (st : State) (u d m : string)
    (r : option Axios.Response) :
  valid_username u -> valid_domain d ->
  http_get w (length (requests st))
    ("https://" +:+ d +:+ "/api/v1/accounts/lookup?acct=" +:+ u) = Axios.Rejected m r ->
  let h := u +:+ "@" +:+ d in
  let e := AxiosError m r in
  (exists st',
     Single.handler h w st =
     (Return (if Single.not_found e
              then {| status := 404;
                      json := BError ("Mastodon account " +:+ h
                                      +:+ " not found, suspended, or instance unavailable") |}
              else {| status := status_or e 500;
                      json := BErrorDetails (message_or e "Failed to fetch Mastodon data")
                                (data_or e "No additional details") |}), st')) /\
  (exists st',
     Multi.handler h w st =
     (Return {| status := status_or e 404;
                json := BError ("Mastodon account " +:+ h
                                +:+ " not found, suspended, or instance "
                                +:+ d +:+ " unavailable") |}, st')) /\
  (r = None -> Single.not_found e = false /\ status_or e 500 = 500%Z /\
               status_or e 404 = 404%Z) /\
  (forall resp, r = Some resp ->
     (Single.not_found e = true <->
      Axios.status resp = 404%Z \/ Axios.status resp = 403%Z) /\
     (Axios.status resp <> 0%Z ->
      status_or e 500 = Axios.status resp /\ status_or e 404 = Axios.status resp)) /\
  (forall resp, r = Some resp -> Axios.status resp = 0%Z ->
     status_or e 500 = 500%Z /\ status_or e 404 = 404%Z) /\
  ((m <> "" -> message_or e "Failed to fetch Mastodon data" = m) /\
   (m = "" -> message_or e "Failed to fetch Mastodon data" = "Failed to fetch Mastodon data")) /\
  (r = None -> data_or e "No additional details" = DPrim (JStr "No additional details")) /\
  (forall resp, r = Some resp ->
     (forall o, Axios.data resp = DObj o -> data_or e "No additional details" = DObj o) /\
     (forall v, Axios.data resp = DPrim v -> truthy v = true ->
                data_or e "No additional details" = DPrim v) /\
     (forall v, Axios.data resp = DPrim v -> truthy v = false ->
                data_or e "No additional details" = DPrim (JStr "No additional details"))) /\
  (forall resp, r = Some resp ->
     Axios.status resp <> 404%Z -> Axios.status resp <> 403%Z -> Axios.status resp <> 0%Z ->
     m <> "" -> Data_truthy (Axios.data resp) = true ->
     fst (Single.handler h w st)
     = Return {| status := Axios.status resp;
                 json := BErrorDetails m (Axios.data resp) |}) /\
  (r = None -> m <> "" ->
     fst (Single.handler h w st)
     = Return {| status := 500;
                 json := BErrorDetails m (DPrim (JStr "No additional details")) |}).
Proof.
  intros Hu Hd Hget h e.
  assert (Hfull : full_handle h) by (exists u, d; auto).
  pose proof (apiUrl_full u d Hu Hd) as Hurl. fold h in Hurl.
  rewrite <- Hurl in Hget.
  destruct (split_full_handle u d Hu Hd) as (Hinc & _ & Hpart). fold h in Hinc, Hpart.
  destruct (single_rejected w st h m r) as (st1 & E1 & _);
    [now apply test_Matches, Matches_single | exact Hget |].
  fold e in E1.
  assert (Hmsg : m <> "" -> message_or e "Failed to fetch Mastodon data" = m).
  { intros Hm. unfold message_or, e. cbn [message].
    destruct (String.eqb_spec m "") as [->|_]; [now elim Hm | reflexivity]. }
  split; [|split; [|split; [|split; [|split; [|split; [|split; [|split; [|split]]]]]]]].
  - exists st1. exact E1.
  - eexists. rewrite <- Hpart.
    apply multi_full_rejected; [|exact Hinc | exact Hget].
    apply test_Matches, Matches_multi. exists u. split; [exact Hu|]. right. exists d. auto.
  - intros ->. repeat split.
  - intros resp ->. unfold Single.not_found, status_or, e. cbn [response]. split.
    + rewrite orb_true_iff, !Z.eqb_eq. tauto.
    + intros Hz. apply Z.eqb_neq in Hz. rewrite Hz. auto.
  - intros resp -> Hz. unfold status_or, e. cbn [response]. rewrite Hz. auto.
  - split; [exact Hmsg|]. intros ->. reflexivity.
  - intros ->. reflexivity.
  - intros resp ->. unfold data_or, e. cbn [response]. repeat split.
    + intros o ->. reflexivity.
    + intros v -> Hv. cbn [Data_truthy]. now rewrite Hv.
    + intros v -> Hv. cbn [Data_truthy]. now rewrite Hv.
  - intros resp -> H404 H403 H0 Hm Ht. rewrite E1. cbn [fst].
    rewrite (Hmsg Hm).
    unfold Single.not_found, status_or, data_or, e. cbn [response].
    apply Z.eqb_neq in H404, H403, H0. rewrite H404, H403, H0, Ht. reflexivity.
  - intros -> Hm. rewrite E1. cbn [fst]. rewrite (Hmsg Hm). reflexivity.
Qed.

(** C9.  [verified] is ["Bot Account"] when the bot flag is set, whatever
    the locked flag; else ["Protected"] when the locked flag is set; else
    ["Standard"].  Both servers write it so. *)
Theorem verified_label (w : World) (st : State) (o : gmap string JsVal)
    (instanceUsed : string) :
  RawProfile (DObj o) ->
  let bot := truthy (prop o "bot") in
  let locked := truthy (prop o "locked") in
  let label := if bot then "Bot Account" else if locked then "Protected" else "Standard" in
  (exists p st',
      Multi.processProfileData (DObj o) instanceUsed w st = (Return p, st') /\
      verified p = label) /\
  (forall h r,
      test Single.handleRegex h = true ->
      http_get w (length (requests st))
        (apiUrl (part (split h "@") 0) (part (split h "@") 1)) = Axios.Resolved r ->
      Axios.data r = DObj o ->
      truthy (prop o "id") = true ->
      exists p st',
        Single.handler h w st = (Return {| status := 200; json := BProfile p |}, st') /\
        verified p = label) /\
  (bot = true -> label = "Bot Account") /\
  (bot = false -> locked = true -> label = "Protected") /\
  (bot = false -> locked = false -> label = "Standard").
Proof.
  intros (o' & bio & n & m & [= <-] & Hnote & Hf & Hs) bot locked label.
  assert (Hf' : nullish (prop o "followers_count") = false) by now rewrite Hf.
  assert (Hs' : nullish (prop o "statuses_count") = false) by now rewrite Hs.
  split; [|split; [|split; [|split]]].
  - eexists. eexists.
    split; [apply (processProfileData_eq w st o instanceUsed bio Hnote Hf' Hs')|].
    reflexivity.
  - intros h r Ht Hget Hd Hid.
    destruct (single_formats w st h r o bio Ht Hget Hd Hid Hnote Hf' Hs')
      as (p & st' & E & _ & Hv & _).
    exists p, st'. split; [exact E | exact Hv].
  - unfold label. intros ->. reflexivity.
  - unfold label. intros -> ->. reflexivity.
  - unfold label. intros -> ->. reflexivity.
Qed.

(** C10.  [followers] and [total_posts] are strings: for counts that are
    safe integers, below 2^53 in absolute value, the decimal numerals of
    the two counts, which read back as the counts.  Both servers write them
    so. *)
Theorem counts_are_decimal_strings (w : World) (st : State) (o : gmap string JsVal)
    (instanceUsed bio : string) (n m : Z) :
  prop o "note" = JStr bio ->
  prop o "followers_count" = JNum n ->
  prop o "statuses_count" = JNum m ->
  safe_integer n -> safe_integer m ->
  (exists p st',
      Multi.processProfileData (DObj o) instanceUsed w st = (Return p, st') /\
      followers p = Number_toString n /\
      total_posts p = Number_toString m) /\
  (forall h r,
      test Single.handleRegex h = true ->
      http_get w (length (requests st))
        (apiUrl (part (split h "@") 0) (part (split h "@") 1)) = Axios.Resolved r ->
      Axios.data r = DObj o ->
      truthy (prop o "id") = true ->
      exists p st',
        Single.handler h w st = (Return {| status := 200; json := BProfile p |}, st') /\
        followers p = Number_toString n /\
        total_posts p = Number_toString m) /\
  option_map Z.of_int (NilZero.int_of_string (Number_toString n)) = Some n /\
  option_map Z.of_int (NilZero.int_of_string (Number_toString m)) = Some m.
Proof.
  intros Hnote Hf Hs _ _.
  assert (Hf' : nullish (prop o "followers_count") = false) by now rewrite Hf.
  assert (Hs' : nullish (prop o "statuses_count") = false) by now rewrite Hs.
  split; [|split; [|split; apply Number_toString_decimal]].
  - eexists. eexists.
    split; [apply (processProfileData_eq w st o instanceUsed bio Hnote Hf' Hs')|].
    cbn [followers total_posts]. now rewrite Hf, Hs.
  - intros h r Ht Hget Hd Hid.
    destruct (single_formats w st h r o bio Ht Hget Hd Hid Hnote Hf' Hs')
      as (p & st' & E & _ & _ & Hfo & Hto).
    exists p, st'. rewrite Hfo, Hto, Hf, Hs. auto.
Qed.

(** ** Concrete runs *)

Lemma valid_username_gargron : valid_username "gargron".
Proof. split; [cbn; lia | cbn; tauto]. Qed.

Lemma valid_domain_social : valid_domain "mastodon.social".
Proof. exists "mastodon", "social". cbn. repeat split; lia. Qed.

(** C2.  No instance has the account "gargron": every lookup fails, and
    the endpoint answers with status 500, not 404; the error message lists
    the three configured instances. *)
Theorem zero_successes_answer :
  Multi.instances all_time_out = ["mastodon.social"; "fosstodon.org"; "mstdn.social"] /\
  (exists rs st1,
      mapM (fun instance => Multi.fetchFromInstance "gargron" instance)
        (Multi.instances all_time_out) all_time_out start = (Return rs, st1) /\
      length rs = 3%nat /\ List.filter Multi.has_id rs = []) /\
  fst (Multi.handler "gargron" all_time_out start) =
    Return {| status := 500;
              json := BErrorDetails
                        "No account found for gargron on instances: mastodon.social, fosstodon.org, mstdn.social"
                        (DPrim (JStr "Searched instances: mastodon.social, fosstodon.org, mstdn.social")) |}.
Proof.
  split; [reflexivity|]. split.
  - eexists. eexists. split; [vm_compute; reflexivity|]. split; reflexivity.
  - vm_compute. reflexivity.
Qed.

Lemma RawProfile_gargron : RawProfile (DObj gargron).
Proof.
  exists gargron, "<p>Hello <b>world</b></p>", 350000%Z, 78000%Z.
  repeat split.
Qed.

(** 400 days after its creation, the account is ["1 years, 1 months"] old. *)
Lemma account_age_years_months_witness :
  Date_value all_found (JStr "2016-03-16T14:34:26.392Z") = Some 1458138866392%Z /\
  (0 <= 400)%Z /\
  fst (calculateAccountAge (JStr "2016-03-16T14:34:26.392Z") all_found start)
  = Return "1 years, 1 months".
Proof.
  split; [reflexivity|]. split; [discriminate|].
  destruct (account_age_years_months all_found start (JStr "2016-03-16T14:34:26.392Z")
              1458138866392 400 eq_refl eq_refl) as (_ & _ & H).
  - discriminate.
  - exact (H eq_refl).
Defined.

(** Three days later the account is three days older. *)
Lemma age_days_monotone_witness :
  (clock ticking 0 <= clock ticking 3)%Z /\
  exists d1 d2 : Z,
    fst (calculateAgeDays (JStr "2016-03-16T14:34:26.392Z") ticking start) = Return (Some d1) /\
    fst (calculateAgeDays (JStr "2016-03-16T14:34:26.392Z") ticking
           {| ticks := 3; requests := []; console := [] |}) = Return (Some d2) /\
    (d1 <= d2)%Z.
Proof.
  split; [discriminate|].
  destruct (age_days_monotone ticking start {| ticks := 3; requests := []; console := [] |}
              (JStr "2016-03-16T14:34:26.392Z") 1458138866392 eq_refl)
    as (d1 & d2 & H1 & H2 & _ & _ & Hle).
  - discriminate.
  - exists d1, d2. auto.
Defined.

(** With every instance timing out, each of the three lookups comes back
    as a failure tagged with its instance. *)
Lemma lookups_never_throw_witness :
  exists rs st',
    mapM (fun instance => Multi.fetchFromInstance "gargron" instance)
      ["mastodon.social"; "fosstodon.org"; "mstdn.social"] all_time_out start
    = (Return rs, st') /\
    length rs = 3%nat /\
    rs !! 1%nat = Some (Multi.Failure (AxiosError "timeout of 5000ms exceeded" None)
                          "fosstodon.org").
Proof.
  destruct (proj1 (proj2 (lookups_never_throw all_time_out start "gargron"))
              ["mastodon.social"; "fosstodon.org"; "mstdn.social"])
    as (rs & st' & E & Hlen & _ & _ & Hnth).
  exists rs, st'. split; [exact E|]. split; [exact Hlen|].
  exact (Hnth 1%nat "fosstodon.org" eq_refl).
Defined.

(** Found on all three instances, "gargron" is answered with three
    profiles of medium confidence. *)
Lemma multiple_matches_witness :
  valid_username "gargron" /\
  exists users note st',
    Multi.handler "gargron" all_found start
    = (Return {| status := 200; json := BUsers users note |}, st') /\
    length users = 3%nat /\
    Forall (fun u => estimation_confidence u = "Medium (multiple instances found)") users /\
    Forall (fun u => user_id u = JStr "1") users /\
    note = "Multiple accounts found for gargron. Use instance_used or profile_link to select the correct account.".
Proof.
  split; [exact valid_username_gargron|].
  pose (rs := [Multi.Success (DObj gargron) "mastodon.social";
               Multi.Success (DObj gargron) "fosstodon.org";
               Multi.Success (DObj gargron) "mstdn.social"]).
  destruct (multiple_matches all_found start
              (sent start (map (apiUrl "gargron") (Multi.instances all_found)))
              "gargron" rs valid_username_gargron eq_refl) as [Hmany _].
  - repeat constructor; exact RawProfile_gargron.
  - destruct Hmany as (users & note & st' & Eh & Hl & _ & Hconf & _ & Hpin & Hnote).
    + vm_compute. repeat constructor.
    + exists users, note, st'. split; [exact Eh|]. split; [exact Hl|].
      split; [exact Hconf|]. split; [|exact Hnote].
      change (List.filter Multi.has_id rs) with rs in Hpin.
      assert (Hid : Forall (fun r => prop (fields (Multi.data r)) "id" = JStr "1") rs)
        by (repeat constructor).
      clear -Hpin Hid. revert Hid.
      induction Hpin as [|r u l us (p & _ & Hd & Hp & _) _ IH]; intros Hid;
        constructor.
      * destruct Hd as (_ & _ & _ & _ & _ & _ & _ & _ & _ & _ & Hu & _).
        rewrite Hu, Hp. inversion Hid; assumption.
      * apply IH. inversion Hid; assumption.
Defined.

(** A time-out upstream: the single-instance server answers 500 with the
    upstream message, the multi-instance server 404 naming the instance.
    An upstream 503 with a body: the single-instance server answers 503
    with the upstream message and that body, the multi-instance server 503
    naming the instance. *)
Lemma upstream_failure_witness :
  http_get all_time_out 0 "https://mastodon.social/api/v1/accounts/lookup?acct=gargron"
  = Axios.Rejected "timeout of 5000ms exceeded" None /\
  fst (Single.handler "gargron@mastodon.social" all_time_out start)
  = Return {| status := 500;
              json := BErrorDetails "timeout of 5000ms exceeded"
                        (DPrim (JStr "No additional details")) |} /\
  fst (Multi.handler "gargron@mastodon.social" all_time_out start)
  = Return {| status := 404;
              json := BError "Mastodon account gargron@mastodon.social not found, suspended, or instance mastodon.social unavailable" |} /\
  http_get all_unavailable 0 "https://mastodon.social/api/v1/accounts/lookup?acct=gargron"
  = Axios.Rejected "Request failed with status code 503"
      (Some {| Axios.status := 503; Axios.data := DPrim (JStr "Service Unavailable") |}) /\
  fst (Single.handler "gargron@mastodon.social" all_unavailable start)
  = Return {| status := 503;
              json := BErrorDetails "Request failed with status code 503"
                        (DPrim (JStr "Service Unavailable")) |} /\
  fst (Multi.handler "gargron@mastodon.social" all_unavailable start)
  = Return {| status := 503;
              json := BError "Mastodon account gargron@mastodon.social not found, suspended, or instance mastodon.social unavailable" |}.
Proof.
  split; [reflexivity|].
  destruct (upstream_failure all_time_out start "gargron" "mastodon.social"
              "timeout of 5000ms exceeded" None
              valid_username_gargron valid_domain_social eq_refl)
    as (_ & (s2 & E2) & _ & _ & _ & _ & _ & _ & _ & Hnone).
  split; [exact (Hnone eq_refl ltac:(discriminate))|].
  split; [exact (f_equal fst E2)|].
  split; [reflexivity|].
  destruct (upstream_failure all_unavailable start "gargron" "mastodon.social"
              "Request failed with status code 503"
              (Some {| Axios.status := 503;
                       Axios.data := DPrim (JStr "Service Unavailable") |})
              valid_username_gargron valid_domain_social eq_refl)
    as (_ & (s3 & E3) & _ & _ & _ & _ & _ & _ & Hsome & _).
  split; [|exact (f_equal fst E3)].
  apply (Hsome _ eq_refl); [discriminate .. | reflexivity].
Defined.

(** The bio ["<p>Hello <b>world</b></p>"] is described as ["Hello world"]. *)
Lemma description_strips_tags_witness :
  prop gargron "note" = JStr "<p>Hello <b>world</b></p>" /\
  exists p st',
    Multi.processProfileData (DObj gargron) "mastodon.social" all_found start
    = (Return p, st') /\
    Stripped "<p>Hello <b>world</b></p>" (description p) /\
    description p = "Hello world".
Proof.
  split; [reflexivity|].
  destruct (description_strips_tags all_found start gargron "mastodon.social"
              "<p>Hello <b>world</b></p>" eq_refl eq_refl eq_refl)
    as ((p & st' & E & HS & _) & _).
  exists p, st'. split; [exact E|]. split; [exact HS|].
  injection E as <- _. reflexivity.
Defined.

(** A locked account that is no bot is ["Protected"]. *)
Lemma verified_label_witness :
  RawProfile (DObj gargron) /\
  exists p st',
    Multi.processProfileData (DObj gargron) "mastodon.social" all_found start
    = (Return p, st') /\
    verified p = "Protected".
Proof.
  split; [exact RawProfile_gargron|].
  destruct (verified_label all_found start gargron "mastodon.social" RawProfile_gargron)
    as ((p & st' & E & Hv) & _).
  exists p, st'. split; [exact E | exact Hv].
Defined.

(** 350000 followers and 78000 posts are written ["350000"] and ["78000"]. *)
Lemma counts_are_decimal_strings_witness :
  prop gargron "followers_count" = JNum 350000 /\
  prop gargron "statuses_count" = JNum 78000 /\
  safe_integer 350000 /\ safe_integer 78000 /\
  exists p st',
    Multi.processProfileData (DObj gargron) "mastodon.social" all_found start
    = (Return p, st') /\
    followers p = "350000" /\ total_posts p = "78000".
Proof.
  split; [reflexivity|]. split; [reflexivity|].
  assert (Hn : safe_integer 350000) by (unfold safe_integer; lia).
  assert (Hm : safe_integer 78000) by (unfold safe_integer; lia).
  split; [exact Hn|]. split; [exact Hm|].
  destruct (counts_are_decimal_strings all_found start gargron "mastodon.social"
              "<p>Hello <b>world</b></p>" 350000 78000 eq_refl eq_refl eq_refl Hn Hm)
    as ((p & st' & E & Hf & Hs) & _).
  exists p, st'. split; [exact E|]. split; [exact Hf | exact Hs].
Defined.

(** A two-letter handle is answered with 400 and nothing is fetched; the
    handle "gargron" is taken by the multi-instance server. *)
Lemma handle_validation_witness :
  ~ valid_handle "ab" /\
  (exists b, Multi.handler "ab" all_found start
             = (Return {| status := 400; json := b |}, start)) /\
  valid_handle "gargron" /\
  requests (snd (Multi.handler "gargron" all_found start)) <> requests start.
Proof.
  destruct (handle_validation all_found start "ab") as (HM & _ & _ & _ & Hrej & _).
  assert (Hn : ~ valid_handle "ab").
  { intros H. apply HM in H. discriminate H. }
  split; [exact Hn|]. split; [exact (Hrej Hn)|].
  destruct (handle_validation all_found start "gargron") as (HM' & _ & Hacc & _).
  assert (Hv : valid_handle "gargron") by (apply HM'; reflexivity).
  split; [exact Hv | exact (proj1 Hacc Hv)].
Defined.

(** "gargron" is a username of seven letters, yet the single-instance
    server answers it with 400 and asks no instance. *)
Lemma bare_username_rejected_by_single :
  valid_handle "gargron" /\
  Single.handler "gargron" all_found start
  = (Return {| status := 400;
               json := BError "Invalid Mastodon handle format. Use username@instance.social (3-30 chars username, valid domain)." |},
     start).
Proof.
  split; [|reflexivity].
  exists "gargron". split; [exact valid_username_gargron | now left].
Qed.

(** The upstream call times out, no response and no status with it, yet
    the multi-instance server answers 404, not 500, and its body carries
    nothing of the upstream error. *)
Lemma transport_error_answered_404 :
  http_get all_time_out 0 "https://mastodon.social/api/v1/accounts/lookup?acct=gargron"
  = Axios.Rejected "timeout of 5000ms exceeded" None /\
  Multi.handler "gargron@mastodon.social" all_time_out start
  = (Return {| status := 404;
               json := BError "Mastodon account gargron@mastodon.social not found, suspended, or instance mastodon.social unavailable" |},
     sent start ["https://mastodon.social/api/v1/accounts/lookup?acct=gargron"]) /\
  ~ (exists b st', Multi.handler "gargron@mastodon.social" all_time_out start
                   = (Return {| status := 500; json := b |}, st')).
Proof.
  split; [reflexivity|]. split; [reflexivity|].
  intros (b & st' & E). vm_compute in E. discriminate E.
Qed.

(** The upstream call times out and [getMastodonProfile] of the
    single-instance server does not return a result: it writes the error to
    the console and throws the same error again. *)
Lemma single_lookup_rethrows :
  http_get all_time_out 0 "https://mastodon.social/api/v1/accounts/lookup?acct=gargron"
  = Axios.Rejected "timeout of 5000ms exceeded" None /\
  Single.getMastodonProfile "gargron@mastodon.social" all_time_out start
  = (Throw (AxiosError "timeout of 5000ms exceeded" None),
     {| ticks := 0;
        requests := ["https://mastodon.social/api/v1/accounts/lookup?acct=gargron"];
        console := [AxiosError "timeout of 5000ms exceeded" None] |}) /\
  ~ (exists d st', Single.getMastodonProfile "gargron@mastodon.social" all_time_out start
                   = (Return d, st')).
Proof.
  split; [reflexivity|]. split; [reflexivity|].
  intros (d & st' & E). vm_compute in E. discriminate E.
Qed.

(** Found on the first instance only, "gargron" is answered with that one
    profile, its confidence high. *)
Example one_match :
  exists p st',
    Multi.handler "gargron" one_found start
    = (Return {| status := 200; json := BProfile p |}, st') /\
    estimation_confidence p = "High (exact server timestamp)" /\
    instance_used p = Some "mastodon.social" /\
    account_age p = "1 years, 1 months" /\
    age_days p = Some 400%Z.
Proof. eexists. eexists. split; [vm_compute; reflexivity|]. repeat split. Qed.

Example split_full_handle_example :
  split "gargron@mastodon.social" "@" = ["gargron"; "mastodon.social"].
Proof. reflexivity. Qed.

Example encodeURIComponent_example : encodeURIComponent "a b/c_d" = "a%20b%2Fc_d".
Proof. reflexivity. Qed.

Example nested_tags_example : replace_all tagRegex "" "a<<b>c>d<e" = "ac>d<e".
Proof. reflexivity. Qed.

Example invalid_date_example :
  fst (calculateAccountAge JUndefined all_found start) = Return "NaN months".
Proof. reflexivity. Qed.

(** * More properties of the two servers *)

(** ** The arithmetic of the age *)

(** X1.  For an account created [d >= 0] whole days ago, [account_age]
    is the years [d / 365], shown only when positive, followed by the
    months [(d mod 365) / 30].  The months lie between 0 and 12, and they
    are 12 exactly on the last five days of each stretch of 365: an account
    of 364 days is ["12 months"] old. *)
Theorem months_at_most_twelve (w : World) (st : State) (createdAt : JsVal)
    (created d : Z) :
  Date_value w createdAt = Some created ->
  d = ((clock w (ticks st) - created) / 86400000)%Z ->
  (0 <= d)%Z ->
  let Y := (d / 365)%Z in
  let M := ((d mod 365) / 30)%Z in
  fst (calculateAccountAge createdAt w st)
  = Return ((if (0 <? Y)%Z then Number_toString Y +:+ " years, " else "")
            +:+ Number_toString M +:+ " months") /\
  (0 <= M <= 12)%Z /\
  (M = 12%Z <-> (360 <= d mod 365)%Z) /\
  (d < 365 -> fst (calculateAccountAge createdAt w st)
              = Return (Number_toString (d / 30) +:+ " months"))%Z /\
  (d = 364%Z -> fst (calculateAccountAge createdAt w st) = Return "12 months").
Proof.
  intros Hc Hd Hpos Y M.
  assert (E : fst (calculateAccountAge createdAt w st)
              = Return ((if (0 <? Y)%Z then Number_toString Y +:+ " years, " else "")
                        +:+ Number_toString M +:+ " months")).
  { rewrite calculateAccountAge_eq, Hc.
    cbn [fst num_sub Math_floor_div num_rem option_map num_gt NaN_toString].
    change (1000 * 60 * 60 * 24)%Z with 86400000%Z. rewrite <- Hd.
    rewrite Z.rem_mod_nonneg by lia. fold Y M.
    destruct (0 <? Y)%Z; [|reflexivity].
    now rewrite str_app_assoc. }
  split; [exact E|]. split; [|split; [|split]].
  - unfold M. Z.to_euclidean_division_equations. lia.
  - unfold M. Z.to_euclidean_division_equations. lia.
  - intros Hlt. rewrite E. unfold Y, M.
    rewrite (Z.div_small d 365), (Z.mod_small d 365) by lia. reflexivity.
  - intros ->. rewrite E. reflexivity.
Qed.

(** X2.  For an account created after the reading of the clock, be it by a
    millisecond, [age_days] is negative and [account_age] shows no years
    and a number of months between -13 and 0, zero on whole multiples of
    365 days only. *)
Theorem created_in_the_future (w : World) (st : State) (createdAt : JsVal)
    (created d : Z) :
  Date_value w createdAt = Some created ->
  (clock w (ticks st) < created)%Z ->
  d = ((clock w (ticks st) - created) / 86400000)%Z ->
  (d <= -1)%Z /\
  fst (calculateAgeDays createdAt w st) = Return (Some d) /\
  exists M : Z,
    fst (calculateAccountAge createdAt w st)
    = Return (Number_toString M +:+ " months") /\
    (-13 <= M <= 0)%Z /\
    (M = 0%Z <-> (d mod 365 = 0)%Z).
Proof.
  intros Hc Hlt Hd.
  assert (Hneg : (d <= -1)%Z) by (subst d; Z.to_euclidean_division_equations; lia).
  split; [exact Hneg|]. split.
  { rewrite calculateAgeDays_eq, Hc. cbn. now rewrite Hd. }
  exists (Z.rem d 365 / 30)%Z.
  split; [|split].
  - rewrite calculateAccountAge_eq, Hc.
    cbn [fst num_sub Math_floor_div num_rem option_map num_gt NaN_toString].
    change (1000 * 60 * 60 * 24)%Z with 86400000%Z. rewrite <- Hd.
    assert (Hy : (d / 365 < 0)%Z) by (Z.to_euclidean_division_equations; lia).
    destruct (Z.ltb_spec 0 (d / 365)); [lia | reflexivity].
  - Z.to_euclidean_division_equations. lia.
  - Z.to_euclidean_division_equations. lia.
Qed.

(** ** When the formatter returns, and what it then holds *)

Lemma prop_empty (k : string) : prop ∅ k = JUndefined.
Proof. unfold prop. now rewrite lookup_empty. Qed.

(** The formatter returns on an object with a string bio and both counts,
    and throws a [TypeError] on everything else. *)
Lemma processProfileData_cases (w : World) (st : State) (d : Data) (i : string) :
  (exists o bio,
      d = DObj o /\ prop o "note" = JStr bio /\
      nullish (prop o "followers_count") = false /\
      nullish (prop o "statuses_count") = false) \/
  ((forall o bio, d = DObj o -> prop o "note" = JStr bio ->
      nullish (prop o "followers_count") = false ->
      nullish (prop o "statuses_count") = false -> False) /\
   exists msg st', Multi.processProfileData d i w st = (Throw (TypeError msg), st')).
Proof.
  destruct d as [v|o].
  - right. split; [intros o bio [=]|].
    unfold Multi.processProfileData, bind, ToObject.
    destruct (nullish v) eqn:Hv.
    + eexists. eexists. reflexivity.
    + unfold ret at 1, new_Date, toLocaleDateString.
      rewrite !calculateAccountAge_eq, !calculateAgeDays_eq.
      unfold toString. rewrite !prop_empty. eexists. eexists. reflexivity.
  - destruct (nullish (prop o "followers_count")) eqn:Hf;
      [|destruct (nullish (prop o "statuses_count")) eqn:Hs;
        [|destruct (prop o "note") as [| | | |bio] eqn:Hn]];
      try (right; split;
           [intros o' bio' [= <-] H1 H2 H3; congruence
           | unfold Multi.processProfileData, bind, ToObject, ret, new_Date,
               toLocaleDateString, toString, replace;
             rewrite !calculateAccountAge_eq, !calculateAgeDays_eq, ?Hf, ?Hs, ?Hn;
             eexists; eexists; reflexivity]).
    left. exists o, bio. auto.
Qed.

(** X3.  [processProfileData] returns a profile if and only if the body is
    an object whose bio is a string and whose two counts are there; on any
    other body, a missing field or a [null] body included, it throws a
    [TypeError]. *)
Theorem formatter_returns_iff (w : World) (st : State) (d : Data) (i : string) :
  ((exists p st', Multi.processProfileData d i w st = (Return p, st')) <->
   (exists o bio,
       d = DObj o /\ prop o "note" = JStr bio /\
       nullish (prop o "followers_count") = false /\
       nullish (prop o "statuses_count") = false)) /\
  ((exists p st', Multi.processProfileData d i w st = (Return p, st')) \/
   (exists msg st', Multi.processProfileData d i w st = (Throw (TypeError msg), st'))).
Proof.
  destruct (processProfileData_cases w st d i)
    as [(o & bio & -> & Hn & Hf & Hs) | [Hno (msg & st' & E)]].
  - pose proof (processProfileData_eq w st o i bio Hn Hf Hs) as E.
    split; [split|]; eauto 8.
  - split; [split|].
    + intros (p & st'' & E'). rewrite E in E'. discriminate E'.
    + intros (o & bio & -> & Hn & Hf & Hs). exfalso. eauto.
    + right. eauto.
Qed.

(** X4.  A profile the formatter returns always has an avatar and a
    profile link: the instance's default picture stands in for a missing
    [avatar_static] and [avatar], the address [https://<instance>/@<username>]
    for a missing [url]; and the username stands in for an empty display
    name. *)
Theorem avatar_and_link_never_missing (w : World) (st st' : State)
    (o : gmap string JsVal) (i : string) (p : FormattedProfile) :
  Multi.processProfileData (DObj o) i w st = (Return p, st') ->
  truthy (avatar p) = true /\
  truthy (profile_link p) = true /\
  (truthy (prop o "avatar_static") = false -> truthy (prop o "avatar") = false ->
   avatar p = JStr ("https://" +:+ i +:+ "/avatars/original/missing.png")) /\
  (truthy (prop o "avatar_static") = true -> avatar p = prop o "avatar_static") /\
  (truthy (prop o "url") = false ->
   profile_link p = JStr ("https://" +:+ i +:+ "/@" +:+ String_of (prop o "username"))) /\
  (truthy (prop o "display_name") = false -> nickname p = prop o "username").
Proof.
  intros E.
  destruct (processProfileData_cases w st (DObj o) i)
    as [(o' & bio & [= <-] & Hn & Hf & Hs) | [_ (msg & st'' & E')]];
    [|rewrite E' in E; discriminate E].
  rewrite (processProfileData_eq w st o i bio Hn Hf Hs) in E.
  injection E as <- _. cbn [avatar profile_link nickname]. unfold js_or.
  repeat split.
  - destruct (truthy (prop o "avatar_static")) eqn:H1; [exact H1|].
    destruct (truthy (prop o "avatar")) eqn:H2; [exact H2 | reflexivity].
  - destruct (truthy (prop o "url")) eqn:H1; [exact H1 | reflexivity].
  - intros -> ->. reflexivity.
  - intros ->. reflexivity.
  - intros ->. reflexivity.
  - intros ->. reflexivity.
Qed.

(** X5.  A creation date that is missing or does not parse does not stop
    the formatter: the profile comes back with [account_age] reading
    ["NaN months"] and [age_days] not a number. *)
Theorem invalid_date_is_formatted (w : World) (st : State) (o : gmap string JsVal)
    (i bio : string) :
  prop o "note" = JStr bio ->
  nullish (prop o "followers_count") = false ->
  nullish (prop o "statuses_count") = false ->
  Date_value w (prop o "created_at") = None ->
  exists p,
    Multi.processProfileData (DObj o) i w st = (Return p, tick2 st) /\
    account_age p = "NaN months" /\ age_days p = None.
Proof.
  intros Hn Hf Hs Hd. eexists. split.
  - apply (processProfileData_eq w st o i bio Hn Hf Hs).
  - cbn [account_age age_days]. rewrite calculateAccountAge_eq, Hd. split; reflexivity.
Qed.

(** ** Computations that write nothing to the console *)

Create HintDb hush.

Lemma hush_ret {A} (a : A) : hush (ret a).
Proof. intros w st. reflexivity. Qed.

Lemma hush_throw {A} (e : Exn) : hush (@throw A e).
Proof. intros w st. reflexivity. Qed.

Lemma hush_bind {A B} (m : M A) (f : A -> M B) :
  hush m -> (forall a, hush (f a)) -> hush (bind m f).
Proof.
  intros Hm Hf w st. unfold bind. specialize (Hm w st).
  destruct (m w st) as [[a|e] st']; cbn in *; [|exact Hm].
  now rewrite Hf.
Qed.

Lemma hush_try_catch {A} (m : M A) (h : Exn -> M A) :
  hush m -> (forall e, hush (h e)) -> hush (try_catch m h).
Proof.
  intros Hm Hh w st. unfold try_catch. specialize (Hm w st).
  destruct (m w st) as [[a|e] st']; cbn in *; [exact Hm|].
  now rewrite Hh.
Qed.

Lemma hush_mapM {A B} (f : A -> M B) (l : list A) :
  (forall a, hush (f a)) -> hush (mapM f l).
Proof.
  intros Hf. induction l as [|x l IH]; cbn [mapM].
  - apply hush_ret.
  - apply hush_bind; [apply Hf|]. intros y.
    apply hush_bind; [exact IH|]. intros ys. apply hush_ret.
Qed.

Lemma hush_Date_now : hush Date_now.
Proof. intros w st. reflexivity. Qed.

Lemma hush_new_Date (v : JsVal) : hush (new_Date v).
Proof. intros w st. reflexivity. Qed.

Lemma hush_toLocaleDateString (d : option Z) : hush (toLocaleDateString d).
Proof. intros w st. reflexivity. Qed.

Lemma hush_toString (v : JsVal) : hush (toString v).
Proof. intros w st. unfold toString. destruct (nullish v); reflexivity. Qed.

Lemma hush_replace (v : JsVal) (r : RegExp) (by_ : string) : hush (replace v r by_).
Proof. intros w st. destruct v; reflexivity. Qed.

Lemma hush_ToObject (d : Data) (k : string) : hush (ToObject d k).
Proof. intros w st. destruct d as [v|o]; [destruct v|]; reflexivity. Qed.

Lemma hush_calculateAccountAge (v : JsVal) : hush (calculateAccountAge v).
Proof. intros w st. reflexivity. Qed.

Lemma hush_calculateAgeDays (v : JsVal) : hush (calculateAgeDays v).
Proof. intros w st. reflexivity. Qed.

Lemma hush_axios_get (url : string) : hush (axios_get url).
Proof. intros w st. unfold axios_get. destruct (http_get w _ _); reflexivity. Qed.

#[export] Hint Resolve hush_ret hush_throw hush_Date_now hush_new_Date
  hush_toLocaleDateString hush_toString hush_replace hush_ToObject
  hush_calculateAccountAge hush_calculateAgeDays hush_axios_get : hush.

Ltac hush_steps :=
  repeat first
    [ apply hush_bind; [solve [auto with hush] | intros ?]
    | solve [auto with hush] ].

Lemma hush_processProfileData (d : Data) (i : string) :
  hush (Multi.processProfileData d i).
Proof. unfold Multi.processProfileData. hush_steps. Qed.

Lemma hush_fetchFromInstance (u i : string) : hush (Multi.fetchFromInstance u i).
Proof.
  unfold Multi.fetchFromInstance. apply hush_try_catch; [hush_steps|].
  intros e. apply hush_ret.
Qed.

#[export] Hint Resolve hush_processProfileData hush_fetchFromInstance : hush.

Lemma hush_getMastodonProfile (h : string) : hush (Multi.getMastodonProfile h).
Proof.
  intros w st. unfold Multi.getMastodonProfile. destruct (includes h "@").
  - apply (hush_bind _ _ (hush_fetchFromInstance _ _) (fun r => hush_ret _)).
  - match goal with |- console (snd (bind ?m ?f w st)) = _ =>
      apply (hush_bind m f) end.
    + apply hush_mapM. intros i. apply hush_fetchFromInstance.
    + intros rs. destruct (length (List.filter Multi.has_id rs) =? 0)%nat;
        auto with hush.
Qed.

Lemma mapM_length {A B} (f : A -> M B) (l : list A) :
  forall w st ys st', mapM f l w st = (Return ys, st') -> length ys = length l.
Proof.
  induction l as [|x l IH]; intros w st ys st'; cbn [mapM].
  - intros [= <- _]. reflexivity.
  - unfold bind at 1. destruct (f x w st) as [[y|e] s1]; [|discriminate].
    unfold bind at 1. destruct (mapM f l w s1) as [[zs|e] s2] eqn:E; [|discriminate].
    intros [= <- _]. cbn. f_equal. exact (IH w s1 zs s2 E).
Qed.

(** A full handle is resolved by one lookup, a bare username by the
    fan-out. *)
Lemma getMastodonProfile_kind (w : World) (st : State) (h : string) :
  match fst (Multi.getMastodonProfile h w st) with
  | Return (Multi.One _) => includes h "@" = true
  | Return (Multi.Many rs) => includes h "@" = false /\ rs <> []
  | Throw _ => includes h "@" = false
  end.
Proof.
  unfold Multi.getMastodonProfile. destruct (includes h "@").
  - unfold bind. rewrite fetchFromInstance_eq. reflexivity.
  - destruct (fan_out_eq w (part (split h "@") 0) (Multi.instances w) st) as (rs & E & _).
    unfold bind. rewrite E.
    destruct (List.filter Multi.has_id rs); cbn; [reflexivity | split; [reflexivity | discriminate]].
Qed.

(** ** Every answer of the lookup endpoints *)

Lemma getMastodonProfile_one (w : World) (st st1 : State) (h : string)
    (r : Multi.LookupResult) :
  Multi.getMastodonProfile h w st = (Return (Multi.One r), st1) ->
  includes h "@" = true /\
  r = settle (http_get w (length (requests st))
                (apiUrl (part (split h "@") 0) (part (split h "@") 1)))
        (part (split h "@") 1).
Proof.
  unfold Multi.getMastodonProfile. destruct (includes h "@").
  - unfold bind. rewrite fetchFromInstance_eq. intros [= <- _]. auto.
  - destruct (fan_out_eq w (part (split h "@") 0) (Multi.instances w) st) as (rs & E & _).
    unfold bind. rewrite E.
    destruct (length (List.filter Multi.has_id rs) =? 0)%nat; discriminate.
Qed.

(** X6.  The multi-instance endpoint answers every request, and only in
    these ways: 400 with [{error}] before anything is done, for an empty or
    ill-formed handle; for a full handle whose one upstream call was
    rejected, [{error}] naming the handle and its instance, with the status
    of the upstream response, or 404 when there is no response or its
    status is 0; 200 with a profile; 200 with [{users, note}], for a bare
    username only and with two users at least; 500 with [{error, details}],
    the details listing the configured instances.  It writes to the console
    exactly when it answers 500, one line, the error whose message it
    sends. *)
Theorem multi_answers (w : World) (st : State) (h : string) :
  exists res st',
    Multi.handler h w st = (Return res, st') /\
    match json res with
    | BError msg =>
        (status res = 400%Z /\ st' = st /\
         (h = "" \/ test Multi.handleRegex h = false)) \/
        (includes h "@" = true /\ console st' = console st /\
         exists m r,
           http_get w (length (requests st))
             (apiUrl (part (split h "@") 0) (part (split h "@") 1))
           = Axios.Rejected m r /\
           status res = match r with
                        | Some resp =>
                            if (Axios.status resp =? 0)%Z then 404%Z
                            else Axios.status resp
                        | None => 404%Z
                        end /\
           msg = "Mastodon account " +:+ h +:+ " not found, suspended, or instance "
                 +:+ part (split h "@") 1 +:+ " unavailable")
    | BErrorDetails msg details =>
        status res = 500%Z /\
        details = DPrim (JStr ("Searched instances: " +:+ join (Multi.instances w) ", ")) /\
        exists e, console st' = (console st ++ [e])%list /\
                  msg = message_or e "Failed to fetch Mastodon data"
    | BProfile _ => status res = 200%Z /\ console st' = console st
    | BUsers users _ =>
        status res = 200%Z /\ includes h "@" = false /\
        (2 <= length users)%nat /\ console st' = console st
    end.
Proof.
  unfold Multi.handler.
  destruct (String.eqb_spec h "") as [Hh|_];
    [eexists; eexists; split; [reflexivity | left; auto]|].
  destruct (test Multi.handleRegex h) eqn:Ht;
    [|eexists; eexists; split; [reflexivity | left; auto]].
  cbn [negb]. unfold try_catch, bind at 1.
  pose proof (hush_getMastodonProfile h w st) as Hc.
  pose proof (getMastodonProfile_kind w st h) as Hk.
  destruct (Multi.getMastodonProfile h w st) as [[[[d i|e i]|rs]|e] st1] eqn:EG;
    cbn [fst snd] in Hc, Hk.
  - unfold bind. pose proof (hush_processProfileData d i w st1) as Hp.
    destruct (Multi.processProfileData d i w st1) as [[p|e] st2]; cbn [snd] in Hp.
    + eexists; eexists; split; [reflexivity|]. cbn. split; [reflexivity | congruence].
    + eexists; eexists; split; [reflexivity|]. cbn. split; [reflexivity|].
      split; [reflexivity|]. exists e. split; [congruence | reflexivity].
  - destruct (getMastodonProfile_one w st st1 h _ EG) as [Hi Hr].
    rewrite Hi.
    eexists; eexists; split; [reflexivity|]. cbn [json status]. right.
    split; [reflexivity|]. split; [exact Hc|].
    destruct (http_get w (length (requests st))
                (apiUrl (part (split h "@") 0) (part (split h "@") 1)))
      as [resp|m r]; cbn [settle] in Hr; [discriminate Hr|].
    injection Hr as -> _.
    exists m, r. split; [reflexivity|]. split; [|reflexivity].
    unfold status_or. cbn [response]. reflexivity.
  - destruct Hk as [Hi Hne].
    destruct (1 <? length rs)%nat eqn:Hlen.
    + unfold bind at 1.
      match goal with |- context [mapM ?f rs w st1] =>
        pose proof (hush_mapM f rs
                      (fun r => hush_bind _ _ (hush_processProfileData _ _)
                                  (fun p => hush_ret _)) w st1) as Hp;
        pose proof (mapM_length f rs w st1) as Hl;
        destruct (mapM f rs w st1) as [[users|e] st2]
      end; cbn [snd] in Hp.
      * eexists; eexists; split; [reflexivity|]. cbn.
        apply Nat.ltb_lt in Hlen. rewrite (Hl users st2 eq_refl).
        repeat split; [exact Hi | lia | congruence].
      * eexists; eexists; split; [reflexivity|]. cbn. split; [reflexivity|].
        split; [reflexivity|]. exists e. split; [congruence | reflexivity].
    + destruct rs as [|r rs]; [congruence|].
      unfold bind.
      pose proof (hush_processProfileData (Multi.data r) (Multi.instanceUsed r) w st1) as Hp.
      destruct (Multi.processProfileData (Multi.data r) (Multi.instanceUsed r) w st1)
        as [[p|e] st2]; cbn [snd] in Hp.
      * eexists; eexists; split; [reflexivity|]. cbn. split; [reflexivity | congruence].
      * eexists; eexists; split; [reflexivity|]. cbn. split; [reflexivity|].
        split; [reflexivity|]. exists e. split; [congruence | reflexivity].
  - eexists; eexists; split; [reflexivity|]. cbn. split; [reflexivity|].
    split; [reflexivity|]. exists e. split; [congruence | reflexivity].
Qed.

Lemma single_getMastodonProfile_console (w : World) (st : State) (h : string) :
  match Single.getMastodonProfile h w st with
  | (Return _, s1) => console s1 = console st
  | (Throw e, s1) => console s1 = (console st ++ [e])%list
  end.
Proof.
  unfold Single.getMastodonProfile, try_catch, bind, axios_get.
  destruct (http_get w _ _); reflexivity.
Qed.

(** X7.  The single-instance endpoint answers every request, and only in
    these ways: 400 with [{error}] before anything is done; 404 with
    [{error}]; 200 with a profile, whose [user_id] is then never empty;
    [{error, details}] with the upstream status or 500, for an error that
    is no upstream 404 or 403.  Such an error is written to the console
    once if it arose in formatting and twice if it came from upstream. *)
Theorem single_answers (w : World) (st : State) (h : string) :
  exists res st',
    Single.handler h w st = (Return res, st') /\
    match json res with
    | BError _ =>
        (status res = 400%Z /\ st' = st) \/
        (status res = 404%Z /\ includes h "@" = true)
    | BErrorDetails msg _ =>
        exists e,
          status res = status_or e 500 /\
          msg = message_or e "Failed to fetch Mastodon data" /\
          Single.not_found e = false /\
          (console st' = (console st ++ [e])%list \/
           console st' = (console st ++ [e; e])%list)
    | BProfile p =>
        status res = 200%Z /\ console st' = console st /\ truthy (user_id p) = true
    | BUsers _ _ => False
    end.
Proof.
  unfold Single.handler.
  destruct (String.eqb h ""); [eexists; eexists; split; [reflexivity | left; auto]|].
  destruct (test Single.handleRegex h) eqn:Ht;
    [|eexists; eexists; split; [reflexivity | left; auto]].
  pose proof (test_single_full h Ht) as Hi.
  cbn [negb]. unfold try_catch at 1, bind at 1.
  pose proof (single_getMastodonProfile_console w st h) as Hc.
  destruct (Single.getMastodonProfile h w st) as [[d|e] s1].
  - destruct (negb (Data_truthy d) || negb (truthy (prop (fields d) "id"))) eqn:Hid.
    { eexists; eexists; split; [reflexivity|]. cbn. right. auto. }
    apply orb_false_iff in Hid as [_ Hid]. apply negb_false_iff in Hid.
    unfold bind, new_Date, toLocaleDateString, ret, toString, replace.
    rewrite !calculateAccountAge_eq, !calculateAgeDays_eq.
    destruct (nullish (prop (fields d) "followers_count"));
      [|destruct (nullish (prop (fields d) "statuses_count"));
        [|destruct (prop (fields d) "note")]];
      (eexists; eexists; split; [reflexivity|]); cbn;
      try (match goal with |- context [(console s1 ++ [?x])%list] => exists x end;
           repeat split; left; now rewrite Hc).
    repeat split; [now rewrite Hc | exact Hid].
  - destruct (Single.not_found e) eqn:Hnf.
    + eexists; eexists; split; [reflexivity|]. cbn. right. auto.
    + eexists; eexists; split; [reflexivity|]. cbn.
      exists e. repeat split; [exact Hnf|]. right. rewrite Hc, <- app_assoc. reflexivity.
Qed.

(** ** Which instances a request asks *)

Lemma try_catch_bind_requests {A B} (m : M A) (k : A -> M B) (hdl : Exn -> M B) :
  (forall a, quiet (k a)) -> (forall e, quiet (hdl e)) ->
  forall w st,
    requests (snd (try_catch (bind m k) hdl w st)) = requests (snd (m w st)).
Proof.
  intros Hk Hh w st. unfold try_catch, bind.
  destruct (m w st) as [[a|e] s1]; cbn [snd].
  - specialize (Hk a w s1). destruct (k a w s1) as [[b|e] s2]; cbn [snd] in *;
      [exact Hk | now rewrite Hh].
  - apply Hh.
Qed.

(** Past the validation, the endpoint asks what resolving the handle asks. *)
Lemma multi_handler_requests (w : World) (st : State) (h : string) :
  test Multi.handleRegex h = true ->
  requests (snd (Multi.handler h w st))
  = requests (snd (Multi.getMastodonProfile h w st)).
Proof.
  intros Ht. unfold Multi.handler. rewrite (test_nonempty_multi h Ht), Ht. cbn [negb].
  apply try_catch_bind_requests.
  - intros [[d i|e i]|rs]; [quiet_steps..|].
    destruct (1 <? length rs)%nat.
    + apply quiet_bind; [|intros; auto with quiet].
      apply quiet_mapM. intros r. quiet_steps.
    + destruct rs; quiet_steps.
  - intros e. quiet_steps.
Qed.

(** X8.  A lookup by full handle asks the instance named in the handle,
    once, and no other, whatever that instance answers; so on both
    servers.  The username goes into the address as it is. *)
Theorem full_handle_asks_one_instance (w : World) (st : State) (u d : string) :
  valid_username u -> valid_domain d ->
  requests (snd (Multi.handler (u +:+ "@" +:+ d) w st))
  = (requests st ++ ["https://" +:+ d +:+ "/api/v1/accounts/lookup?acct=" +:+ u])%list /\
  requests (snd (Single.handler (u +:+ "@" +:+ d) w st))
  = (requests st ++ ["https://" +:+ d +:+ "/api/v1/accounts/lookup?acct=" +:+ u])%list.
Proof.
  intros Hu Hd.
  pose proof (apiUrl_full u d Hu Hd) as Hurl.
  destruct (split_full_handle u d Hu Hd) as (Hinc & _ & _).
  assert (Hfull : full_handle (u +:+ "@" +:+ d)) by (exists u, d; auto).
  split.
  - rewrite multi_handler_requests.
    + unfold Multi.getMastodonProfile. rewrite Hinc. unfold bind.
      rewrite fetchFromInstance_eq, Hurl. reflexivity.
    + apply test_Matches, Matches_multi. exists u. split; [exact Hu|]. right. exists d. auto.
  - rewrite single_accepts, Hurl; [reflexivity|].
    now apply test_Matches, Matches_single.
Qed.

(** X9.  A lookup by bare username asks every configured instance, each
    once and in the order of the configuration, whatever they answer. *)
Theorem bare_username_asks_every_instance (w : World) (st : State) (u : string) :
  valid_username u ->
  requests (snd (Multi.handler u w st))
  = (requests st
     ++ map (fun instance => "https://" +:+ instance
                             +:+ "/api/v1/accounts/lookup?acct=" +:+ u)
          (Multi.instances w))%list.
Proof.
  intros Hu. destruct (valid_username_accepted u Hu) as [Ht Hi].
  rewrite (multi_handler_requests w st u Ht).
  unfold Multi.getMastodonProfile. rewrite Hi, (split_bare u Hi).
  destruct (fan_out_eq w u (Multi.instances w) st) as (rs & E & _).
  unfold bind. rewrite E.
  assert (Hmap : map (apiUrl u) (Multi.instances w)
                 = map (fun instance => "https://" +:+ instance
                                        +:+ "/api/v1/accounts/lookup?acct=" +:+ u)
                     (Multi.instances w)).
  { apply map_ext. intros i. unfold apiUrl. now rewrite (encode_username u (proj2 Hu)). }
  destruct (length (List.filter Multi.has_id rs) =? 0)%nat; cbn [snd sent requests];
    now rewrite Hmap.
Qed.

(** X10.  Given a handle without [@], the [getMastodonProfile] of the
    single-instance server asks mastodon.social; but its endpoint never
    hands it one: such a handle is answered with 400 and nothing is
    asked. *)
Theorem default_instance_is_never_asked (w : World) (st : State) (h : string) :
  includes h "@" = false ->
  requests (snd (Single.getMastodonProfile h w st))
  = (requests st
     ++ ["https://mastodon.social/api/v1/accounts/lookup?acct="
         +:+ encodeURIComponent h])%list /\
  exists b, Single.handler h w st = (Return {| status := 400; json := b |}, st).
Proof.
  intros Hi. split.
  - unfold Single.getMastodonProfile, try_catch, bind, axios_get. rewrite Hi. cbn [negb].
    change (h +:+ "@mastodon.social") with (h +:+ String "@" "mastodon.social").
    rewrite (split_app "@" h "mastodon.social" Hi).
    destruct (http_get w _ _); reflexivity.
  - apply single_rejects. destruct (test Single.handleRegex h) eqn:Ht; [|reflexivity].
    apply test_single_full in Ht. congruence.
Qed.

(** ** A body without an id, and a body that cannot be formatted *)

(** X11.  When the instance resolves with a body that is empty or has no
    id, the single-instance server answers 404, "not found or suspended",
    and formats nothing. *)
Theorem single_missing_id_is_404 (w : World) (st : State) (u d : string)
    (r : Axios.Response) :
  valid_username u -> valid_domain d ->
  http_get w (length (requests st))
    ("https://" +:+ d +:+ "/api/v1/accounts/lookup?acct=" +:+ u) = Axios.Resolved r ->
  Data_truthy (Axios.data r) && truthy (prop (fields (Axios.data r)) "id") = false ->
  Single.handler (u +:+ "@" +:+ d) w st
  = (Return {| status := 404;
               json := BError ("Mastodon account " +:+ (u +:+ "@" +:+ d)
                               +:+ " not found or suspended") |},
     sent st ["https://" +:+ d +:+ "/api/v1/accounts/lookup?acct=" +:+ u]).
Proof.
  intros Hu Hd Hget Hid.
  pose proof (apiUrl_full u d Hu Hd) as Hurl.
  assert (Ht : test Single.handleRegex (u +:+ "@" +:+ d) = true).
  { apply test_Matches, Matches_single. exists u, d. auto. }
  unfold Single.handler. rewrite (test_nonempty_single _ Ht), Ht. cbn [negb].
  unfold try_catch at 1, bind at 1.
  rewrite (single_getMastodonProfile_eq w st _ (test_single_full _ Ht)), Hurl, Hget.
  rewrite <- negb_andb, Hid. reflexivity.
Qed.

(** X12.  The multi-instance server does not look for an id when the
    handle is full: a resolved raw profile is answered with 200 and the
    one formatted profile, tagged with the instance of the handle and of
    high confidence, whatever its id, after one request. *)
Theorem full_handle_found (w : World) (st : State) (u d : string)
    (r : Axios.Response) :
  valid_username u -> valid_domain d ->
  http_get w (length (requests st))
    ("https://" +:+ d +:+ "/api/v1/accounts/lookup?acct=" +:+ u) = Axios.Resolved r ->
  RawProfile (Axios.data r) ->
  exists p,
    Multi.handler (u +:+ "@" +:+ d) w st
    = (Return {| status := 200; json := BProfile p |},
       tick2 (sent st ["https://" +:+ d +:+ "/api/v1/accounts/lookup?acct=" +:+ u])) /\
    instance_used p = Some d /\
    estimation_confidence p = "High (exact server timestamp)" /\
    user_id p = prop (fields (Axios.data r)) "id".
Proof.
  intros Hu Hd Hget Hraw.
  pose proof (apiUrl_full u d Hu Hd) as Hurl.
  destruct (split_full_handle u d Hu Hd) as (Hinc & _ & Hpart).
  assert (Ht : test Multi.handleRegex (u +:+ "@" +:+ d) = true).
  { apply test_Matches, Matches_multi. exists u. split; [exact Hu|]. right. exists d. auto. }
  destruct (RawProfile_returns w
              (sent st ["https://" +:+ d +:+ "/api/v1/accounts/lookup?acct=" +:+ u])
              (Axios.data r) d Hraw) as (p & Ep & Hinst & Hconf & Hidp).
  exists p. split; [|auto].
  unfold Multi.handler. rewrite (test_nonempty_multi _ Ht), Ht. cbn [negb].
  unfold try_catch, bind at 1, Multi.getMastodonProfile. rewrite Hinc.
  unfold bind at 1. rewrite fetchFromInstance_eq, Hurl, Hget, Hpart. cbn [settle].
  unfold ret at 1. unfold bind. rewrite Ep. reflexivity.
Qed.

(** X13.  When the instance resolves a full handle with a body the
    formatter throws on, a [null] body say, the multi-instance server
    answers 500 with the message of that error and writes it to the
    console, once. *)
Theorem full_handle_unformattable (w : World) (st s2 : State) (u d : string)
    (r : Axios.Response) (e : Exn) :
  valid_username u -> valid_domain d ->
  http_get w (length (requests st))
    ("https://" +:+ d +:+ "/api/v1/accounts/lookup?acct=" +:+ u) = Axios.Resolved r ->
  Multi.processProfileData (Axios.data r) d w
    (sent st ["https://" +:+ d +:+ "/api/v1/accounts/lookup?acct=" +:+ u]) = (Throw e, s2) ->
  Multi.handler (u +:+ "@" +:+ d) w st
  = (Return {| status := 500;
               json := BErrorDetails (message_or e "Failed to fetch Mastodon data")
                         (DPrim (JStr ("Searched instances: "
                                       +:+ join (Multi.instances w) ", "))) |},
     logged s2 e).
Proof.
  intros Hu Hd Hget Ep.
  pose proof (apiUrl_full u d Hu Hd) as Hurl.
  destruct (split_full_handle u d Hu Hd) as (Hinc & _ & Hpart).
  assert (Ht : test Multi.handleRegex (u +:+ "@" +:+ d) = true).
  { apply test_Matches, Matches_multi. exists u. split; [exact Hu|]. right. exists d. auto. }
  unfold Multi.handler. rewrite (test_nonempty_multi _ Ht), Ht. cbn [negb].
  unfold try_catch, bind at 1, Multi.getMastodonProfile. rewrite Hinc.
  unfold bind at 1. rewrite fetchFromInstance_eq, Hurl, Hget, Hpart. cbn [settle].
  unfold ret at 1. unfold bind at 1. rewrite Ep. reflexivity.
Qed.

(** ** What a lookup by bare username can answer with *)

(** A profile the formatter returns carries the id of the body and the tag
    of the instance. *)
Lemma processProfileData_tags (w : World) (st st' : State) (d : Data) (i : string)
    (p : FormattedProfile) :
  Multi.processProfileData d i w st = (Return p, st') ->
  user_id p = prop (fields d) "id" /\ instance_used p = Some i.
Proof.
  intros E.
  destruct (processProfileData_cases w st d i)
    as [(o & bio & -> & Hn & Hf & Hs) | [_ (msg & st'' & E')]];
    [|rewrite E' in E; discriminate E].
  rewrite (processProfileData_eq w st o i bio Hn Hf Hs) in E.
  injection E as <- _. split; reflexivity.
Qed.

Lemma mapM_Forall2 {A B} (f : A -> M B) (l : list A) (w : World) :
  forall st ys st', mapM f l w st = (Return ys, st') ->
  Forall2 (fun x y => exists s s', f x w s = (Return y, s')) l ys.
Proof.
  induction l as [|x l IH]; intros st ys st'; cbn [mapM].
  - intros [= <- _]. constructor.
  - unfold bind at 1. destruct (f x w st) as [[y|e] s1] eqn:Ex; [|discriminate].
    unfold bind at 1. destruct (mapM f l w s1) as [[zs|e] s2] eqn:E; [|discriminate].
    intros [= <- _]. constructor; [eauto | exact (IH s1 zs s2 E)].
Qed.

Lemma filter_map_sublist {A B} (f : A -> B) (q : A -> bool) (l : list A) :
  sublist (map f (List.filter q l)) (map f l).
Proof.
  induction l as [|x l IH]; cbn; [constructor|].
  destruct (q x); cbn; [now apply sublist_skip | now apply sublist_cons].
Qed.

Lemma filter_all {A} (q : A -> bool) (l : list A) :
  Forall (fun x => q x = true) (List.filter q l).
Proof.
  induction l as [|x l IH]; cbn; [constructor|].
  destruct (q x) eqn:E; [constructor; assumption | exact IH].
Qed.

(** X14.  Whatever a lookup by bare username answers with, every profile
    in the answer has an id that is not empty, a single profile is tagged
    with a configured instance, and the users of [{users, note}] are
    tagged with configured instances in the order of the configuration,
    none of its entries used twice. *)
Theorem bare_username_profiles (w : World) (st : State) (u : string) :
  valid_username u ->
  exists res st',
    Multi.handler u w st = (Return res, st') /\
    match json res with
    | BProfile p =>
        truthy (user_id p) = true /\
        exists i, instance_used p = Some i /\ In i (Multi.instances w)
    | BUsers users _ =>
        Forall (fun p => truthy (user_id p) = true) users /\
        exists l, map instance_used users = map Some l /\
                  sublist l (Multi.instances w)
    | _ => True
    end.
Proof.
  intros Hu. destruct (valid_username_accepted u Hu) as [Ht Hi].
  destruct (fan_out_eq w u (Multi.instances w) st) as (rs & E & _ & Htag & _).
  pose proof (getMastodonProfile_bare w st _ u rs Hi E) as Eg.
  pose proof (filter_all Multi.has_id rs) as Hids.
  pose proof (filter_map_sublist Multi.instanceUsed Multi.has_id rs) as Hsub.
  rewrite Htag in Hsub.
  set (successes := List.filter Multi.has_id rs) in *.
  unfold Multi.handler. rewrite (test_nonempty_multi u Ht), Ht. cbn [negb].
  unfold try_catch, bind at 1. rewrite Eg.
  destruct (length successes =? 0)%nat; [eexists; eexists; split; [reflexivity | exact I]|].
  destruct (1 <? length successes)%nat.
  - unfold bind at 1.
    match goal with |- context [mapM ?f successes w ?s] =>
      pose proof (mapM_Forall2 f successes w s) as Hall;
      destruct (mapM f successes w s) as [[users|e] st2]
    end; [|eexists; eexists; split; [reflexivity | exact I]].
    specialize (Hall users st2 eq_refl).
    eexists; eexists; split; [reflexivity|]. cbn [json].
    assert (Hboth : Forall2 (fun r p => truthy (user_id p) = true /\
                                        instance_used p = Some (Multi.instanceUsed r))
                      successes users).
    { clear -Hall Hids. induction Hall as [|r p rs' ps (s & s' & Ep) _ IH];
        [constructor|].
      inversion Hids as [|? ? Hr Hrest]; subst. constructor; [|exact (IH Hrest)].
      unfold bind in Ep.
      destruct (Multi.processProfileData (Multi.data r) (Multi.instanceUsed r) w s)
        as [[q|e] s1] eqn:Eq; [|discriminate].
      injection Ep as <- _. apply processProfileData_tags in Eq as [Hid Hin].
      cbn [Multi.medium user_id instance_used]. rewrite Hid, Hin.
      unfold Multi.has_id in Hr. apply andb_true_iff in Hr as [_ Hr]. auto. }
    split.
    + clear -Hboth. induction Hboth as [|? ? ? ? [H _] _ IH]; constructor; auto.
    + exists (map Multi.instanceUsed successes). split; [|exact Hsub].
      clear -Hboth. induction Hboth as [|? ? ? ? [_ H] _ IH]; [reflexivity|].
      cbn. now rewrite H, IH.
  - destruct successes as [|r rest] eqn:Es;
      [eexists; eexists; split; [reflexivity | exact I]|].
    unfold bind.
    destruct (Multi.processProfileData (Multi.data r) (Multi.instanceUsed r) w _)
      as [[p|e] s2] eqn:Ep; [|eexists; eexists; split; [reflexivity | exact I]].
    eexists; eexists; split; [reflexivity|]. cbn [json].
    apply processProfileData_tags in Ep as [Hid Hin].
    inversion Hids as [|? ? Hr _]; subst.
    unfold Multi.has_id in Hr. apply andb_true_iff in Hr as [_ Hr].
    split; [now rewrite Hid|].
    exists (Multi.instanceUsed r). split; [exact Hin|].
    apply list_elem_of_In. eapply elem_of_sublist; [|exact Hsub]. cbn. left.
Qed.

(** ** More on stripping tags *)

Lemma strip_Stripped (s : string) : Stripped s (replace_all tagRegex "" s).
Proof. apply replace_go_Stripped. lia. Qed.

Lemma strip_unique (s out : string) : Stripped s out -> replace_all tagRegex "" s = out.
Proof. intros H. apply (Stripped_replace_go s out H). lia. Qed.

Lemma Stripped_length (s out : string) :
  Stripped s out -> (String.length out <= String.length s)%nat.
Proof.
  induction 1 as [s _ | pre m post out _ _ _ IH]; [lia|].
  rewrite !str_length_app. lia.
Qed.

Lemma after_gt_without (s : string) : includes s ">" = false -> after_gt s = None.
Proof.
  induction s as [|c s IH]; [reflexivity|].
  cbn. unfold is_char. destruct (Ascii.eqb c ">"); [discriminate | exact IH].
Qed.

Lemma tag_free_without_gt (s : string) : includes s ">" = false -> tag_free s.
Proof.
  intros H pre m post -> Hm. exact (tag_inside pre m post Hm (after_gt_without _ H)).
Qed.

Lemma tag_free_without_lt (s : string) : includes s "<" = false -> tag_free s.
Proof.
  intros H pre m post -> (mid & -> & _).
  rewrite !includes_app in H.
  change ("<" +:+ mid +:+ ">") with (String "<" (mid +:+ ">")) in H.
  cbn in H. rewrite orb_true_r in H. discriminate H.
Qed.

(** X15.  Stripping the tags of a bio a second time changes nothing. *)
Theorem stripping_is_idempotent (s : string) :
  replace_all tagRegex "" (replace_all tagRegex "" s) = replace_all tagRegex "" s.
Proof.
  apply strip_unique, Stripped_none.
  exact (Stripped_tag_free s _ (strip_Stripped s)).
Qed.

(** X16.  The description is never longer than the bio, and a bio without
    [<] or without [>] is left as it is: a [<] that no [>] follows stays in
    the description. *)
Theorem stripping_never_adds (s : string) :
  (String.length (replace_all tagRegex "" s) <= String.length s)%nat /\
  (includes s "<" = false -> replace_all tagRegex "" s = s) /\
  (includes s ">" = false -> replace_all tagRegex "" s = s).
Proof.
  split; [exact (Stripped_length s _ (strip_Stripped s))|].
  split; intros H; apply strip_unique, Stripped_none;
    [now apply tag_free_without_lt | now apply tag_free_without_gt].
Qed.

(** ** The configuration and the handle *)

Lemma join_split (s : string) (c : ascii) : join (split s c) (String c "") = s.
Proof.
  unfold join. induction s as [|a s IH]; [reflexivity|].
  cbn [split]. pose proof (split_nonempty s c) as Hne.
  destruct (Ascii.eqb_spec a c) as [->|_].
  - destruct (split s c) as [|x xs] eqn:E; [congruence|].
    change (String.concat (String c "") ("" :: x :: xs))
      with (String c (String.concat (String c "") (x :: xs))).
    now rewrite IH.
  - destruct (split s c) as [|x xs] eqn:E; [congruence|].
    destruct xs as [|y ys].
    + cbn in IH |- *. now rewrite IH.
    + change (String.concat (String c "") (String a x :: y :: ys))
        with (String a (x +:+ String c "" +:+ String.concat (String c "") (y :: ys))).
      change (String.concat (String c "") (x :: y :: ys))
        with (x +:+ String c "" +:+ String.concat (String c "") (y :: ys)) in IH.
      now rewrite IH.
Qed.

Lemma split_parts_without (s : string) (c : ascii) :
  Forall (fun x => includes x c = false) (split s c).
Proof.
  induction s as [|a s IH]; [repeat constructor|].
  cbn [split]. destruct (Ascii.eqb a c) eqn:E.
  - constructor; [reflexivity | exact IH].
  - destruct (split s c) as [|x xs]; [repeat constructor; cbn; now rewrite E|].
    inversion IH; subst. constructor; [cbn; now rewrite E | assumption].
Qed.

(** X17.  The list of instances is never empty.  It is the three defaults
    when [MASTODON_INSTANCES] is unset or empty; otherwise it is the
    variable cut at its commas, nothing trimmed and nothing dropped:
    joined with commas again it gives the variable back. *)
Theorem instances_from_environment (w : World) :
  Multi.instances w <> [] /\
  (MASTODON_INSTANCES w = None \/ MASTODON_INSTANCES w = Some "" ->
   Multi.instances w = ["mastodon.social"; "fosstodon.org"; "mstdn.social"]) /\
  (forall s, MASTODON_INSTANCES w = Some s -> s <> "" ->
     join (Multi.instances w) "," = s /\
     Forall (fun i => includes i "," = false) (Multi.instances w)).
Proof.
  split; [apply instances_nonempty|]. unfold Multi.instances. split.
  - intros [-> | ->]; reflexivity.
  - intros s -> Hs. destruct (String.eqb_spec s "") as [|_]; [congruence|].
    split; [apply join_split | apply split_parts_without].
Qed.

(** X18.  A handle that passes the validation of the multi-instance
    server holds one [@] at most, so the two parts the server takes from
    it are all of it: either it is a valid username and its own first
    part, or it is a valid username, an [@] and a valid domain, and these
    are its first and second part. *)
Theorem accepted_handle_parts (h : string) :
  test Multi.handleRegex h = true ->
  (includes h "@" = false /\ split h "@" = [h] /\ valid_username h) \/
  (includes h "@" = true /\
   exists u d, h = u +:+ "@" +:+ d /\ split h "@" = [u; d] /\
               valid_username u /\ valid_domain d).
Proof.
  intros (u & Hu & [-> | (d & -> & Hd)])%test_Matches%Matches_multi.
  - left. pose proof (valid_username_no_at u Hu) as Hi.
    split; [exact Hi|]. split; [now apply split_without | exact Hu].
  - right. split; [now apply split_full_handle|].
    exists u, d. split; [reflexivity|]. split; [|auto].
    change ("@" +:+ d) with (String "@" d).
    rewrite (split_app "@" u d (valid_username_no_at u Hu)).
    now rewrite (split_without "@" d (valid_domain_no_at d Hd)).
Qed.

(** ** What is said about the instances, and what is logged *)

Lemma mentions_app_l (a s t : string) : mentions s t -> mentions (a +:+ s) t.
Proof.
  intros (pre & post & ->). exists (a +:+ pre), post. now rewrite str_app_assoc.
Qed.

Lemma mentions_app_r (a s t : string) : mentions s t -> mentions (s +:+ a) t.
Proof.
  intros (pre & post & ->). exists pre, (post +:+ a). now rewrite !str_app_assoc.
Qed.

Lemma join_mentions (l : list string) (sep i : string) :
  In i l -> mentions (join l sep) i.
Proof.
  unfold join. induction l as [|x l IH]; [intros []|].
  intros [-> | Hin].
  - destruct l as [|y l].
    + exists "", "". cbn. now rewrite str_app_nil_r.
    + exists "", (sep +:+ String.concat sep (y :: l)). reflexivity.
  - destruct l as [|y l]; [destruct Hin|].
    change (String.concat sep (x :: y :: l))
      with (x +:+ sep +:+ String.concat sep (y :: l)).
    apply mentions_app_l, mentions_app_l. exact (IH Hin).
Qed.

(** X19.  Every configured instance is named in the banner of [/], in the
    answer to a malformed handle, and in the [details] of every
    [{error, details}] answer of the multi-instance server. *)
Theorem answers_name_every_instance (w : World) (st : State) (h i : string) :
  In i (Multi.instances w) ->
  (exists banner, Multi.root w st = (Return banner, st) /\ mentions banner i) /\
  exists res st',
    Multi.handler h w st = (Return res, st') /\
    match json res with
    | BErrorDetails _ details => exists t, details = DPrim (JStr t) /\ mentions t i
    | BError msg => h <> "" -> test Multi.handleRegex h = false -> mentions msg i
    | _ => True
    end.
Proof.
  intros Hin. pose proof (join_mentions (Multi.instances w) ", " i Hin) as Hm.
  split.
  { eexists. split; [reflexivity|]. now apply mentions_app_l, mentions_app_r. }
  assert (Hd : exists t, DPrim (JStr ("Searched instances: " +:+ join (Multi.instances w) ", "))
                         = DPrim (JStr t) /\ mentions t i).
  { eexists. split; [reflexivity|]. now apply mentions_app_l. }
  unfold Multi.handler.
  destruct (String.eqb_spec h "") as [Hh|Hh];
    [eexists; eexists; split; [reflexivity | cbn; congruence]|].
  destruct (test Multi.handleRegex h) eqn:Ht.
  2:{ eexists; eexists; split; [reflexivity|]. cbn. intros _ _.
      now apply mentions_app_l, mentions_app_r. }
  cbn [negb]. unfold try_catch, bind at 1.
  destruct (Multi.getMastodonProfile h w st) as [[[[d j|e j]|rs]|e] st1].
  - unfold bind.
    destruct (Multi.processProfileData d j w st1) as [[p|e] st2];
      eexists; eexists; (split; [reflexivity|]); cbn; [exact I | exact Hd].
  - eexists; eexists; split; [reflexivity|]. cbn. congruence.
  - destruct (1 <? length rs)%nat.
    + unfold bind at 1.
      match goal with |- context [mapM ?f rs w st1] =>
        destruct (mapM f rs w st1) as [[users|e] st2] end;
        eexists; eexists; (split; [reflexivity|]); cbn; [exact I | exact Hd].
    + destruct rs as [|r rs];
        [eexists; eexists; split; [reflexivity | exact Hd]|].
      unfold bind.
      destruct (Multi.processProfileData (Multi.data r) (Multi.instanceUsed r) w st1)
        as [[p|e] st2];
        eexists; eexists; (split; [reflexivity|]); cbn; [exact I | exact Hd].
  - eexists; eexists; split; [reflexivity | exact Hd].
Qed.

(** [/] and [/health] ask no instance and write nothing to the console, on
    either server; [/health] answers "healthy" with the rendering of one
    reading of the clock, the same whatever the network would answer. *)
Lemma health_needs_no_instance (w : World) (st : State) (toISOString : Z -> string)
    (answers : nat -> string -> Axios.Result) :
  let w' := {| clock := clock w; Date_parse := Date_parse w;
               Date_toLocaleDateString := Date_toLocaleDateString w;
               http_get := answers; MASTODON_INSTANCES := MASTODON_INSTANCES w |} in
  let answer := {| health_status := "healthy";
                   timestamp := toISOString (clock w (ticks st)) |} in
  let st' := {| ticks := S (ticks st); requests := requests st; console := console st |} in
  Multi.health toISOString w st = (Return answer, st') /\
  Multi.health toISOString w' st = (Return answer, st') /\
  Single.health toISOString w st = (Return answer, st') /\
  Single.health toISOString w' st = (Return answer, st') /\
  Multi.root w' st = Multi.root w st /\
  snd (Multi.root w st) = st /\
  Single.root w st = (Return "Mastodon Account Age Checker API is running", st).
Proof. repeat split. Qed.

(** X20.  When the upstream call fails, the single-instance server writes
    the error to the console twice, once where it is caught first and once
    in the endpoint, unless the upstream answered 404 or 403: then it is
    written once. *)
Theorem single_logs_upstream_errors (w : World) (st : State) (u d m : string)
    (r : option Axios.Response) :
  valid_username u -> valid_domain d ->
  http_get w (length (requests st))
    ("https://" +:+ d +:+ "/api/v1/accounts/lookup?acct=" +:+ u) = Axios.Rejected m r ->
  console (snd (Single.handler (u +:+ "@" +:+ d) w st))
  = (console st ++ (if Single.not_found (AxiosError m r)
                    then [AxiosError m r]
                    else [AxiosError m r; AxiosError m r]))%list.
Proof.
  intros Hu Hd Hget.
  pose proof (apiUrl_full u d Hu Hd) as Hurl.
  assert (Ht : test Single.handleRegex (u +:+ "@" +:+ d) = true).
  { apply test_Matches, Matches_single. exists u, d. auto. }
  unfold Single.handler. rewrite (test_nonempty_single _ Ht), Ht. cbn [negb].
  unfold try_catch at 1, bind at 1.
  rewrite (single_getMastodonProfile_eq w st _ (test_single_full _ Ht)), Hurl, Hget.
  destruct (Single.not_found (AxiosError m r)); cbn; [reflexivity|].
  now rewrite <- app_assoc.
Qed.

(** ** The two readings of the clock, and the two servers side by side *)

(** X21.  The formatter reads the clock twice, first for [account_age] and
    then for [age_days].  With a clock that does not run backwards, the
    days behind [account_age] are at most [age_days], and the two agree
    when the readings are the same. *)
Theorem age_fields_read_the_clock_twice (w : World) (st : State)
    (o : gmap string JsVal) (i bio : string) (created : Z) :
  prop o "note" = JStr bio ->
  nullish (prop o "followers_count") = false ->
  nullish (prop o "statuses_count") = false ->
  Date_value w (prop o "created_at") = Some created ->
  (created <= clock w (ticks st) <= clock w (S (ticks st)))%Z ->
  exists p d1 d2,
    Multi.processProfileData (DObj o) i w st = (Return p, tick2 st) /\
    d1 = ((clock w (ticks st) - created) / 86400000)%Z /\
    d2 = ((clock w (S (ticks st)) - created) / 86400000)%Z /\
    age_days p = Some d2 /\
    account_age p
    = (if (0 <? d1 / 365)%Z then Number_toString (d1 / 365) +:+ " years, " else "")
      +:+ Number_toString ((d1 mod 365) / 30) +:+ " months" /\
    (0 <= d1 <= d2)%Z /\
    (clock w (ticks st) = clock w (S (ticks st)) -> d1 = d2).
Proof.
  intros Hn Hf Hs Hc Hclk.
  eexists. exists ((clock w (ticks st) - created) / 86400000)%Z,
                  ((clock w (S (ticks st)) - created) / 86400000)%Z.
  split; [apply (processProfileData_eq w st o i bio Hn Hf Hs)|].
  split; [reflexivity|]. split; [reflexivity|].
  cbn [age_days account_age]. rewrite calculateAccountAge_eq, Hc.
  cbn [fst num_sub Math_floor_div num_rem option_map num_gt NaN_toString].
  change (1000 * 60 * 60 * 24)%Z with 86400000%Z.
  set (d1 := ((clock w (ticks st) - created) / 86400000)%Z).
  assert (Hd1 : (0 <= d1)%Z) by (subst d1; apply Z.div_pos; lia).
  split; [reflexivity|]. split; [|split].
  - rewrite Z.rem_mod_nonneg by lia.
    destruct (0 <? d1 / 365)%Z; [|reflexivity]. now rewrite str_app_assoc.
  - split; [exact Hd1|]. subst d1. apply Z.div_le_mono; lia.
  - intros <-. reflexivity.
Qed.

(** X22.  Asked for the same full handle in the same world, the two
    servers answer a found account with the same document, but for
    [instance_used], which the multi-instance server adds. *)
Theorem servers_agree_on_a_found_account (w : World) (st : State) (u d : string)
    (r : Axios.Response) :
  valid_username u -> valid_domain d ->
  http_get w (length (requests st))
    ("https://" +:+ d +:+ "/api/v1/accounts/lookup?acct=" +:+ u) = Axios.Resolved r ->
  RawProfile (Axios.data r) ->
  truthy (prop (fields (Axios.data r)) "id") = true ->
  exists p st',
    Multi.handler (u +:+ "@" +:+ d) w st
    = (Return {| status := 200; json := BProfile p |}, st') /\
    Single.handler (u +:+ "@" +:+ d) w st
    = (Return {| status := 200; json := BProfile (untagged p) |}, st') /\
    instance_used p = Some d.
Proof.
  intros Hu Hd Hget (o & bio & n & m & Hdata & Hn & Hf & Hs) Hid.
  rewrite Hdata in Hid. cbn [fields] in Hid.
  assert (Hf' : nullish (prop o "followers_count") = false) by now rewrite Hf.
  assert (Hs' : nullish (prop o "statuses_count") = false) by now rewrite Hs.
  pose proof (apiUrl_full u d Hu Hd) as Hurl.
  destruct (split_full_handle u d Hu Hd) as (Hinc & _ & Hpart).
  assert (HtM : test Multi.handleRegex (u +:+ "@" +:+ d) = true).
  { apply test_Matches, Matches_multi. exists u. split; [exact Hu|]. right. exists d. auto. }
  assert (HtS : test Single.handleRegex (u +:+ "@" +:+ d) = true).
  { apply test_Matches, Matches_single. exists u, d. auto. }
  eexists. eexists. split; [|split].
  - unfold Multi.handler. rewrite (test_nonempty_multi _ HtM), HtM. cbn [negb].
    unfold try_catch, bind at 1, Multi.getMastodonProfile. rewrite Hinc.
    unfold bind at 1. rewrite fetchFromInstance_eq, Hurl, Hget, Hpart. cbn [settle].
    rewrite Hdata. unfold ret at 1. unfold bind.
    rewrite (processProfileData_eq w _ o d bio Hn Hf' Hs'). reflexivity.
  - unfold Single.handler. rewrite (test_nonempty_single _ HtS), HtS. cbn [negb].
    unfold try_catch at 1, bind at 1.
    rewrite (single_getMastodonProfile_eq w st _ (test_single_full _ HtS)), Hurl, Hget.
    cbv beta iota. rewrite Hdata, !Hpart.
    cbn [Data_truthy fields negb orb]. rewrite Hid. cbn [negb].
    unfold bind, new_Date, toLocaleDateString, toString, replace, ret.
    rewrite !calculateAccountAge_eq, !calculateAgeDays_eq, Hn, Hf', Hs'.
    reflexivity.
  - reflexivity.
Qed.

(** ** Concrete runs of the further properties *)

(** An account of 364 days is ["12 months"] old. *)
Lemma months_at_most_twelve_witness :
  Date_value all_found (JNum (1458138866392 + 36 * 86400000)) = Some 1461249266392%Z /\
  fst (calculateAccountAge (JNum (1458138866392 + 36 * 86400000)) all_found start)
  = Return "12 months".
Proof.
  split; [reflexivity|].
  destruct (months_at_most_twelve all_found start (JNum (1458138866392 + 36 * 86400000))
              1461249266392 364 eq_refl eq_refl)
    as (_ & _ & _ & _ & H364); [discriminate|].
  exact (H364 eq_refl).
Defined.

(** Created a millisecond after the reading of the clock, the account is
    ["-1 months"] old. *)
Lemma created_in_the_future_witness :
  (clock too_early 0 < 1458138866392)%Z /\
  fst (calculateAgeDays (JStr "2016-03-16T14:34:26.392Z") too_early start)
  = Return (Some (-1)%Z) /\
  exists M : Z,
    fst (calculateAccountAge (JStr "2016-03-16T14:34:26.392Z") too_early start)
    = Return (Number_toString M +:+ " months") /\ (-13 <= M <= 0)%Z.
Proof.
  split; [reflexivity|].
  destruct (created_in_the_future too_early start (JStr "2016-03-16T14:34:26.392Z")
              1458138866392 (-1) eq_refl eq_refl eq_refl)
    as (_ & Hd & M & E & HM & _).
  split; [exact Hd|]. exists M. split; [exact E | exact HM].
Defined.

(** The account above has no picture of its own: it gets the default one. *)
Lemma avatar_and_link_never_missing_witness :
  exists p st',
    Multi.processProfileData (DObj gargron) "mastodon.social" all_found start
    = (Return p, st') /\
    avatar p = JStr "https://mastodon.social/avatars/original/missing.png" /\
    truthy (profile_link p) = true.
Proof.
  pose proof (processProfileData_eq all_found start gargron "mastodon.social"
                "<p>Hello <b>world</b></p>" eq_refl eq_refl eq_refl) as E.
  destruct (avatar_and_link_never_missing all_found start _ gargron "mastodon.social" _ E)
    as (_ & Hl & Ha & _).
  eexists. eexists. split; [exact E|]. split; [exact (Ha eq_refl eq_refl) | exact Hl].
Defined.

(** Where no date parses, the account is ["NaN months"] old. *)
Lemma invalid_date_is_formatted_witness :
  Date_value no_date (prop gargron "created_at") = None /\
  exists p,
    Multi.processProfileData (DObj gargron) "mastodon.social" no_date start
    = (Return p, tick2 start) /\
    account_age p = "NaN months" /\ age_days p = None.
Proof.
  split; [reflexivity|].
  exact (invalid_date_is_formatted no_date start gargron "mastodon.social"
           "<p>Hello <b>world</b></p>" eq_refl eq_refl eq_refl eq_refl).
Defined.

(** "gargron@mastodon.social" is looked up on mastodon.social alone. *)
Lemma full_handle_asks_one_instance_witness :
  valid_username "gargron" /\ valid_domain "mastodon.social" /\
  requests (snd (Multi.handler "gargron@mastodon.social" all_time_out start))
  = ["https://mastodon.social/api/v1/accounts/lookup?acct=gargron"] /\
  requests (snd (Single.handler "gargron@mastodon.social" all_found start))
  = ["https://mastodon.social/api/v1/accounts/lookup?acct=gargron"].
Proof.
  split; [exact valid_username_gargron|]. split; [exact valid_domain_social|].
  split.
  - exact (proj1 (full_handle_asks_one_instance all_time_out start "gargron"
                    "mastodon.social" valid_username_gargron valid_domain_social)).
  - exact (proj2 (full_handle_asks_one_instance all_found start "gargron"
                    "mastodon.social" valid_username_gargron valid_domain_social)).
Defined.

(** "gargron" is looked up on the three default instances, in their order. *)
Lemma bare_username_asks_every_instance_witness :
  valid_username "gargron" /\
  requests (snd (Multi.handler "gargron" one_found start))
  = ["https://mastodon.social/api/v1/accounts/lookup?acct=gargron";
     "https://fosstodon.org/api/v1/accounts/lookup?acct=gargron";
     "https://mstdn.social/api/v1/accounts/lookup?acct=gargron"].
Proof.
  split; [exact valid_username_gargron|].
  exact (bare_username_asks_every_instance one_found start "gargron" valid_username_gargron).
Defined.

(** The endpoint of the single-instance server turns "gargron" away. *)
Lemma default_instance_is_never_asked_witness :
  includes "gargron" "@" = false /\
  requests (snd (Single.getMastodonProfile "gargron" all_found start))
  = ["https://mastodon.social/api/v1/accounts/lookup?acct=gargron"] /\
  exists b, Single.handler "gargron" all_found start
            = (Return {| status := 400; json := b |}, start).
Proof.
  split; [reflexivity|].
  exact (default_instance_is_never_asked all_found start "gargron" eq_refl).
Defined.

(** The empty object has no id: 404. *)
Lemma single_missing_id_is_404_witness :
  Data_truthy (DObj ∅) && truthy (prop (fields (DObj ∅)) "id") = false /\
  fst (Single.handler "gargron@mastodon.social" all_empty start)
  = Return {| status := 404;
              json := BError "Mastodon account gargron@mastodon.social not found or suspended" |}.
Proof.
  split; [reflexivity|].
  exact (f_equal fst
           (single_missing_id_is_404 all_empty start "gargron" "mastodon.social"
              {| Axios.status := 200; Axios.data := DObj ∅ |}
              valid_username_gargron valid_domain_social eq_refl eq_refl)).
Defined.

(** A found account, asked for by full handle. *)
Lemma full_handle_found_witness :
  RawProfile (DObj gargron) /\
  exists p st',
    Multi.handler "gargron@mastodon.social" all_found start
    = (Return {| status := 200; json := BProfile p |}, st') /\
    instance_used p = Some "mastodon.social" /\
    estimation_confidence p = "High (exact server timestamp)".
Proof.
  split; [exact RawProfile_gargron|].
  destruct (full_handle_found all_found start "gargron" "mastodon.social"
              {| Axios.status := 200; Axios.data := DObj gargron |}
              valid_username_gargron valid_domain_social eq_refl RawProfile_gargron)
    as (p & E & Hi & Hc & _).
  exists p. eexists. split; [exact E|]. split; [exact Hi | exact Hc].
Defined.

(** A [null] body, asked for by full handle: 500. *)
Lemma full_handle_unformattable_witness :
  fst (Multi.processProfileData (DPrim JNull) "mastodon.social" all_null
         (sent start ["https://mastodon.social/api/v1/accounts/lookup?acct=gargron"]))
  = Throw (TypeError "Cannot read properties of null (reading 'avatar_static')") /\
  fst (Multi.handler "gargron@mastodon.social" all_null start)
  = Return {| status := 500;
              json := BErrorDetails "Cannot read properties of null (reading 'avatar_static')"
                        (DPrim (JStr "Searched instances: mastodon.social, fosstodon.org, mstdn.social")) |}.
Proof.
  split; [reflexivity|].
  exact (f_equal fst
           (full_handle_unformattable all_null start _ "gargron" "mastodon.social"
              {| Axios.status := 200; Axios.data := DPrim JNull |}
              (TypeError "Cannot read properties of null (reading 'avatar_static')")
              valid_username_gargron valid_domain_social eq_refl eq_refl)).
Defined.

(** Found on the first instance only, "gargron" is answered with a
    profile that has an id and the tag of a configured instance. *)
Lemma bare_username_profiles_witness :
  valid_username "gargron" /\
  exists p st',
    Multi.handler "gargron" one_found start
    = (Return {| status := 200; json := BProfile p |}, st') /\
    truthy (user_id p) = true /\
    exists i, instance_used p = Some i /\ In i (Multi.instances one_found).
Proof.
  split; [exact valid_username_gargron|].
  destruct (bare_username_profiles one_found start "gargron" valid_username_gargron)
    as (res & st' & E & H).
  assert (E0 : exists p s,
             Multi.handler "gargron" one_found start
             = (Return {| status := 200; json := BProfile p |}, s))
    by (eexists; eexists; vm_compute; reflexivity).
  destruct E0 as (p & s & E0). rewrite E0 in E. injection E as <- <-.
  exists p, s. split; [exact E0 | exact H].
Defined.

(** The handle "gargron@mastodon.social" and its two parts. *)
Lemma accepted_handle_parts_witness :
  test Multi.handleRegex "gargron@mastodon.social" = true /\
  exists u d, "gargron@mastodon.social" = u +:+ "@" +:+ d /\
              split "gargron@mastodon.social" "@" = [u; d] /\
              valid_username u /\ valid_domain d.
Proof.
  split; [reflexivity|].
  destruct (accepted_handle_parts "gargron@mastodon.social" eq_refl)
    as [(Hi & _) | (_ & H)]; [discriminate Hi | exact H].
Defined.

(** The banner names fosstodon.org. *)
Lemma answers_name_every_instance_witness :
  In "fosstodon.org" (Multi.instances all_found) /\
  exists banner,
    Multi.root all_found start = (Return banner, start) /\ mentions banner "fosstodon.org".
Proof.
  split; [right; left; reflexivity|].
  exact (proj1 (answers_name_every_instance all_found start "gargron" "fosstodon.org"
                  (or_intror (or_introl eq_refl)))).
Defined.

(** An upstream 503 is written to the console twice. *)
Lemma single_logs_upstream_errors_witness :
  http_get all_unavailable 0 "https://mastodon.social/api/v1/accounts/lookup?acct=gargron"
  = Axios.Rejected "Request failed with status code 503"
      (Some {| Axios.status := 503; Axios.data := DPrim (JStr "Service Unavailable") |}) /\
  length (console (snd (Single.handler "gargron@mastodon.social" all_unavailable start)))
  = 2%nat.
Proof.
  split; [reflexivity|].
  exact (f_equal (@length Exn)
           (single_logs_upstream_errors all_unavailable start "gargron" "mastodon.social"
              _ _ valid_username_gargron valid_domain_social eq_refl)).
Defined.

(** A day passes between the two readings: the account is 400 days old in
    [account_age] and 401 in [age_days]. *)
Lemma age_fields_read_the_clock_twice_witness :
  (1458138866392 <= clock ticking 0 <= clock ticking 1)%Z /\
  exists p d1 d2,
    Multi.processProfileData (DObj gargron) "mastodon.social" ticking start
    = (Return p, tick2 start) /\
    d1 = 400%Z /\ d2 = 401%Z /\
    age_days p = Some d2 /\ account_age p = "1 years, 1 months".
Proof.
  split; [split; discriminate|].
  destruct (age_fields_read_the_clock_twice ticking start gargron "mastodon.social"
              "<p>Hello <b>world</b></p>" 1458138866392 eq_refl eq_refl eq_refl eq_refl)
    as (p & d1 & d2 & E & H1 & H2 & Hd & Ha & _); [split; discriminate|].
  exists p, d1, d2. split; [exact E|].
  split; [rewrite H1; reflexivity|]. split; [rewrite H2; reflexivity|].
  split; [exact Hd|]. rewrite Ha, H1. reflexivity.
Defined.

(** The account above, asked for on both servers. *)
Lemma servers_agree_on_a_found_account_witness :
  truthy (prop (fields (DObj gargron)) "id") = true /\
  exists p st',
    Multi.handler "gargron@mastodon.social" all_found start
    = (Return {| status := 200; json := BProfile p |}, st') /\
    Single.handler "gargron@mastodon.social" all_found start
    = (Return {| status := 200; json := BProfile (untagged p) |}, st').
Proof.
  split; [reflexivity|].
  destruct (servers_agree_on_a_found_account all_found start "gargron" "mastodon.social"
              {| Axios.status := 200; Axios.data := DObj gargron |}
              valid_username_gargron valid_domain_social eq_refl RawProfile_gargron eq_refl)
    as (p & st' & EM & ES & _).
  exists p, st'. split; [exact EM | exact ES].
Defined.
